(** * Case-file import pipeline: validation and transactional import

    A shallow embedding of the Python sources [validation.py],
    [excel_loader.py] and [app.py], followed by the properties of the
    validation-and-import pipeline that hold (or fail) on that code.

    Conventions of the embedding:
    - a Python [str] is a Rocq [string] whose characters are the code
      points 0..255; [lower] and [strip] are written out on that range;
    - a table cell is a tagged value ([cell]); NaN, None and NaT are the
      one empty cell;
    - numbers are exact rationals ([Q]); a timestamp is a number of
      nanoseconds ([Z]);
    - a raised exception is the [Raise] case of [result];
    - library calls whose code is not part of the repository (date
      parsing, number printing, file readers, the SQLite store) are the
      fields of the classes [Runtime] and [Store]. *)

From Stdlib Require Import List String Ascii Bool ZArith NArith QArith Qabs Lia.
Import ListNotations.

Local Open Scope string_scope.
Local Open Scope list_scope.
Local Open Scope Z_scope.

(** ** Exceptions and results *)

(** The exceptions of the embedding. [UnsupportedFileType p] is the
    [ValueError("Unsupported file type: p")] of the loader; [DatabaseError]
    is any error of the SQLite driver, [IOError] any error of a file
    reader. *)
Inductive exn : Type :=
| TypeError
| ValueError
| KeyError
| IndexError
| AttributeError
| DatabaseError
| IOError
| UnsupportedFileType (file_path : string).

Inductive result (A : Type) : Type :=
| Ok (a : A)
| Raise (e : exn).
Arguments Ok {A} a.
Arguments Raise {A} e.

Definition rbind {A B : Type} (r : result A) (k : A -> result B) : result B :=
  match r with
  | Ok a => k a
  | Raise e => Raise e
  end.

Declare Scope result_scope.
Delimit Scope result_scope with result.
Notation "x <- r ;; k" := (rbind r (fun x => k))
  (at level 61, r at next level, right associativity) : result_scope.

(** [for x in xs: body], where the body may raise: the first exception
    leaves the loop. *)
Fixpoint mapR {A B : Type} (f : A -> result B) (xs : list A) : result (list B) :=
  match xs with
  | [] => Ok []
  | x :: xs' =>
      match f x with
      | Raise e => Raise e
      | Ok y =>
          match mapR f xs' with
          | Raise e => Raise e
          | Ok ys => Ok (y :: ys)
          end
      end
  end.

(** [for x in xs: acc = body(acc, x)], where the body may raise. *)
Fixpoint foldR {A B : Type} (body : B -> A -> result B) (acc : B) (xs : list A)
    : result B :=
  match xs with
  | [] => Ok acc
  | x :: xs' =>
      match body acc x with
      | Raise e => Raise e
      | Ok acc' => foldR body acc' xs'
      end
  end.

(** ** Python strings *)

Module PyStr.

Definition code (c : ascii) : N := N_of_ascii c.

(** [str.isspace] on one character, code points below 256. *)
Definition is_space (c : ascii) : bool :=
  let n := code c in
  (((9 <=? n) && (n <=? 13)) || ((28 <=? n) && (n <=? 32))
   || (n =? 133) || (n =? 160))%N.

Fixpoint lstrip (s : string) : string :=
  match s with
  | EmptyString => EmptyString
  | String c s' => if is_space c then lstrip s' else s
  end.

Fixpoint rstrip (s : string) : string :=
  match s with
  | EmptyString => EmptyString
  | String c s' =>
      match rstrip s' with
      | EmptyString => if is_space c then EmptyString else String c EmptyString
      | t => String c t
      end
  end.

(** [s.strip()] *)
Definition strip (s : string) : string := rstrip (lstrip s).

(** [c in s] for a one-character [c]. *)
Fixpoint contains (c : ascii) (s : string) : bool :=
  match s with
  | EmptyString => false
  | String a s' => if Ascii.eqb a c then true else contains c s'
  end.

(** [s.split(c, 1)]: one element when [c] does not occur, else the text
    before the first [c] and the text after it. *)
Fixpoint split1 (c : ascii) (s : string) : list string :=
  match s with
  | EmptyString => [EmptyString]
  | String a s' =>
      if Ascii.eqb a c then [EmptyString; s']
      else
        match split1 c s' with
        | [h] => [String a h]
        | h :: t => String a h :: t
        | [] => [String a EmptyString]
        end
  end.

(** [l[i]], raising IndexError out of range. *)
Definition index {A : Type} (l : list A) (i : nat) : result A :=
  match nth_error l i with
  | Some x => Ok x
  | None => Raise IndexError
  end.

Definition lower_char (c : ascii) : ascii :=
  let n := code c in
  if (((65 <=? n) && (n <=? 90))
      || ((192 <=? n) && (n <=? 222) && negb (n =? 215)))%N
  then ascii_of_N (n + 32) else c.

(** [s.lower()] *)
Fixpoint lower (s : string) : string :=
  match s with
  | EmptyString => EmptyString
  | String c s' => String (lower_char c) (lower s')
  end.

(** [s.rfind(c)]: the last index of [c], or -1. *)
Fixpoint rfind_from (c : ascii) (s : string) (i acc : Z) : Z :=
  match s with
  | EmptyString => acc
  | String a s' => rfind_from c s' (i + 1) (if Ascii.eqb a c then i else acc)
  end.

Definition rfind (c : ascii) (s : string) : Z := rfind_from c s 0 (-1).

(** The loop of [genericpath._splitext] that skips the leading dots of
    the file name: [true] when a character other than the dot occurs in
    [p[filenameIndex : filenameIndex + n]]. *)
Fixpoint has_non_dot (p : string) (filenameIndex n : nat) : bool :=
  match n with
  | O => false
  | S n' =>
      match String.get filenameIndex p with
      | Some a =>
          if Ascii.eqb a "." then has_non_dot p (S filenameIndex) n' else true
      | None => true
      end
  end.

(** [os.path.splitext(p)] (posixpath: separator [/], extension
    separator [.]). *)
Definition splitext (p : string) : string * string :=
  let sepIndex := rfind "/" p in
  let dotIndex := rfind "." p in
  if (sepIndex <? dotIndex)
     && has_non_dot p (Z.to_nat (sepIndex + 1)) (Z.to_nat (dotIndex - (sepIndex + 1)))
  then (substring 0 (Z.to_nat dotIndex) p,
        substring (Z.to_nat dotIndex) (String.length p - Z.to_nat dotIndex) p)
  else (p, EmptyString).

(** [x in xs] for a list of strings. *)
Definition mem (x : string) (xs : list string) : bool :=
  existsb (String.eqb x) xs.

End PyStr.

(** ** Cells, rows and tables *)

(** One scalar of a DataFrame. [CTime] is a [pd.Timestamp] or a
    [datetime] (nanoseconds); [CEmpty] is NaN, None or NaT. *)
Inductive cell : Type :=
| CEmpty
| CText (s : string)
| CNum (q : Q)
| CTime (t : Z).

(** [pd.isna(x)] *)
Definition isna (c : cell) : bool :=
  match c with
  | CEmpty => true
  | _ => false
  end.

(** [isinstance(x, (pd.Timestamp, datetime))] *)
Definition is_timestamp (c : cell) : bool :=
  match c with
  | CTime _ => true
  | _ => false
  end.

(** [x == s] for a string literal [s]. *)
Definition cell_is (c : cell) (s : string) : bool :=
  match c with
  | CText t => String.eqb t s
  | _ => false
  end.

(** [x in xs] for a list of string literals. *)
Definition cell_in (c : cell) (xs : list string) : bool :=
  match c with
  | CText t => PyStr.mem t xs
  | _ => false
  end.

(** [':' in x]: a membership test on a value that is not a string raises
    TypeError (a float, an int and a Timestamp are not iterable). *)
Definition colon_in (c : cell) : result bool :=
  match c with
  | CText t => Ok (PyStr.contains ":" t)
  | _ => Raise TypeError
  end.

(** [x.split(':', 1)]; a value that is not a string has no [split]. *)
Definition split_colon (c : cell) : result (list string) :=
  match c with
  | CText t => Ok (PyStr.split1 ":" t)
  | _ => Raise AttributeError
  end.

(** A row as [iterrows] yields it: the labelled values of one line. *)
Definition Row : Type := list (string * cell).

Record DataFrame : Type := mkDataFrame {
  columns : list string;
  data : list (list cell)
}.

(** The row of a line of values; a line shorter than the header is
    filled with empty cells. *)
Fixpoint series (cols : list string) (vals : list cell) : Row :=
  match cols with
  | [] => []
  | c :: cs => (c, hd CEmpty vals) :: series cs (tl vals)
  end.

Fixpoint lookup (r : Row) (col : string) : option cell :=
  match r with
  | [] => None
  | (k, v) :: r' => if String.eqb k col then Some v else lookup r' col
  end.

(** [row[col]] *)
Definition getitem (r : Row) (col : string) : result cell :=
  match lookup r col with
  | Some v => Ok v
  | None => Raise KeyError
  end.

(** [row.get(col)]: None, hence empty, when the label is absent. *)
Definition get (r : Row) (col : string) : cell :=
  match lookup r col with
  | Some v => v
  | None => CEmpty
  end.

(** [col in row] *)
Definition has_label (r : Row) (col : string) : bool :=
  match lookup r col with
  | Some _ => true
  | None => false
  end.

Fixpoint enumerate_from {A : Type} (i : Z) (xs : list A) : list (Z * A) :=
  match xs with
  | [] => []
  | x :: xs' => (i, x) :: enumerate_from (i + 1) xs'
  end.

(** [enumerate(xs)] *)
Definition enumerate {A : Type} (xs : list A) : list (Z * A) := enumerate_from 0 xs.

(** [df.iterrows()] on a freshly loaded table (index 0, 1, 2, ...). *)
Definition iterrows (df : DataFrame) : list (Z * Row) :=
  enumerate (map (series (columns df)) (data df)).

(** [len(df)] *)
Definition len (df : DataFrame) : Z := Z.of_nat (List.length (data df)).

(** ** Library calls outside the repository *)

Class Runtime : Type := {
  (** [datetime.strptime(s, "%m/%d/%Y %I:%M %p")] returns. *)
  strptime_ok : string -> bool;
  (** [str(x)] on a number. *)
  str_of_num : Q -> string;
  (** [pd.to_datetime(x)] on a scalar that is not a timestamp: a
      timestamp, NaT ([None]) or an exception. *)
  to_datetime : cell -> result (option Z);
  (** [float(s)] on a string. *)
  float_of_string : string -> option Q;
  (** [ts.strftime("%Y-%m-%d %H:%M:%S")] *)
  strftime : Z -> string;
  (** [pd.read_excel(path)] *)
  read_excel : string -> result DataFrame;
  (** [pd.read_csv(path, delimiter=d)] *)
  read_csv : string -> string -> result DataFrame;
  (** Whether [DataFrame.to_sql] ends its own transaction on the
      connection (commit when every row went in, rollback otherwise). *)
  to_sql_commits : bool
}.

(** ** validation.py *)

Module Validation.

Definition VALID_ENTRY_TYPES : list string :=
  [ "email-type"; "doc-type"; "meeting-type"; "phone-call-type";
    "case-note-type"; "billing-type"; "other-type" ].

Definition BILLING_CATEGORIES : list string :=
  [ "Hearing Preparation"; "Hearing"; "Hearing Notes & Follow-up";
    "Billing & Invoicing"; "Draft correspondence"; "Draft email";
    "Draft documents"; "Draft records"; "Review correspondence";
    "Review email"; "Review documents"; "Review records";
    "Client Interview Preparation"; "Client Interview";
    "Client Interview Notes & Follow-up"; "Client Meeting Preparation";
    "Client Meeting"; "Client Meeting Notes & Follow-up";
    "Client Status Update Preparation"; "Client Status Update";
    "Client Status Update Notes & Follow-up";
    "Conference with Attorney Preparation"; "Conference with Attorney";
    "Conference with Attorney Notes & Follow-up";
    "Settlement Agreement Drafting";
    "Settlement Agreement Review & Analysis";
    "Court Appearance Preparation"; "Court Appearance";
    "Court Appearance Notes & Follow-up"; "Mediation Meeting Preparation";
    "Mediation Meeting"; "Mediation Meeting Notes & Follow-up";
    "Discovery Drafting"; "Discovery Review"; "Discovery Production";
    "Legal Research"; "Settlement Preparation"; "Settlement";
    "Settlement Notes & Follow-up"; "Mediation Preparation"; "Mediation";
    "Mediation Notes & Follow-up";
    "Meeting with Opposing Counsel Preparation";
    "Meeting with Opposing Counsel";
    "Meeting with Opposing Counsel Notes & Follow-up";
    "Phone Call Preparation"; "Phone Call"; "Phone Call Notes & Follow-up";
    "Prepare Report"; "Review Report";
    "Team/Case Strategy Meeting Preparation"; "Team/Case Strategy Meeting";
    "Team/Case Strategy Meeting Notes & Follow-up"; "Trial Preparation";
    "Travel Time" ].

Definition CPCS_BILLING_CATEGORIES : list string :=
  [ "Client Interview"; "Conference With Attorney"; "Court Appearance";
    "Examine/Test Material"; "Phone Calls"; "Prepare Report";
    "Review Documents"; "Travel Time" ].

Definition required_columns : list string :=
  [ "type"; "date"; "title"; "from"; "to"; "cc"; "content";
    "attachments"; "synopsis"; "comments" ].

(** An entry of [invalid_types]; [tv_type] is the offending cell (the
    source stores its [str], or "NA" for an empty one). *)
Record TypeViolation : Type := mkTypeViolation {
  tv_row : Z;
  tv_type : cell
}.

Inductive Allowed : Type :=
| AllowedCPCS
| AllowedGeneral.

Record CategoryError : Type := mkCategoryError {
  ce_row : Z;
  ce_category : string;
  ce_allowed : Allowed
}.

(** An entry of [date_format_errors]. The cells stand for their [str]
    and the exception for its message. *)
Inductive DateError : Type :=
| BillingSequence (row : Z) (start stop : cell)
| BillingDuration (row : Z) (calculated : Q) (provided : cell)
| DateFormat (row : Z) (date : cell) (error : exn).

Record SampleErrors : Type := mkSampleErrors {
  sample_invalid_types : list TypeViolation;
  sample_date_format_errors : list DateError;
  sample_billing_category_errors : list CategoryError
}.

Record Report : Type := mkReport {
  valid : bool;
  missing_columns : list string;
  invalid_types : list TypeViolation;
  date_format_errors : list DateError;
  billing_category_errors : list CategoryError;
  sample_errors : SampleErrors
}.

Definition nonempty {A : Type} (l : list A) : bool :=
  match l with
  | [] => false
  | _ :: _ => true
  end.

(** The body of the loop over [enumerate(df['type'])]. *)
Definition check_entry_type (it : Z * cell) : list TypeViolation :=
  let (idx, entry_type) := it in
  if isna entry_type || negb (cell_in entry_type VALID_ENTRY_TYPES)
  then [ mkTypeViolation (idx + 2) entry_type ]
  else [].

Definition is_cpcs : bool := false.

(** The category the validator reads off a title: none when the title
    is empty or holds no colon. *)
Definition title_category (title : cell) : result (option string) :=
  if isna title then Ok None
  else
    (has_colon <- colon_in title ;;
     if has_colon : bool then
       (parts <- split_colon title ;;
        part <- PyStr.index parts 1 ;;
        Ok (Some (PyStr.strip part)))
     else Ok None)%result.

Definition check_category (idx : Z) (category : string) : list CategoryError :=
  if is_cpcs && negb (PyStr.mem category CPCS_BILLING_CATEGORIES)
  then [ mkCategoryError (idx + 2) category AllowedCPCS ]
  else if negb is_cpcs && negb (PyStr.mem category BILLING_CATEGORIES)
  then [ mkCategoryError (idx + 2) category AllowedGeneral ]
  else [].

(** The body of the billing-category loop. *)
Definition check_billing_category (it : Z * Row) : result (list CategoryError) :=
  let (idx, row) := it in
  (ty <- getitem row "type" ;;
   if cell_is ty "billing-type" then
     (title <- getitem row "title" ;;
      category <- title_category title ;;
      match category with
      | Some c => Ok (check_category idx c)
      | None => Ok []
      end)
   else Ok [])%result.

(** Statements that append to [date_errors] and may raise: the errors
    appended so far survive the exception. *)
Definition Acc (A : Type) : Type := list DateError * result A.

Definition aret {A : Type} (a : A) : Acc A := ([], Ok a).

Definition abind {A B : Type} (m : Acc A) (k : A -> Acc B) : Acc B :=
  match m with
  | (errs, Ok a) => let (errs', r) := k a in (errs ++ errs', r)
  | (errs, Raise e) => (errs, Raise e)
  end.

Definition lift {A : Type} (r : result A) : Acc A := ([], r).

Definition append (e : DateError) : Acc unit := ([e], Ok tt).

Declare Scope acc_scope.
Delimit Scope acc_scope with acc.
Notation "x <- m ;; k" := (abind m (fun x => k))
  (at level 61, m at next level, right associativity) : acc_scope.
Notation "m ;; k" := (abind m (fun _ => k))
  (at level 61, right associativity) : acc_scope.

(** [td.total_seconds()] of a difference of timestamps. *)
Definition total_seconds (ns : Z) : Q := ns # 1000000000.

(** [start_dt >= stop_dt]; a comparison with NaT is false. *)
Definition ts_ge (start_dt stop_dt : option Z) : bool :=
  match start_dt, stop_dt with
  | Some a, Some b => b <=? a
  | _, _ => false
  end.

(** [(stop_dt - start_dt).total_seconds() / 3600]; NaN with a NaT. *)
Definition duration_hours (start_dt stop_dt : option Z) : option Q :=
  match start_dt, stop_dt with
  | Some a, Some b => Some (total_seconds (b - a) / (3600 # 1))%Q
  | _, _ => None
  end.

(** [abs(duration - hrs) > 0.01] *)
Definition off_tolerance (duration hrs : Q) : bool :=
  negb (Qle_bool (Qabs (duration - hrs)) (1 # 100)).

Definition caught (e : exn) : bool :=
  match e with
  | ValueError | TypeError | UnsupportedFileType _ => true
  | _ => false
  end.

Section WithRuntime.
Context {RT : Runtime}.

(** [str(x)] of a cell. *)
Definition str_of_cell (c : cell) : string :=
  match c with
  | CText s => s
  | CNum q => str_of_num q
  | CTime t => strftime t
  | CEmpty => "nan"
  end.

(** [datetime.strptime(str(date), "%m/%d/%Y %I:%M %p")] *)
Definition strptime (date : cell) : result unit :=
  if strptime_ok (str_of_cell date) then Ok tt else Raise ValueError.

(** A billing time as a timestamp: itself when it is one, else
    [pd.to_datetime]. *)
Definition as_datetime (c : cell) : result (option Z) :=
  match c with
  | CTime t => Ok (Some t)
  | _ => to_datetime c
  end.

(** [float(x)] *)
Definition float_of (c : cell) : result Q :=
  match c with
  | CNum q => Ok q
  | CText s =>
      match float_of_string s with
      | Some q => Ok q
      | None => Raise ValueError
      end
  | CTime _ => Raise TypeError
  | CEmpty => Raise TypeError
  end.

(** The [try] block of the date loop for one row. *)
Definition date_checks (idx : Z) (row : Row) : Acc unit :=
  (date <- lift (getitem row "date") ;;
   if isna date then aret tt
   else
     (if negb (is_timestamp date) then lift (strptime date) else aret tt) ;;
     ty <- lift (getitem row "type") ;;
     if cell_is ty "billing-type" then
       let billing_start := get row "billing-start" in
       let billing_stop := get row "billing-stop" in
       let billing_hrs := get row "billing-hrs" in
       if negb (isna billing_start) && negb (isna billing_stop) then
         start_dt <- lift (as_datetime billing_start) ;;
         stop_dt <- lift (as_datetime billing_stop) ;;
         (if ts_ge start_dt stop_dt
          then append (BillingSequence (idx + 2) billing_start billing_stop)
          else aret tt) ;;
         if negb (isna billing_hrs) then
           let duration := duration_hours start_dt stop_dt in
           hrs <- lift (float_of billing_hrs) ;;
           match duration with
           | Some d =>
               if off_tolerance d hrs
               then append (BillingDuration (idx + 2) d billing_hrs)
               else aret tt
           | None => aret tt
           end
         else aret tt
       else aret tt
     else aret tt)%acc.

(** The body of the date loop: [try ... except (ValueError, TypeError)]. *)
Definition check_row_dates (it : Z * Row) : result (list DateError) :=
  let (idx, row) := it in
  match date_checks idx row with
  | (errs, Ok _) => Ok errs
  | (errs, Raise e) =>
      if caught e
      then Ok (errs ++ [ DateFormat (idx + 2) (get row "date") e ])
      else Raise e
  end.

(** The dictionary [validation] as it is first built:
    [sample_errors] is empty. *)
Definition no_samples : SampleErrors := mkSampleErrors [] [] [].

Definition initial : Report := mkReport true [] [] [] [] no_samples.

(** [validation["valid"] = b] *)
Definition set_valid (b : bool) (v : Report) : Report :=
  mkReport b (missing_columns v) (invalid_types v) (date_format_errors v)
    (billing_category_errors v) (sample_errors v).

(** [validation["missing_columns"].append(col)] *)
Definition append_missing_column (col : string) (v : Report) : Report :=
  mkReport (valid v) (missing_columns v ++ [col]) (invalid_types v)
    (date_format_errors v) (billing_category_errors v) (sample_errors v).

(** [validation["invalid_types"] = l] *)
Definition set_invalid_types (l : list TypeViolation) (v : Report) : Report :=
  mkReport (valid v) (missing_columns v) l (date_format_errors v)
    (billing_category_errors v) (sample_errors v).

(** [validation["billing_category_errors"] = l] *)
Definition set_billing_category_errors (l : list CategoryError) (v : Report) : Report :=
  mkReport (valid v) (missing_columns v) (invalid_types v) (date_format_errors v)
    l (sample_errors v).

(** [validation["date_format_errors"] = l] *)
Definition set_date_format_errors (l : list DateError) (v : Report) : Report :=
  mkReport (valid v) (missing_columns v) (invalid_types v) l
    (billing_category_errors v) (sample_errors v).

(** [validation["sample_errors"] = x] *)
Definition set_sample_errors (x : SampleErrors) (v : Report) : Report :=
  mkReport (valid v) (missing_columns v) (invalid_types v) (date_format_errors v)
    (billing_category_errors v) x.

(** The loop over [required_columns]. *)
Definition check_columns (df : DataFrame) (validation : Report) : Report :=
  fold_left
    (fun validation col =>
       if negb (PyStr.mem col (columns df))
       then append_missing_column col (set_valid false validation)
       else validation)
    required_columns validation.

(** [l[:5] if l else []] *)
Definition sample {A : Type} (l : list A) : list A :=
  if nonempty l then firstn 5 l else [].

Definition validate_case_file_data (df : DataFrame) : result Report :=
  let validation := check_columns df initial in
  if negb (valid validation) then Ok validation
  else
    let invalid_types :=
      flat_map check_entry_type
        (enumerate (map (fun vals => get (series (columns df) vals) "type") (data df))) in
    let validation :=
      if nonempty invalid_types
      then set_invalid_types invalid_types (set_valid false validation)
      else validation in
    (category_errors <- mapR check_billing_category (iterrows df) ;;
     let billing_category_errors := List.concat category_errors in
     let validation :=
       if nonempty billing_category_errors
       then set_billing_category_errors billing_category_errors
              (set_valid false validation)
       else validation in
     row_errors <- mapR check_row_dates (iterrows df) ;;
     let date_errors := List.concat row_errors in
     let validation :=
       if nonempty date_errors
       then set_date_format_errors date_errors (set_valid false validation)
       else validation in
     Ok (set_sample_errors
           (mkSampleErrors (sample invalid_types) (sample date_errors)
              (sample billing_category_errors))
           validation))%result.

End WithRuntime.

End Validation.

(** ** DataFrame operations used by the mapper and the importers *)

Module Frame.

(** The values of a line, one per column, with [f] applied under the
    column [col]. *)
Fixpoint map_col (cols : list string) (col : string) (f : cell -> cell)
    (vals : list cell) : list cell :=
  match cols with
  | [] => []
  | c :: cs =>
      (if String.eqb c col then f (hd CEmpty vals) else hd CEmpty vals)
        :: map_col cs col f (tl vals)
  end.

(** [df[col] = df[col].map(f)] *)
Definition update_column (df : DataFrame) (col : string) (f : cell -> cell) : DataFrame :=
  mkDataFrame (columns df) (map (map_col (columns df) col f) (data df)).

(** [df[col] = v] for a scalar [v]: the column is overwritten, or added
    last when the table has none of that name. *)
Definition assign (df : DataFrame) (col : string) (v : cell) : DataFrame :=
  if PyStr.mem col (columns df) then update_column df col (fun _ => v)
  else mkDataFrame (columns df ++ [col])
         (map (fun vals => map snd (series (columns df) vals) ++ [v]) (data df)).

(** [df.rename(columns=mapping)] *)
Definition rename (df : DataFrame) (mapping : list (string * string)) : DataFrame :=
  let new_name c :=
    match find (fun kv => String.eqb (fst kv) c) mapping with
    | Some kv => snd kv
    | None => c
    end in
  mkDataFrame (map new_name (columns df)) (data df).

(** [df[cols]]: the table restricted to the columns [cols], in that order. *)
Definition select (df : DataFrame) (cols : list string) : DataFrame :=
  mkDataFrame cols
    (map (fun vals => map (get (series (columns df) vals)) cols) (data df)).

(** [df[col]] as a list of values. *)
Definition column (df : DataFrame) (col : string) : list cell :=
  map (fun vals => get (series (columns df) vals) col) (data df).

(** [pd.api.types.is_datetime64_dtype(df[col])]: every value of the
    column is a timestamp or NaT. *)
Definition is_datetime64_dtype (vals : list cell) : bool :=
  forallb (fun c => is_timestamp c || isna c) vals.

Section WithRuntime.
Context {RT : Runtime}.

(** One value under [pd.to_datetime(..., errors='coerce')]: what does
    not parse becomes NaT. *)
Definition coerce_datetime (c : cell) : cell :=
  match c with
  | CTime t => CTime t
  | CEmpty => CEmpty
  | _ =>
      match to_datetime c with
      | Ok (Some t) => CTime t
      | _ => CEmpty
      end
  end.

(** The loop over [date_columns] of the mapper. *)
Definition coerce_date_columns (date_columns : list string) (df : DataFrame) : DataFrame :=
  fold_left
    (fun prepared_df col =>
       if PyStr.mem col (columns prepared_df) then
         if negb (is_datetime64_dtype (column prepared_df col))
         then update_column prepared_df col coerce_datetime
         else prepared_df
       else prepared_df)
    date_columns df.

End WithRuntime.

End Frame.

(** ** The SQLite store and a connection to it *)

Module Sql.

(** A row of [case_file_entries]: the generated key and the inserted
    column values. *)
Record Entry : Type := mkEntry {
  entry_id : Z;
  entry_values : list (string * cell)
}.

(** The seven values of an INSERT into [billing_entries]. *)
Record BillingValues : Type := mkBillingValues {
  bv_case_id : Z;
  bv_entry_id : Z;
  bv_billing_category : cell;
  bv_billing_start : cell;
  bv_billing_stop : cell;
  bv_billing_hours : cell;
  bv_billing_description : cell
}.

Record Billing : Type := mkBilling {
  billing_id : Z;
  billing_values : BillingValues
}.

Record Db : Type := mkDb {
  entries : list Entry;
  billing_entries : list Billing
}.

(** What the store decides: the columns [PRAGMA table_info] lists for
    [case_file_entries], and whether an INSERT is accepted (parameter
    binding, constraints) in a given state of the tables. *)
Class Store : Type := {
  table_columns : list string;
  entry_ok : Db -> list (string * cell) -> bool;
  billing_ok : Db -> BillingValues -> bool
}.

(** A connection: what is committed (and visible to every other
    connection), the tables as this connection sees them inside its
    open transaction, and [last_insert_rowid()]. *)
Record Conn : Type := mkConn {
  committed : Db;
  working : Db;
  last_rowid : Z
}.

(** [sqlite3.connect(db_path)] on a database holding [db]. *)
Definition connect (db : Db) : Conn := mkConn db db 0.

(** The key SQLite gives a new row: one more than the largest in the table. *)
Definition next_rowid (ids : list Z) : Z := 1 + fold_right Z.max 0 ids.

(** Code that reads and writes a state [S] and may raise; the state
    reached when the exception is raised is kept. *)
Definition M (S A : Type) : Type := S -> result A * S.

Definition ret {S A : Type} (a : A) : M S A := fun s => (Ok a, s).

Definition bind {S A B : Type} (m : M S A) (k : A -> M S B) : M S B :=
  fun s =>
    match m s with
    | (Ok a, s') => k a s'
    | (Raise e, s') => (Raise e, s')
    end.

Definition raise {S A : Type} (e : exn) : M S A := fun s => (Raise e, s).

Definition liftR {S A : Type} (r : result A) : M S A := fun s => (r, s).

(** [try: body except Exception as e: handler(e)] *)
Definition try_except {S A : Type} (body : M S A) (handler : exn -> M S A) : M S A :=
  fun s =>
    match body s with
    | (Ok a, s') => (Ok a, s')
    | (Raise e, s') => handler e s'
    end.

Declare Scope monad_scope.
Delimit Scope monad_scope with monad.
Notation "x <- m ;; k" := (bind m (fun x => k))
  (at level 61, m at next level, right associativity) : monad_scope.
Notation "m ;; k" := (bind m (fun _ => k))
  (at level 61, right associativity) : monad_scope.

(** [for x in xs: acc = body(acc, x)] *)
Fixpoint foldM {S A B : Type} (body : B -> A -> M S B) (acc : B) (xs : list A) : M S B :=
  match xs with
  | [] => ret acc
  | x :: xs' => (acc' <- body acc x ;; foldM body acc' xs')%monad
  end.

(** [conn.commit()] *)
Definition commit : M Conn unit :=
  fun c => (Ok tt, mkConn (working c) (working c) (last_rowid c)).

(** [conn.rollback()] *)
Definition rollback : M Conn unit :=
  fun c => (Ok tt, mkConn (committed c) (committed c) (last_rowid c)).

(** [cursor.lastrowid] after an INSERT, and [SELECT last_insert_rowid()]. *)
Definition lastrowid : M Conn Z := fun c => (Ok (last_rowid c), c).

Section WithStore.
Context {ST : Store}.

(** [INSERT INTO case_file_entries (columns) VALUES (values)]. The
    store generates the key: the tables of the model carry no
    [entry_id] value of their own. *)
Definition insert_entry (values : list (string * cell)) : M Conn unit :=
  fun c =>
    let db := working c in
    if entry_ok db values then
      let id := next_rowid (map entry_id (entries db)) in
      (Ok tt,
       mkConn (committed c)
         (mkDb (entries db ++ [ mkEntry id values ]) (billing_entries db))
         id)
    else (Raise DatabaseError, c).

(** [INSERT INTO billing_entries (...) VALUES (?, ?, ?, ?, ?, ?, ?)] *)
Definition insert_billing (values : BillingValues) : M Conn unit :=
  fun c =>
    let db := working c in
    if billing_ok db values then
      let id := next_rowid (map billing_id (billing_entries db)) in
      (Ok tt,
       mkConn (committed c)
         (mkDb (entries db) (billing_entries db ++ [ mkBilling id values ]))
         id)
    else (Raise DatabaseError, c).

Section WithRuntime.
Context {RT : Runtime}.

(** [df.to_sql('case_file_entries', conn, if_exists='append',
    index=False)]: the rows go in one after the other, an empty
    cell as NULL. *)
Definition to_sql (df : DataFrame) : M Conn unit :=
  fun c =>
    match foldM (fun (_ : unit) vals => insert_entry (series (columns df) vals))
            tt (data df) c with
    | (Ok _, c') => if to_sql_commits then commit c' else (Ok tt, c')
    | (Raise e, c') =>
        (Raise e, if to_sql_commits then snd (rollback c') else c')
    end.

End WithRuntime.
End WithStore.

End Sql.

(** ** What an import does outside the process, in order *)

Inductive event : Type :=
| ReadExcel (file_path : string)
| ReadCsv (file_path : string) (delimiter : string)
| Connect
| Close.

Definition tab : string := String (ascii_of_N 9) EmptyString.

(** The [message] of an import's result. *)
Inductive message : Type :=
| MsgEmpty
| MsgUnsupported (file_ext : string)
| MsgValidationFailed
| MsgSuccess (entries_added : Z)
| MsgError (e : exn).

(** ** app.py *)

Module App.
Import Sql.

(** [expected_schema["case_file_entries"]] of [db_health_check]. *)
Definition expected_case_file_entries : list string :=
  [ "entry_id"; "case_id"; "type"; "date"; "title"; "from_party"; "to_party";
    "cc_party"; "content"; "attachments"; "synopsis"; "comments";
    "billing_start"; "billing_stop"; "billing_hrs" ].

Definition required_columns : list string :=
  [ "type"; "date"; "title"; "from"; "to"; "cc"; "content"; "attachments";
    "synopsis"; "comments" ].

Definition valid_types : list string :=
  [ "email-type"; "doc-type"; "meeting-type"; "phone-call-type";
    "case-note-type"; "billing-type"; "other-type" ].

(** An entry of [invalid_entries]; [ie_type] is the cell the message
    [Invalid entry type: ...] prints. *)
Record InvalidEntry : Type := mkInvalidEntry {
  ie_row : Z;
  ie_type : cell
}.

Record Report : Type := mkReport {
  valid : bool;
  missing_columns : list string;
  invalid_entries : list InvalidEntry
}.

(** [validation["valid"] = False] followed by
    [validation["invalid_entries"].append(entry)] *)
Definition record_invalid_entry (entry : InvalidEntry) (v : Report) : Report :=
  mkReport false (missing_columns v) (invalid_entries v ++ [entry]).

(** The loop over [required_columns]. *)
Definition check_columns (df : DataFrame) (validation : Report) : Report :=
  fold_left
    (fun validation col =>
       if negb (PyStr.mem col (columns df))
       then mkReport false (missing_columns validation ++ [col])
              (invalid_entries validation)
       else validation)
    required_columns validation.

(** The body of the loop over [df.iterrows()]. *)
Definition check_entry (validation : Report) (it : Z * Row) : result Report :=
  let (i, row) := it in
  (entry_type <- getitem row "type" ;;
   Ok (if isna entry_type || negb (cell_in entry_type valid_types)
       then record_invalid_entry (mkInvalidEntry (i + 1) entry_type) validation
       else validation))%result.

Definition validate_case_file_data (df : DataFrame) : result Report :=
  let validation := check_columns df (mkReport true [] []) in
  if negb (valid validation) then Ok validation
  else foldR check_entry validation (iterrows df).

Definition column_mapping : list (string * string) :=
  [ ("from", "from_party"); ("to", "to_party"); ("cc", "cc_party");
    ("billing-start", "billing_start"); ("billing-stop", "billing_stop");
    ("billing-hrs", "billing_hrs") ].

Definition date_columns : list string := [ "date"; "billing_start"; "billing_stop" ].

Record Results : Type := mkResults {
  success : bool;
  msg : message;
  entries_added : Z;
  errors : list exn;
  validation_errors : option Report
}.

(** The billing category [create_billing_entry] reads off the title:
    the stripped text after the first colon, or the title itself. *)
Definition billing_category (title : cell) : result cell :=
  (has_colon <- colon_in title ;;
   if has_colon : bool then
     (parts <- split_colon title ;;
      part <- PyStr.index parts 1 ;;
      Ok (CText (PyStr.strip part)))
   else Ok title)%result.

Section WithWorld.
Context {RT : Runtime} {ST : Store}.

Definition prepare_data_for_db (df : DataFrame) (case_id : Z) : DataFrame :=
  let prepared_df := Frame.assign df "case_id" (CNum (inject_Z case_id)) in
  let prepared_df := Frame.rename prepared_df column_mapping in
  Frame.coerce_date_columns date_columns prepared_df.

(** A timestamp as the text [strftime("%Y-%m-%d %H:%M:%S")] gives;
    any other value as it is. *)
Definition format_timestamp (val : cell) : cell :=
  match val with
  | CTime t => CText (strftime t)
  | _ => val
  end.

Definition create_billing_entry (case_id entry_id : Z) (row : Row) : M Conn unit :=
  (title <- liftR (getitem row "title") ;;
   billing_category <- liftR (billing_category title) ;;
   billing_start <- liftR (getitem row "billing_start") ;;
   let billing_start := format_timestamp billing_start in
   billing_stop <- liftR (getitem row "billing_stop") ;;
   let billing_stop := format_timestamp billing_stop in
   billing_hrs <- liftR (getitem row "billing_hrs") ;;
   content <- liftR (getitem row "content") ;;
   insert_billing
     (mkBillingValues case_id entry_id billing_category billing_start
        billing_stop billing_hrs content))%monad.

(** The body of the loop over [filtered_df.iterrows()]. *)
Definition insert_row (case_id : Z) (df_columns : list string)
    (entries_added : Z) (it : Z * Row) : M Conn Z :=
  let row := snd it in
  let values := map (fun col => format_timestamp (get row col)) df_columns in
  (insert_entry (combine df_columns values) ;;
   let entries_added := entries_added + 1 in
   entry_id <- lastrowid ;;
   ty <- liftR (getitem row "type") ;;
   (if cell_is ty "billing-type"
    then create_billing_entry case_id entry_id row
    else ret tt) ;;
   ret entries_added)%monad.

Definition insert_data_to_db (df : DataFrame) (case_id : Z) : M Conn Z :=
  try_except
    (let df_columns := filter (fun col => PyStr.mem col table_columns) (columns df) in
     let filtered_df := Frame.select df df_columns in
     (entries_added <- foldM (insert_row case_id df_columns) 0 (iterrows filtered_df) ;;
      commit ;;
      ret entries_added)%monad)
    (fun e => (rollback ;; raise e)%monad).

(** The handler of [load_excel_to_db]: the message and the error are
    recorded, [success] and [entries_added] stay as they were set. *)
Definition failed (results : Results) (e : exn) : Results :=
  mkResults (success results) (MsgError e) (entries_added results)
    (errors results ++ [e]) (validation_errors results).

(** [load_excel_to_db(file_path, db_path, case_id)] on a database that
    holds [db]: the result, the database afterwards, and what was
    read and opened on the way. *)
Definition load_excel_to_db (file_path : string) (db : Db) (case_id : Z)
    : Results * Db * list event :=
  let results := mkResults false MsgEmpty 0 [] None in
  let file_ext := snd (PyStr.splitext (PyStr.lower file_path)) in
  let loaded :=
    if PyStr.mem file_ext [ ".xlsx"; ".xls"; ".xlsm" ]
    then Some (read_excel file_path, [ ReadExcel file_path ])
    else if String.eqb file_ext ".csv"
    then Some (read_csv file_path tab, [ ReadCsv file_path tab ])
    else None in
  match loaded with
  | None => (mkResults false (MsgUnsupported file_ext) 0 [] None, db, [])
  | Some (Raise e, trace) => (failed results e, db, trace)
  | Some (Ok df, trace) =>
      match validate_case_file_data df with
      | Raise e => (failed results e, db, trace)
      | Ok validation =>
          if negb (valid validation) then
            (mkResults false MsgValidationFailed 0 [] (Some validation), db, trace)
          else
            let conn := connect db in
            let prepared_df := prepare_data_for_db df case_id in
            match insert_data_to_db prepared_df case_id conn with
            | (Ok entries_added, conn') =>
                (mkResults true (MsgSuccess entries_added) entries_added [] None,
                 committed conn', trace ++ [ Connect; Close ])
            | (Raise e, conn') =>
                (failed results e, committed conn', trace ++ [ Connect ])
            end
      end
  end.

End WithWorld.

End App.

(** ** data_processing.py (imported by excel_loader.py) *)

Module DataProcessing.

Section WithRuntime.
Context {RT : Runtime}.

(** Modelled from the spec: [prepare_data_for_import], whose module
    [data_processing] the loader imports. The Row Mapper of the
    specification attaches the case identifier to every row, renames
    the six source columns to their storage names, and coerces
    [date], [billing_start] and [billing_stop] to timestamps,
    an unparseable or absent value becoming null. *)
Definition prepare_data_for_import (df : DataFrame) (case_id : Z) : DataFrame :=
  let prepared_df := Frame.assign df "case_id" (CNum (inject_Z case_id)) in
  let prepared_df :=
    Frame.rename prepared_df
      [ ("from", "from_party"); ("to", "to_party"); ("cc", "cc_party");
        ("billing-start", "billing_start"); ("billing-stop", "billing_stop");
        ("billing-hrs", "billing_hrs") ] in
  Frame.coerce_date_columns [ "date"; "billing_start"; "billing_stop" ] prepared_df.

End WithRuntime.

End DataProcessing.

(** ** excel_loader.py *)

Module ExcelLoader.
Import Sql.

Definition identify_file_type (file_path : string) : string :=
  let ext := snd (PyStr.splitext (PyStr.lower file_path)) in
  if PyStr.mem ext [ ".xlsx"; ".xls"; ".xlsm" ] then "excel"
  else if String.eqb ext ".csv" then "csv"
  else "unknown".

(** The [results] dictionary of [load_case_file_to_db]. *)
Record ImportResults : Type := mkImportResults {
  success : bool;
  entries_added : Z;
  billing_entries_added : Z;
  errors : list exn
}.

(** What the body of [load_case_file_to_db] reads and writes: its
    [results] dictionary and the connection. *)
Record ImportState : Type := mkImportState {
  results : ImportResults;
  conn : Conn
}.

Definition on_conn {A : Type} (m : M Conn A) : M ImportState A :=
  fun s =>
    let (r, c) := m (conn s) in
    (r, mkImportState (results s) c).

Definition update_results (f : ImportResults -> ImportResults) : M ImportState unit :=
  fun s => (Ok tt, mkImportState (f (results s)) (conn s)).

(** [results["entries_added"] = n] *)
Definition set_entries_added (n : Z) : M ImportState unit :=
  update_results (fun r =>
    mkImportResults (success r) n (billing_entries_added r) (errors r)).

(** [results["billing_entries_added"] = n] *)
Definition set_billing_entries_added (n : Z) : M ImportState unit :=
  update_results (fun r =>
    mkImportResults (success r) (entries_added r) n (errors r)).

(** [results["success"] = b] *)
Definition set_success (b : bool) : M ImportState unit :=
  update_results (fun r =>
    mkImportResults b (entries_added r) (billing_entries_added r) (errors r)).

(** [results["errors"].append(str(e))] *)
Definition append_error (e : exn) : M ImportState unit :=
  update_results (fun r =>
    mkImportResults (success r) (entries_added r) (billing_entries_added r)
      (errors r ++ [e])).

(** [df[df['type'] == 'billing-type'].iterrows()]: the billing rows
    with their positions in [df]. *)
Definition billing_rows (df : DataFrame) : result (list (Z * Row)) :=
  if PyStr.mem "type" (columns df)
  then Ok (filter (fun it => cell_is (get (snd it) "type") "billing-type") (iterrows df))
  else Raise KeyError.

(** The result of [load_excel_to_db]; [results.update(import_results)]
    adds the key [billing_entries_added]. *)
Record Results : Type := mkResults {
  r_success : bool;
  r_message : message;
  r_entries_added : Z;
  r_billing_entries_added : option Z;
  r_errors : list exn;
  r_validation : option Validation.Report
}.

(** The billing category the billing loop of [load_case_file_to_db]
    reads off the title: the stripped text after the first colon, or
    the title itself. *)
Definition billing_category (title : cell) : result cell :=
  (has_colon <- colon_in title ;;
   if has_colon : bool then
     (parts <- split_colon title ;;
      part <- PyStr.index parts 1 ;;
      Ok (CText (PyStr.strip part)))
   else Ok title)%result.

Section WithWorld.
Context {RT : Runtime} {ST : Store}.

Definition load_data_to_dataframe (file_path : string) : result DataFrame * list event :=
  let file_type := identify_file_type file_path in
  if String.eqb file_type "excel" then (read_excel file_path, [ ReadExcel file_path ])
  else if String.eqb file_type "csv" then (read_csv file_path tab, [ ReadCsv file_path tab ])
  else (Raise (UnsupportedFileType file_path), []).

(** The body of the loop over the billing rows. *)
Definition insert_billing_row (case_id first_id : Z) (billing_entries : Z)
    (it : Z * Row) : M ImportState Z :=
  let (orig_idx, row) := it in
  let entry_id := first_id + orig_idx in
  (title <- liftR (getitem row "title") ;;
   billing_category <- liftR (billing_category title) ;;
   let billing_start :=
     if has_label row "billing-start" then get row "billing-start" else CEmpty in
   let billing_stop :=
     if has_label row "billing-stop" then get row "billing-stop" else CEmpty in
   let billing_hrs :=
     if has_label row "billing-hrs" then get row "billing-hrs" else CEmpty in
   content <- liftR (getitem row "content") ;;
   on_conn (insert_billing
              (mkBillingValues case_id entry_id billing_category billing_start
                 billing_stop billing_hrs content)) ;;
   ret (billing_entries + 1))%monad.

(** The [try] block of [load_case_file_to_db]. *)
Definition import_body (df : DataFrame) (case_id : Z) : M ImportState unit :=
  let prepared_df := DataProcessing.prepare_data_for_import df case_id in
  let db_columns := table_columns in
  let columns_to_use :=
    filter (fun col => PyStr.mem col db_columns) (columns prepared_df) in
  let filtered_df := Frame.select prepared_df columns_to_use in
  (on_conn (to_sql filtered_df) ;;
   last_id <- on_conn lastrowid ;;
   let first_id := last_id - len filtered_df + 1 in
   set_entries_added (len filtered_df) ;;
   rows <- liftR (billing_rows df) ;;
   billing_entries <- foldM (insert_billing_row case_id first_id) 0 rows ;;
   on_conn commit ;;
   set_billing_entries_added billing_entries ;;
   set_success true)%monad.

Definition load_case_file_to_db (df : DataFrame) (case_id : Z) (c : Conn)
    : ImportResults * Conn :=
  let start := mkImportState (mkImportResults false 0 0 []) c in
  let (_, s) :=
    try_except (import_body df case_id)
      (fun e => (on_conn rollback ;; append_error e)%monad) start in
  (results s, conn s).

Definition failed (results : Results) (e : exn) : Results :=
  mkResults (r_success results) (MsgError e) (r_entries_added results)
    (r_billing_entries_added results) (r_errors results ++ [e])
    (r_validation results).

(** [load_excel_to_db(file_path, db_path, case_id)] on a database that
    holds [db]: the result, the database afterwards, and what was
    read and opened on the way. *)
Definition load_excel_to_db (file_path : string) (db : Db) (case_id : Z)
    : Results * Db * list event :=
  let results := mkResults false MsgEmpty 0 None [] None in
  match load_data_to_dataframe file_path with
  | (Raise e, trace) => (failed results e, db, trace)
  | (Ok df, trace) =>
      match Validation.validate_case_file_data df with
      | Raise e => (failed results e, db, trace)
      | Ok validation =>
          if negb (Validation.valid validation) then
            (mkResults false MsgValidationFailed 0 None [] (Some validation),
             db, trace)
          else
            let (import_results, c) := load_case_file_to_db df case_id (connect db) in
            (mkResults (success import_results)
               (if success import_results
                then MsgSuccess (entries_added import_results)
                else MsgEmpty)
               (entries_added import_results)
               (Some (billing_entries_added import_results))
               (errors import_results)
               None,
             committed c, trace ++ [ Connect; Close ])
      end
  end.

End WithWorld.

End ExcelLoader.

(** ** The colon rule as the specification words it *)

Module Spec.

(** The text after the first colon of a title (empty when there is no
    colon). *)
Fixpoint after_first_colon (title : string) : string :=
  match title with
  | EmptyString => EmptyString
  | String a rest => if Ascii.eqb a ":" then rest else after_first_colon rest
  end.

(** "Split on the first colon and strip the remainder to get the
    category; when the title contains no colon the whole title is the
    category." *)
Definition category (title : string) : string :=
  if PyStr.contains ":" title then PyStr.strip (after_first_colon title)
  else title.

End Spec.

(** ** A concrete world: one spreadsheet, one text file, a store that
    accepts every row *)

Module World.
Import Sql.

Definition header : list string :=
  [ "type"; "date"; "title"; "from"; "to"; "cc"; "content"; "attachments";
    "synopsis"; "comments"; "billing-start"; "billing-stop"; "billing-hrs" ].

(** A time of day on 2024-01-01, in nanoseconds since the epoch. *)
Definition at_time (hour minute : Z) : Z :=
  (1704067200 + hour * 3600 + minute * 60) * 1000000000.

Definition plain_row (type title : string) : list cell :=
  [ CText type; CTime (at_time 8 0); CText title; CText "a"; CText "b"; CEmpty;
    CText "text"; CEmpty; CEmpty; CEmpty; CEmpty; CEmpty; CEmpty ].

Definition billing_row (date title start stop hrs : cell) : list cell :=
  [ CText "billing-type"; date; title; CText "a"; CText "b"; CEmpty;
    CText "work done"; CEmpty; CEmpty; CEmpty; start; stop; hrs ].

(** Three well-formed rows, the second one a billing row. *)
Definition good_table : DataFrame :=
  mkDataFrame header
    [ plain_row "email-type" "Hello";
      billing_row (CTime (at_time 9 0)) (CText "Call: Phone Call")
        (CTime (at_time 9 0)) (CTime (at_time 10 0)) (CNum 1);
      plain_row "doc-type" "Draft" ].

(** A billing row without a date whose start is after its stop. *)
Definition reversed_times_table : DataFrame :=
  mkDataFrame header
    [ billing_row CEmpty (CText "Call: Phone Call")
        (CTime (at_time 10 0)) (CTime (at_time 9 0)) CEmpty ].

(** A billing row without a date: 09:00 to 10:00, billed as half an hour. *)
Definition wrong_hours_table : DataFrame :=
  mkDataFrame header
    [ billing_row CEmpty (CText "Call: Phone Call")
        (CTime (at_time 9 0)) (CTime (at_time 10 0)) (CNum (1 # 2)) ].

(** The same two rows with a date. *)
Definition dated_reversed_times_table : DataFrame :=
  mkDataFrame header
    [ billing_row (CTime (at_time 8 0)) (CText "Call: Phone Call")
        (CTime (at_time 10 0)) (CTime (at_time 9 0)) CEmpty ].

Definition dated_wrong_hours_table : DataFrame :=
  mkDataFrame header
    [ billing_row (CTime (at_time 8 0)) (CText "Call: Phone Call")
        (CTime (at_time 9 0)) (CTime (at_time 10 0)) (CNum (1 # 2)) ].

(** A billing row whose title cell is empty. *)
Definition untitled_billing_table : DataFrame :=
  mkDataFrame header
    [ billing_row (CTime (at_time 9 0)) CEmpty
        (CTime (at_time 9 0)) (CTime (at_time 10 0)) (CNum 1) ].

(** A billing row whose title has no colon and names no category. *)
Definition uncategorised_billing_table : DataFrame :=
  mkDataFrame header
    [ billing_row (CTime (at_time 9 0)) (CText "Nonsense")
        (CTime (at_time 9 0)) (CTime (at_time 10 0)) (CNum 1) ].

(** One row of an unknown type. *)
Definition bad_type_table : DataFrame :=
  mkDataFrame header [ plain_row "memo-type" "Hello" ].

(** A table without the columns [synopsis] and [comments]. *)
Definition short_table : DataFrame :=
  mkDataFrame [ "type"; "date"; "title"; "from"; "to"; "cc"; "content"; "attachments" ]
    [ [ CText "memo-type"; CText "yesterday"; CText "Hello" ] ].

(** No text parses as a date or a number; [cases.xlsx] and [cases.csv]
    hold [good_table] and [untitled.xlsx] holds [untitled_billing_table].
    In [runtime], [to_sql] ends its transaction, as pandas does on a
    [sqlite3] connection. *)
Definition runtime_of (commits : bool) : Runtime := {|
  strptime_ok := fun _ => false;
  str_of_num := fun _ => "0";
  to_datetime := fun _ => Raise ValueError;
  float_of_string := fun _ => None;
  strftime := fun _ => "2024-01-01 00:00:00";
  read_excel := fun path =>
    if String.eqb path "cases.xlsx" then Ok good_table
    else if String.eqb path "untitled.xlsx" then Ok untitled_billing_table
    else Raise IOError;
  read_csv := fun path _ =>
    if String.eqb path "cases.csv" then Ok good_table else Raise IOError;
  to_sql_commits := commits
|}.

Definition runtime : Runtime := runtime_of true.

Definition store : Store := {|
  table_columns := App.expected_case_file_entries;
  entry_ok := fun _ _ => true;
  billing_ok := fun _ _ => true
|}.

Definition empty_db : Db := mkDb [] [].

End World.

(** ** validation.py, the two stand-alone checks *)

Module TimeChecks.

(** An argument of type [Union[str, datetime]]. *)
Inductive time_arg : Type :=
| TimeText (s : string)
| TimeStamp (t : Z).

(** The [error] of [validate_time_sequence]:
    "Start time must be before stop time", or
    "Error parsing times: ..." with the exception. *)
Inductive sequence_error : Type :=
| StartNotBeforeStop
| ErrorParsingTimes (e : exn).

Record SequenceResult : Type := mkSequenceResult {
  seq_valid : bool;
  seq_error : option sequence_error
}.

(** A float of the result of [check_billing_duration]: None, nan, or a
    number. *)
Inductive hours : Type :=
| NoHours
| NaNHours
| Hours (q : Q).

(** The [error] of [check_billing_duration]:
    "Duration mismatch: calculated=..., provided=...", or
    "Error calculating duration: ..." with the exception. *)
Inductive duration_error : Type :=
| DurationMismatch (calculated provided : Q)
| ErrorCalculatingDuration (e : exn).

Record DurationResult : Type := mkDurationResult {
  dur_valid : bool;
  calculated_hours : hours;
  difference : hours;
  dur_error : option duration_error
}.

Section WithRuntime.
Context {RT : Runtime}.

(** [pd.to_datetime(x) if isinstance(x, str) else x] *)
Definition to_dt (x : time_arg) : result (option Z) :=
  match x with
  | TimeText s => to_datetime (CText s)
  | TimeStamp t => Ok (Some t)
  end.

Definition validate_time_sequence (start_time stop_time : time_arg) : SequenceResult :=
  let validation := mkSequenceResult true None in
  match (start_dt <- to_dt start_time ;;
         stop_dt <- to_dt stop_time ;;
         Ok (Validation.ts_ge start_dt stop_dt))%result with
  | Ok true => mkSequenceResult false (Some StartNotBeforeStop)
  | Ok false => validation
  | Raise e => mkSequenceResult false (Some (ErrorParsingTimes e))
  end.

Definition check_billing_duration (start_time stop_time : time_arg) (billing_hours : Q)
    : DurationResult :=
  match (start_dt <- to_dt start_time ;;
         stop_dt <- to_dt stop_time ;;
         Ok (Validation.duration_hours start_dt stop_dt))%result with
  | Raise e => mkDurationResult false NoHours NoHours (Some (ErrorCalculatingDuration e))
  | Ok None => mkDurationResult true NaNHours NaNHours None
  | Ok (Some calculated) =>
      let diff := Qabs (calculated - billing_hours) in
      if negb (Qle_bool diff (1 # 100))
      then mkDurationResult false (Hours calculated) (Hours diff)
             (Some (DurationMismatch calculated billing_hours))
      else mkDurationResult true (Hours calculated) (Hours diff) None
  end.

End WithRuntime.

End TimeChecks.

(** ** app.py, the health check of a database file *)

Module Health.

(** The tables of a database file, each with the names of its columns
    (what [sqlite_master] and [PRAGMA table_info] list). *)
Definition Schema : Type := list (string * list string).

(** The file at [db_path]: absent; present but [sqlite3.connect] raises
    an [sqlite3.Error]; opened but the query on [sqlite_master] raises
    one; or a database that answers every query of the check, with its
    tables. *)
Inductive DbFile : Type :=
| NoFile
| CannotConnect (e : exn)
| CannotQuery (e : exn)
| Tables (schema : Schema).

Inductive issue : Type :=
| MissingColumns
| ExtraColumns.

Record Discrepancy : Type := mkDiscrepancy {
  d_table : string;
  d_issue : issue;
  d_columns : list string
}.

Record Results : Type := mkResults {
  database_exists : bool;
  can_connect : bool;
  schema_exists : bool;
  schema_valid : bool;
  discrepancies : list Discrepancy;
  tables : list string;
  error : option exn
}.

Definition required_tables : list string :=
  [ "clients"; "case_files"; "case_file_entries"; "billing_entries" ].

Definition expected_schema : Schema :=
  [ ("clients", [ "client_id"; "client_name"; "contact_info" ]);
    ("case_files", [ "case_id"; "client_id"; "case_name"; "case_status" ]);
    ("case_file_entries",
     [ "entry_id"; "case_id"; "type"; "date"; "title"; "from_party"; "to_party";
       "cc_party"; "content"; "attachments"; "synopsis"; "comments";
       "billing_start"; "billing_stop"; "billing_hrs" ]);
    ("billing_entries",
     [ "billing_id"; "case_id"; "entry_id"; "billing_category";
       "billing_start"; "billing_stop"; "billing_hours"; "billing_description" ]) ].

(** The columns a schema gives a table; none for a table it has not. *)
Definition columns_of (schema : Schema) (table : string) : list string :=
  match find (fun t => String.eqb (fst t) table) schema with
  | Some t => snd t
  | None => []
  end.

(** [list(set(xs) - set(ys))]: every name once, here in the order of
    [xs] (the order of a Python set is not specified). *)
Definition difference (xs ys : list string) : list string :=
  nodup string_dec (filter (fun x => negb (PyStr.mem x ys)) xs).

(** The body of the loop over [required_tables]: the flag [schema_valid]
    and the discrepancies so far. *)
Definition check_table (schema : Schema) (state : bool * list Discrepancy)
    (table : string) : bool * list Discrepancy :=
  let (schema_valid, discrepancies) := state in
  let current_columns := columns_of schema table in
  let missing_columns := difference (columns_of expected_schema table) current_columns in
  let extra_columns := difference current_columns (columns_of expected_schema table) in
  if Validation.nonempty missing_columns || Validation.nonempty extra_columns then
    let discrepancies :=
      if Validation.nonempty missing_columns
      then discrepancies ++ [ mkDiscrepancy table MissingColumns missing_columns ]
      else discrepancies in
    let discrepancies :=
      if Validation.nonempty extra_columns
      then discrepancies ++ [ mkDiscrepancy table ExtraColumns extra_columns ]
      else discrepancies in
    (false, discrepancies)
  else (schema_valid, discrepancies).

Definition db_health_check (file : DbFile) : Results :=
  let results := mkResults false false false false [] [] None in
  match file with
  | NoFile => results
  | CannotConnect e => mkResults true false false false [] [] (Some e)
  | CannotQuery e => mkResults true true false false [] [] (Some e)
  | Tables schema =>
      let tables :=
        filter (fun name => negb (String.eqb name "sqlite_sequence")) (map fst schema) in
      let schema_exists := forallb (fun table => PyStr.mem table tables) required_tables in
      if schema_exists then
        let (schema_valid, discrepancies) :=
          fold_left (check_table schema) required_tables (true, []) in
        mkResults true true true schema_valid discrepancies tables None
      else mkResults true true false false [] tables None
  end.

End Health.

(** ** Further concrete data: a clock that reads three texts, two
    schemas and a few more spreadsheets *)

Module Desk.

(** [pd.to_datetime] reads "2024-01-01 09:00" and "2024-01-01 10:00"
    as those times and "NaT" as NaT, and raises ValueError on any other
    text; the rest is as in [World.runtime]. *)
Definition runtime : Runtime := {|
  strptime_ok := fun _ => false;
  str_of_num := fun _ => "0";
  to_datetime := fun c =>
    match c with
    | CText s =>
        if String.eqb s "2024-01-01 09:00" then Ok (Some (World.at_time 9 0))
        else if String.eqb s "2024-01-01 10:00" then Ok (Some (World.at_time 10 0))
        else if String.eqb s "NaT" then Ok None
        else Raise ValueError
    | _ => Raise TypeError
    end;
  float_of_string := fun _ => None;
  strftime := fun _ => "2024-01-01 00:00:00";
  read_excel := fun _ => Raise IOError;
  read_csv := fun _ _ => Raise IOError;
  to_sql_commits := true
|}.

(** A dated billing row with its times as text: 09:00 to 10:00, billed
    as one hour. *)
Definition text_times_table : DataFrame :=
  mkDataFrame World.header
    [ World.billing_row (CTime (World.at_time 8 0)) (CText "Call: Phone Call")
        (CText "2024-01-01 09:00") (CText "2024-01-01 10:00") (CNum 1) ].

(** A database whose table [case_file_entries] lacks the column
    [synopsis] and has a column [notes] of its own, beside a table the
    health check does not ask for. *)
Definition drifted_schema : Health.Schema :=
  [ ("clients", [ "client_id"; "client_name"; "contact_info" ]);
    ("sqlite_sequence", [ "name"; "seq" ]);
    ("case_files", [ "case_id"; "client_id"; "case_name"; "case_status" ]);
    ("case_file_entries",
     [ "entry_id"; "case_id"; "type"; "date"; "title"; "from_party"; "to_party";
       "cc_party"; "content"; "attachments"; "comments"; "notes";
       "billing_start"; "billing_stop"; "billing_hrs" ]);
    ("billing_entries",
     [ "billing_id"; "case_id"; "entry_id"; "billing_category";
       "billing_start"; "billing_stop"; "billing_hours"; "billing_description" ]);
    ("audit_log", [ "id"; "line" ]) ].

(** The expected tables, their columns in another order, and one more
    table. *)
Definition healthy_schema : Health.Schema :=
  [ ("audit_log", [ "id"; "line" ]);
    ("billing_entries",
     [ "billing_description"; "billing_id"; "case_id"; "entry_id"; "billing_category";
       "billing_start"; "billing_stop"; "billing_hours" ]);
    ("case_file_entries",
     [ "entry_id"; "case_id"; "type"; "date"; "title"; "from_party"; "to_party";
       "cc_party"; "content"; "attachments"; "synopsis"; "comments";
       "billing_start"; "billing_stop"; "billing_hrs" ]);
    ("case_files", [ "case_status"; "case_id"; "client_id"; "case_name" ]);
    ("clients", [ "client_id"; "client_name"; "contact_info" ]) ].

(** A dated billing row whose title names no billing category. *)
Definition miscategorised_table : DataFrame :=
  mkDataFrame World.header
    [ World.plain_row "email-type" "Hello";
      World.billing_row (CTime (World.at_time 8 0)) (CText "Call:  Nonsense ")
        (CTime (World.at_time 9 0)) (CTime (World.at_time 10 0)) (CNum 1) ].


(** A dated billing row in a spreadsheet without the column
    [billing-hrs]. *)
Definition no_hours_table : DataFrame :=
  mkDataFrame
    [ "type"; "date"; "title"; "from"; "to"; "cc"; "content"; "attachments";
      "synopsis"; "comments"; "billing-start"; "billing-stop" ]
    [ [ CText "billing-type"; CTime (World.at_time 8 0); CText "Call: Phone Call";
        CText "a"; CText "b"; CEmpty; CText "work done"; CEmpty; CEmpty; CEmpty;
        CTime (World.at_time 9 0); CTime (World.at_time 10 0) ] ].


(** A spreadsheet that has the header and no row. *)
Definition header_only_table : DataFrame := mkDataFrame World.header [].


(** A row whose date is a text the format does not accept, between a
    row without a date and a row with a timestamp. *)
Definition bad_date_table : DataFrame :=
  mkDataFrame World.header
    [ [ CText "email-type"; CEmpty; CText "Hello"; CText "a"; CText "b"; CEmpty;
        CText "text"; CEmpty; CEmpty; CEmpty; CEmpty; CEmpty; CEmpty ];
      [ CText "email-type"; CText "yesterday"; CText "Hello"; CText "a"; CText "b";
        CEmpty; CText "text"; CEmpty; CEmpty; CEmpty; CEmpty; CEmpty; CEmpty ];
      World.plain_row "doc-type" "Draft" ].

End Desk.

(** * Notions the properties are stated with *)

Section Notions.
Context {RT : Runtime} {ST : Sql.Store}.
Import Sql.

(** The required columns a table lacks, in the order of the required
    list. *)
Definition missing_of (required : list string) (df : DataFrame) : list string :=
  filter (fun col => negb (PyStr.mem col (columns df))) required.

(** What the loop of the validator of [app.py] records for one row. *)
Definition app_check_type (it : Z * cell) : list App.InvalidEntry :=
  if isna (snd it) || negb (cell_in (snd it) App.valid_types)
  then [ App.mkInvalidEntry (fst it + 1) (snd it) ]
  else [].

(** The extension both importers compute for a path. *)
Definition extension (file_path : string) : string :=
  snd (PyStr.splitext (PyStr.lower file_path)).

(** A piece of code that neither commits nor rolls back: what is
    committed stays as it is, whether the code returns or raises. *)
Definition keeps_committed {A : Type} (m : M Conn A) : Prop :=
  forall c r c', m c = (r, c') -> committed c' = committed c.

(** The table [load_case_file_to_db] hands to [to_sql]. *)
Definition filtered_df (df : DataFrame) (case_id : Z) : DataFrame :=
  let prepared_df := DataProcessing.prepare_data_for_import df case_id in
  Frame.select prepared_df
    (filter (fun col => PyStr.mem col table_columns) (columns prepared_df)).

(** The body of the billing loop, as it acts on the connection. *)
Definition billing_step (case_id first_id : Z) (billing_entries : Z) (it : Z * Row)
    : M Conn Z :=
  (title <- liftR (getitem (snd it) "title") ;;
   billing_category <- liftR (ExcelLoader.billing_category title) ;;
   content <- liftR (getitem (snd it) "content") ;;
   insert_billing
     (mkBillingValues case_id (first_id + fst it) billing_category
        (get (snd it) "billing-start") (get (snd it) "billing-stop")
        (get (snd it) "billing-hrs") content) ;;
   ret (billing_entries + 1))%monad.

(** The keys of [n] rows inserted one after the other, the first one
    getting [first]. *)
Fixpoint ids_from (first : Z) (n : nat) : list Z :=
  match n with
  | O => []
  | S n' => first :: ids_from (first + 1) n'
  end.

(** The [entry_id]s of the billing entries of rows inserted one after
    the other, the first row getting the key [first]: one link per
    billing row, to the key of that row. *)
Fixpoint links (first : Z) (flags : list bool) : list Z :=
  match flags with
  | [] => []
  | b :: flags' => (if b then [first] else []) ++ links (first + 1) flags'
  end.

(** How often the key [id] occurs among [ids]. *)
Definition occurrences (id : Z) (ids : list Z) : nat :=
  List.length (filter (Z.eqb id) ids).

(** The largest key of a table, 0 for an empty one. *)
Definition max_id (ids : list Z) : Z := fold_right Z.max 0 ids.

(** The keys of the entries the connection sees. *)
Definition entry_ids (c : Conn) : list Z := map entry_id (entries (working c)).

(** From [c] to [c1] the entries [es] and the billing entries [bs] were
    written, in that order, and nothing was committed or rolled back. *)
Definition wrote (c c1 : Conn) (es : list Entry) (bs : list Billing) : Prop :=
  committed c1 = committed c
  /\ entries (working c1) = entries (working c) ++ es
  /\ billing_entries (working c1) = billing_entries (working c) ++ bs.

(** The [entry_id] a billing entry points to. *)
Definition link (b : Billing) : Z := bv_entry_id (billing_values b).

(** [row['type'] == 'billing-type'] *)
Definition is_billing (row : Row) : bool := cell_is (get row "type") "billing-type".

(** The row [vals] of the table [df] is a billing row. *)
Definition billing_row (df : DataFrame) (vals : list cell) : bool :=
  cell_is (get (series (columns df) vals) "type") "billing-type".

(** The database [db'] is [db] with the import of [df] added: one new
    entry per row of [df], in the order of the rows; as many new billing
    entries as [df] has billing rows; and for the entry of each row,
    exactly one new billing entry pointing to its key when the row is a
    billing row, none otherwise. *)
Definition imported (df : DataFrame) (db db' : Sql.Db) : Prop :=
  exists es bs,
    Sql.entries db' = Sql.entries db ++ es
    /\ Sql.billing_entries db' = Sql.billing_entries db ++ bs
    /\ List.length es = List.length (data df)
    /\ List.length bs = List.length (filter (billing_row df) (data df))
    /\ forall k vals e,
         nth_error (data df) k = Some vals ->
         nth_error es k = Some e ->
         occurrences (Sql.entry_id e) (map link bs)
         = if billing_row df vals then 1%nat else 0%nat.

(** The row number an entry of [date_format_errors] carries. *)
Definition error_row (e : Validation.DateError) : Z :=
  match e with
  | Validation.BillingSequence row _ _ => row
  | Validation.BillingDuration row _ _ => row
  | Validation.DateFormat row _ _ => row
  end.

(** Every date error the statements appended carries the row number
    [j + 2]. *)
Definition rows_are {A : Type} (j : Z) (m : Validation.Acc A) : Prop :=
  forall e, In e (fst m) -> error_row e = j + 2.

(** The date cell passes the date check: it is present, and it is a
    timestamp or its text parses under the format. *)
Definition date_accepted (date : cell) : bool :=
  negb (isna date) && (is_timestamp date || strptime_ok (Validation.str_of_cell date)).

(** The statements raise nothing but what the handler of the date loop
    catches. *)
Definition raises_caught {A : Type} (m : Validation.Acc A) : Prop :=
  forall e, snd m = Raise e -> Validation.caught e = true.

End Notions.

(** * Notions for the stand-alone checks, the health check and the
    stored values *)

Section FurtherNotions.
Context {RT : Runtime} {ST : Sql.Store}.

(** A cell as an argument of the stand-alone time checks: a text or a
    timestamp. *)
Definition time_of_cell (c : cell) : option TimeChecks.time_arg :=
  match c with
  | CText s => Some (TimeChecks.TimeText s)
  | CTime t => Some (TimeChecks.TimeStamp t)
  | _ => None
  end.

(** The expected columns a table of the database lacks, and the columns
    it has beyond the expected ones. *)
Definition missing_columns_of (schema : Health.Schema) (table : string) : list string :=
  Health.difference (Health.columns_of Health.expected_schema table)
    (Health.columns_of schema table).

Definition extra_columns_of (schema : Health.Schema) (table : string) : list string :=
  Health.difference (Health.columns_of schema table)
    (Health.columns_of Health.expected_schema table).

(** What one round of the loop of the health check appends to
    [discrepancies]. *)
Definition table_discrepancies (schema : Health.Schema) (table : string)
    : list Health.Discrepancy :=
  (if Validation.nonempty (missing_columns_of schema table)
   then [ Health.mkDiscrepancy table Health.MissingColumns (missing_columns_of schema table) ]
   else [])
  ++ (if Validation.nonempty (extra_columns_of schema table)
      then [ Health.mkDiscrepancy table Health.ExtraColumns (extra_columns_of schema table) ]
      else []).

(** The table has exactly the expected columns, in any order. *)
Definition table_as_expected (schema : Health.Schema) (table : string) : Prop :=
  forall c, In c (Health.columns_of schema table)
            <-> In c (Health.columns_of Health.expected_schema table).

(** The name a column of the spreadsheet has in the prepared table of
    app.py. *)
Definition storage_name (col : string) : string :=
  match find (fun kv => String.eqb (fst kv) col) App.column_mapping with
  | Some kv => snd kv
  | None => col
  end.

(** The columns of the spreadsheet the importers know: the required
    ones and the three billing columns. *)
Definition known_columns : list string :=
  Validation.required_columns ++ [ "billing-start"; "billing-stop"; "billing-hrs" ].


(** The row numbers of a list of findings go up from [lo]: strictly
    when [strict], else each is at least the one before. *)
Fixpoint ascending (strict : bool) (lo : Z) (rows : list Z) : Prop :=
  match rows with
  | [] => True
  | row :: rows' =>
      (if strict then lo < row else lo <= row) /\ ascending strict row rows'
  end.


(** What app.py reads for a path, with the read it makes: nothing for
    an extension it does not support. *)
Definition app_read (file_path : string) : option (result DataFrame * list event) :=
  if PyStr.mem (extension file_path) [ ".xlsx"; ".xls"; ".xlsm" ]
  then Some (read_excel file_path, [ ReadExcel file_path ])
  else if String.eqb (extension file_path) ".csv"
  then Some (read_csv file_path tab, [ ReadCsv file_path tab ])
  else None.



(** The category an importer stores for a title: what its colon rule
    returns, nothing when the rule raises. *)
Definition stored_category (title : cell) : cell :=
  match ExcelLoader.billing_category title with
  | Ok category => category
  | Raise _ => CEmpty
  end.




(** The value app.py stores for a cell of the spreadsheet column [col]:
    the cell coerced to a timestamp when the column is stored as a date
    column, and a timestamp as the text [strftime] gives. *)
Definition stored_value (col : string) (v : cell) : cell :=
  App.format_timestamp
    (if PyStr.mem (storage_name col) App.date_columns then Frame.coerce_datetime v else v).

(** The values of the billing entry app.py writes for a row of the
    spreadsheet whose entry has the key [entry_id]. *)
Definition app_billing_values (case_id entry_id : Z) (row : Row) : Sql.BillingValues :=
  Sql.mkBillingValues case_id entry_id
    (stored_category (get row "title"))
    (stored_value "billing-start" (get row "billing-start"))
    (stored_value "billing-stop" (get row "billing-stop"))
    (get row "billing-hrs") (get row "content").

(** What [insert_row] writes for a row of the filtered table: the
    entry [e] and the billing entries [bs]. *)
Definition row_written (case_id : Z) (cols : list string) (row : Row)
    (w : Sql.Entry * list Sql.Billing) : Prop :=
  Sql.entry_values (fst w)
  = combine cols (map (fun col => App.format_timestamp (get row col)) cols)
  /\ has_label row "type" = true
  /\ if is_billing row
     then exists b,
            snd w = [b]
            /\ Sql.billing_values b
               = Sql.mkBillingValues case_id (Sql.entry_id (fst w))
                   (stored_category (get row "title"))
                   (App.format_timestamp (get row "billing_start"))
                   (App.format_timestamp (get row "billing_stop"))
                   (get row "billing_hrs") (get row "content")
            /\ forall label,
                 In label [ "title"; "billing_start"; "billing_stop"; "billing_hrs";
                            "content" ] ->
                 has_label row label = true
     else snd w = [].

(** What app.py stores for the row [vals] of the spreadsheet [df]: in
    the entry, under the storage name of each column the table
    [case_file_entries] has, the stored value of the row's cell, and
    the case identifier under [case_id]; and for a billing row one
    billing entry, linked to the entry. *)
Definition row_stored (df : DataFrame) (case_id : Z) (vals : list cell)
    (w : Sql.Entry * list Sql.Billing) : Prop :=
  (forall col,
     In col (columns df) -> col <> "case_id" ->
     In (storage_name col) Sql.table_columns ->
     get (Sql.entry_values (fst w)) (storage_name col)
     = stored_value col (get (series (columns df) vals) col))
  /\ (In "case_id" Sql.table_columns ->
      get (Sql.entry_values (fst w)) "case_id" = CNum (inject_Z case_id))
  /\ (forall label, has_label (Sql.entry_values (fst w)) label = true ->
                    In label Sql.table_columns)
  /\ if billing_row df vals
     then exists b,
            snd w = [b]
            /\ Sql.billing_values b
               = app_billing_values case_id (Sql.entry_id (fst w))
                   (series (columns df) vals)
     else snd w = [].


(** The three billing columns of the spreadsheet. *)
Definition billing_columns : list string :=
  [ "billing-start"; "billing-stop"; "billing-hrs" ].

End FurtherNotions.

(** * Properties *)

(** ** Rows and columns *)

Lemma mem_true_iff (x : string) (xs : list string) :
  PyStr.mem x xs = true <-> In x xs.
Proof.
  unfold PyStr.mem. rewrite existsb_exists. split.
  - intros [y [Hin Heq]]. apply String.eqb_eq in Heq. now subst.
  - intros Hin. exists x. split; [assumption | apply String.eqb_refl].
Qed.

Lemma mem_false_iff (x : string) (xs : list string) :
  PyStr.mem x xs = false <-> ~ In x xs.
Proof.
  rewrite <- mem_true_iff. destruct (PyStr.mem x xs); split; intros; easy.
Qed.

Lemma lookup_series (cols : list string) (col : string) :
  forall vals, In col cols -> exists v, lookup (series cols vals) col = Some v.
Proof.
  induction cols as [|c cs IH]; intros vals Hin; [contradiction|].
  simpl. destruct (String.eqb c col) eqn:E.
  - eauto.
  - destruct Hin as [->|Hin].
    + rewrite String.eqb_refl in E. discriminate.
    + apply IH. assumption.
Qed.

(** Under a column of the header, [row[col]] does not raise and is what
    [row.get(col)] returns. *)
Lemma getitem_series (cols : list string) (vals : list cell) (col : string) :
  In col cols -> getitem (series cols vals) col = Ok (get (series cols vals) col).
Proof.
  intros Hin. unfold getitem, get.
  destruct (lookup_series cols col vals Hin) as [v ->]. reflexivity.
Qed.

Lemma enumerate_from_length {A : Type} (xs : list A) :
  forall i, List.length (enumerate_from i xs) = List.length xs.
Proof. induction xs; simpl; intros; [reflexivity | now rewrite IHxs]. Qed.

Lemma enumerate_from_nth {A : Type} (xs : list A) :
  forall i k, nth_error (enumerate_from i xs) k
              = option_map (fun x => (i + Z.of_nat k, x)) (nth_error xs k).
Proof.
  induction xs as [|x xs IH]; intros i k.
  - destruct k; reflexivity.
  - destruct k as [|k]; simpl.
    + now rewrite Z.add_0_r.
    + rewrite IH. destruct (nth_error xs k); simpl; [|reflexivity].
      do 2 f_equal. lia.
Qed.

Lemma enumerate_from_In {A : Type} (xs : list A) :
  forall i j x, In (j, x) (enumerate_from i xs)
                <-> exists k, j = i + Z.of_nat k /\ nth_error xs k = Some x.
Proof.
  intros i j x. split.
  - intros Hin. apply In_nth_error in Hin. destruct Hin as [k Hk].
    rewrite enumerate_from_nth in Hk. exists k.
    destruct (nth_error xs k); simpl in Hk; [|discriminate].
    inversion Hk. subst. auto.
  - intros [k [-> Hk]]. apply nth_error_In with (n := k).
    rewrite enumerate_from_nth, Hk. reflexivity.
Qed.

Lemma iterrows_In (df : DataFrame) (idx : Z) (row : Row) :
  In (idx, row) (iterrows df)
  <-> exists k vals, idx = Z.of_nat k /\ nth_error (data df) k = Some vals
                     /\ row = series (columns df) vals.
Proof.
  unfold iterrows, enumerate. rewrite enumerate_from_In. split.
  - intros [k [-> Hk]]. rewrite nth_error_map in Hk.
    destruct (nth_error (data df) k) as [vals|] eqn:E; simpl in Hk; [|discriminate].
    inversion Hk. exists k, vals. auto.
  - intros [k [vals [-> [Hk ->]]]]. exists k. split; [reflexivity|].
    rewrite nth_error_map, Hk. reflexivity.
Qed.

(** ** Loops that may raise *)

Lemma mapR_Ok_nth {A B : Type} (f : A -> result B) (xs : list A) :
  forall ys k x, mapR f xs = Ok ys -> nth_error xs k = Some x ->
                 exists y, f x = Ok y /\ nth_error ys k = Some y.
Proof.
  induction xs as [|x0 xs IH]; simpl; intros ys k x H Hk.
  - destruct k; discriminate.
  - destruct (f x0) as [y0|] eqn:E0; [|discriminate].
    destruct (mapR f xs) as [ys'|]; [|discriminate].
    inversion H; subst. destruct k as [|k]; simpl in *.
    + inversion Hk; subst. eauto.
    + eapply IH; eauto.
Qed.

Lemma mapR_total {A B : Type} (f : A -> result B) (xs : list A) :
  (forall x, In x xs -> exists y, f x = Ok y) -> exists ys, mapR f xs = Ok ys.
Proof.
  induction xs as [|x xs IH]; simpl; intros H; [eauto|].
  destruct (H x (or_introl eq_refl)) as [y ->].
  destruct IH as [ys ->]; [intros; apply H; now right|]. eauto.
Qed.

Lemma nonempty_false {A : Type} (l : list A) :
  Validation.nonempty l = false <-> l = [].
Proof. destruct l; simpl; split; intros; congruence. Qed.

(** ** The shape of a validation report *)

Section ValidationFacts.
Context {RT : Runtime}.

Lemma missing_of_In (required : list string) (df : DataFrame) (col : string) :
  In col (missing_of required df) <-> In col required /\ ~ In col (columns df).
Proof.
  unfold missing_of. rewrite filter_In, negb_true_iff, mem_false_iff. reflexivity.
Qed.

Lemma missing_of_nil (required : list string) (df : DataFrame) :
  missing_of required df = [] -> forall col, In col required -> In col (columns df).
Proof.
  intros H col Hin.
  destruct (PyStr.mem col (columns df)) eqn:E; [now apply mem_true_iff|].
  assert (In col (missing_of required df)) as Hm.
  { apply missing_of_In. split; [assumption | now apply mem_false_iff]. }
  rewrite H in Hm. contradiction.
Qed.

Lemma missing_of_cons (col : string) (cols : list string) (df : DataFrame) :
  missing_of (col :: cols) df
  = if negb (PyStr.mem col (columns df)) then col :: missing_of cols df
    else missing_of cols df.
Proof. reflexivity. Qed.

(** The loop over the required columns sets [valid] to false and lists
    the column whenever a column is missing, and does nothing else. *)
Lemma check_columns_fold (df : DataFrame) (cols : list string) :
  forall v,
    fold_left
      (fun validation col =>
         if negb (PyStr.mem col (columns df))
         then Validation.append_missing_column col (Validation.set_valid false validation)
         else validation)
      cols v
    = Validation.mkReport
        (Validation.valid v && negb (Validation.nonempty (missing_of cols df)))
        (Validation.missing_columns v ++ missing_of cols df)
        (Validation.invalid_types v) (Validation.date_format_errors v)
        (Validation.billing_category_errors v) (Validation.sample_errors v).
Proof.
  induction cols as [|col cols IH]; intros v.
  - cbn. rewrite andb_true_r, app_nil_r. now destruct v.
  - cbn [fold_left]. rewrite IH, missing_of_cons.
    destruct (negb (PyStr.mem col (columns df))); cbn.
    + rewrite andb_false_r, <- app_assoc. reflexivity.
    + reflexivity.
Qed.

Lemma check_columns_initial (df : DataFrame) :
  Validation.check_columns df Validation.initial
  = Validation.mkReport
      (negb (Validation.nonempty (missing_of Validation.required_columns df)))
      (missing_of Validation.required_columns df) [] [] [] Validation.no_samples.
Proof. unfold Validation.check_columns. rewrite check_columns_fold. reflexivity. Qed.

(** The two ways [validate_case_file_data] returns: early, on a missing
    column, or after the three loops. *)
Lemma validate_inv (df : DataFrame) (r : Validation.Report) :
  Validation.validate_case_file_data df = Ok r ->
  (missing_of Validation.required_columns df <> []
   /\ r = Validation.mkReport false (missing_of Validation.required_columns df)
            [] [] [] Validation.no_samples)
  \/ (missing_of Validation.required_columns df = []
      /\ exists cats dates,
           mapR Validation.check_billing_category (iterrows df) = Ok cats
           /\ mapR Validation.check_row_dates (iterrows df) = Ok dates
           /\ let types :=
                flat_map Validation.check_entry_type
                  (enumerate (Frame.column df "type")) in
              r = Validation.mkReport
                    (negb (Validation.nonempty types)
                     && negb (Validation.nonempty (List.concat cats))
                     && negb (Validation.nonempty (List.concat dates)))
                    [] types (List.concat dates) (List.concat cats)
                    (Validation.mkSampleErrors (Validation.sample types)
                       (Validation.sample (List.concat dates))
                       (Validation.sample (List.concat cats)))).
Proof.
  unfold Validation.validate_case_file_data. rewrite check_columns_initial.
  cbn [Validation.valid]. rewrite negb_involutive.
  destruct (Validation.nonempty (missing_of Validation.required_columns df)) eqn:E.
  - intros H. inversion H. left. split; [|reflexivity].
    intros Hnil. rewrite Hnil in E. discriminate.
  - apply nonempty_false in E. rewrite E. intros H. right. split; [reflexivity|].
    unfold rbind in H.
    destruct (mapR Validation.check_billing_category (iterrows df)) as [cats|];
      [|discriminate].
    destruct (mapR Validation.check_row_dates (iterrows df)) as [dates|];
      [|discriminate].
    exists cats, dates. split; [reflexivity|]. split; [reflexivity|].
    cbv zeta. fold (Frame.column df "type") in H.
    inversion H as [Hr]. clear H Hr.
    destruct (flat_map Validation.check_entry_type (enumerate (Frame.column df "type")));
      destruct (List.concat cats); destruct (List.concat dates); reflexivity.
Qed.

End ValidationFacts.

Section AppValidationFacts.

Lemma app_check_columns_fold (df : DataFrame) (cols : list string) :
  forall v,
    fold_left
      (fun validation col =>
         if negb (PyStr.mem col (columns df))
         then App.mkReport false (App.missing_columns validation ++ [col])
                (App.invalid_entries validation)
         else validation)
      cols v
    = App.mkReport (App.valid v && negb (Validation.nonempty (missing_of cols df)))
        (App.missing_columns v ++ missing_of cols df) (App.invalid_entries v).
Proof.
  induction cols as [|col cols IH]; intros v.
  - cbn. rewrite andb_true_r, app_nil_r. now destruct v.
  - cbn [fold_left]. rewrite IH, missing_of_cons.
    destruct (negb (PyStr.mem col (columns df))); cbn.
    + rewrite andb_false_r, <- app_assoc. reflexivity.
    + reflexivity.
Qed.

Lemma app_check_entries (cols : list string) (rows : list (list cell)) :
  In "type" cols ->
  forall i v,
    foldR App.check_entry v (enumerate_from i (map (series cols) rows))
    = let found :=
        flat_map app_check_type
          (enumerate_from i (map (fun vals => get (series cols vals) "type") rows)) in
      Ok (App.mkReport (App.valid v && negb (Validation.nonempty found))
            (App.missing_columns v) (App.invalid_entries v ++ found)).
Proof.
  intros Hin. induction rows as [|vals rows IH]; intros i v.
  - cbn. rewrite andb_true_r, app_nil_r. now destruct v.
  - cbn [map enumerate_from foldR App.check_entry]. unfold rbind.
    rewrite getitem_series by exact Hin.
    cbn [flat_map].
    assert (app_check_type (i, get (series cols vals) "type")
            = if isna (get (series cols vals) "type")
                 || negb (cell_in (get (series cols vals) "type") App.valid_types)
              then [ App.mkInvalidEntry (i + 1) (get (series cols vals) "type") ]
              else []) as -> by reflexivity.
    destruct (isna _ || negb _).
    + rewrite IH. cbv zeta. unfold App.record_invalid_entry.
      cbn [App.valid App.missing_columns App.invalid_entries app Validation.nonempty
           andb negb].
      rewrite andb_false_r, <- app_assoc. reflexivity.
    + rewrite IH. reflexivity.
Qed.

(** The report of the validator of [app.py], which it returns on every
    table. *)
Lemma app_validate_spec (df : DataFrame) :
  App.validate_case_file_data df
  = Ok (if Validation.nonempty (missing_of App.required_columns df)
        then App.mkReport false (missing_of App.required_columns df) []
        else
          let found := flat_map app_check_type (enumerate (Frame.column df "type")) in
          App.mkReport (negb (Validation.nonempty found)) [] found).
Proof.
  unfold App.validate_case_file_data, App.check_columns.
  rewrite app_check_columns_fold.
  cbn [App.valid App.missing_columns App.invalid_entries app andb].
  rewrite negb_involutive.
  destruct (Validation.nonempty (missing_of App.required_columns df)) eqn:E;
    [reflexivity|].
  apply nonempty_false in E. rewrite E.
  unfold iterrows, enumerate. rewrite app_check_entries; [reflexivity|].
  apply (missing_of_nil _ _ E). cbn. auto.
Qed.

End AppValidationFacts.

(** ** C6: [valid] is true exactly when nothing was recorded *)

(** C6. Whenever the validator returns a report, its [valid] flag is
    true if and only if the list of missing columns, the list of invalid
    types, the list of billing-category errors and the list of
    date/duration errors are all empty; the same holds of the validator
    of [app.py] and its two lists. No report is valid while it records a
    violation. *)
Theorem valid_iff_nothing_recorded {RT : Runtime} (df : DataFrame) :
  (forall r, Validation.validate_case_file_data df = Ok r ->
     (Validation.valid r = true
      <-> Validation.missing_columns r = []
          /\ Validation.invalid_types r = []
          /\ Validation.billing_category_errors r = []
          /\ Validation.date_format_errors r = []))
  /\ (forall r, App.validate_case_file_data df = Ok r ->
        (App.valid r = true
         <-> App.missing_columns r = [] /\ App.invalid_entries r = [])).
Proof.
  split; intros r H.
  - apply validate_inv in H. destruct H as [[Hm ->] | [_ [cats [dates [_ [_ ->]]]]]]; simpl.
    + split; [discriminate | intros [Hnil _]; contradiction].
    + rewrite !andb_true_iff, !negb_true_iff, !nonempty_false. tauto.
  - rewrite app_validate_spec in H.
    remember (missing_of App.required_columns df) as missing.
    remember (flat_map app_check_type (enumerate (Frame.column df "type"))) as found.
    destruct (Validation.nonempty missing) eqn:E;
      inversion H; subst r; cbn [App.valid App.missing_columns App.invalid_entries].
    + split; [discriminate|]. intros [Hnil _]. rewrite Hnil in E. discriminate E.
    + rewrite negb_true_iff, nonempty_false. tauto.
Qed.

Lemma valid_iff_nothing_recorded_witness :
  (exists r, Validation.validate_case_file_data (RT := World.runtime) World.good_table = Ok r
             /\ Validation.valid r = true
             /\ (Validation.valid r = true
                 <-> Validation.missing_columns r = []
                     /\ Validation.invalid_types r = []
                     /\ Validation.billing_category_errors r = []
                     /\ Validation.date_format_errors r = []))
  /\ (exists r, Validation.validate_case_file_data (RT := World.runtime)
                  World.dated_reversed_times_table = Ok r
                /\ Validation.valid r = false
                /\ (Validation.valid r = true
                    <-> Validation.missing_columns r = []
                        /\ Validation.invalid_types r = []
                        /\ Validation.billing_category_errors r = []
                        /\ Validation.date_format_errors r = []))
  /\ (exists r, App.validate_case_file_data World.good_table = Ok r
                /\ App.valid r = true
                /\ (App.valid r = true
                    <-> App.missing_columns r = [] /\ App.invalid_entries r = [])).
Proof.
  pose proof (valid_iff_nothing_recorded (RT := World.runtime) World.good_table) as [Hv Ha].
  pose proof (valid_iff_nothing_recorded (RT := World.runtime)
                World.dated_reversed_times_table) as [Hv' _].
  split; [|split].
  - eexists. split; [vm_compute; reflexivity|].
    split; [reflexivity|]. apply Hv. vm_compute. reflexivity.
  - eexists. split; [vm_compute; reflexivity|].
    split; [reflexivity|]. apply Hv'. vm_compute. reflexivity.
  - eexists. split; [vm_compute; reflexivity|].
    split; [reflexivity|]. apply Ha. vm_compute. reflexivity.
Defined.

(** ** C7: a missing column ends the validation *)

(** C7. When one of the ten required columns is missing from the table,
    the validator returns a report with [valid = false] whose
    [missing_columns] are exactly the required columns the table lacks
    (in the order of the required list), and no later check runs: the
    lists of invalid types, billing-category errors and date errors are
    empty. The validator of [app.py] does the same with its list of
    invalid entries. *)
Theorem missing_column_ends_validation {RT : Runtime} (df : DataFrame) (col : string) :
  In col Validation.required_columns ->
  ~ In col (columns df) ->
  (exists r, Validation.validate_case_file_data df = Ok r
             /\ Validation.valid r = false
             /\ Validation.missing_columns r = missing_of Validation.required_columns df
             /\ In col (Validation.missing_columns r)
             /\ Validation.invalid_types r = []
             /\ Validation.billing_category_errors r = []
             /\ Validation.date_format_errors r = [])
  /\ (exists r, App.validate_case_file_data df = Ok r
                /\ App.valid r = false
                /\ App.missing_columns r = missing_of App.required_columns df
                /\ In col (App.missing_columns r)
                /\ App.invalid_entries r = []).
Proof.
  intros Hreq Habsent.
  assert (In col (missing_of Validation.required_columns df)) as Hin
    by (apply missing_of_In; auto).
  assert (Validation.nonempty (missing_of Validation.required_columns df) = true) as Hne.
  { destruct (missing_of Validation.required_columns df); [contradiction | reflexivity]. }
  split.
  - unfold Validation.validate_case_file_data. rewrite check_columns_initial.
    cbn [Validation.valid]. rewrite Hne.
    eexists. split; [reflexivity|]. simpl. auto 10.
  - rewrite app_validate_spec.
    change App.required_columns with Validation.required_columns. rewrite Hne.
    eexists. split; [reflexivity|]. simpl. auto 10.
Qed.

Lemma missing_column_ends_validation_witness :
  (exists r, Validation.validate_case_file_data (RT := World.runtime) World.short_table = Ok r
             /\ Validation.valid r = false
             /\ Validation.missing_columns r = [ "synopsis"; "comments" ]
             /\ In "synopsis" (Validation.missing_columns r)
             /\ Validation.invalid_types r = []
             /\ Validation.billing_category_errors r = []
             /\ Validation.date_format_errors r = [])
  /\ (exists r, App.validate_case_file_data World.short_table = Ok r
                /\ App.valid r = false
                /\ App.missing_columns r = [ "synopsis"; "comments" ]
                /\ In "synopsis" (App.missing_columns r)
                /\ App.invalid_entries r = []).
Proof.
  apply (missing_column_ends_validation (RT := World.runtime) World.short_table "synopsis").
  - simpl. auto 10.
  - simpl. intros H. repeat (destruct H as [H|H]; [discriminate H|]). exact H.
Defined.

(** ** C8: the row number of a type violation *)

Lemma check_entry_type_In (idx : Z) (ty : cell) (v : Validation.TypeViolation) :
  In v (Validation.check_entry_type (idx, ty))
  <-> cell_in ty Validation.VALID_ENTRY_TYPES = false
      /\ v = Validation.mkTypeViolation (idx + 2) ty.
Proof.
  unfold Validation.check_entry_type, cell_in, isna.
  destruct ty as [|s|q|t];
    try (cbn [orb negb In]; split; [intros [<-|[]]; auto | intros [_ ->]; auto]).
  destruct (PyStr.mem s Validation.VALID_ENTRY_TYPES); cbn [orb negb In].
  - split; [contradiction | intros [H _]; discriminate].
  - split; [intros [<-|[]]; auto | intros [_ ->]; auto].
Qed.

(** X1. The type check of [validation.py]: the row at position [k] of the
    table (its [k+1]-th data row, line [k+2] of the file) is recorded in
    [invalid_types], under the row number [k + 2] and with its type
    cell, exactly when that cell is empty or is none of the seven tags;
    a recorded violation makes the report invalid. *)
Theorem type_violation_rows {RT : Runtime} (df : DataFrame) (r : Validation.Report)
    (k : nat) (vals : list cell) :
  Validation.validate_case_file_data df = Ok r ->
  Validation.missing_columns r = [] ->
  nth_error (data df) k = Some vals ->
  let ty := get (series (columns df) vals) "type" in
  ((exists v, In v (Validation.invalid_types r) /\ Validation.tv_row v = Z.of_nat k + 2)
   <-> cell_in ty Validation.VALID_ENTRY_TYPES = false)
  /\ (cell_in ty Validation.VALID_ENTRY_TYPES = false ->
      In (Validation.mkTypeViolation (Z.of_nat k + 2) ty) (Validation.invalid_types r)
      /\ Validation.valid r = false).
Proof.
  intros H Hm Hk ty.
  apply validate_inv in H. destruct H as [[Hne ->] | [_ [cats [dates [_ [_ ->]]]]]].
  { simpl in Hm. contradiction. }
  simpl.
  assert (forall v, In v (flat_map Validation.check_entry_type
                            (enumerate (Frame.column df "type")))
                    <-> exists j vs, nth_error (data df) j = Some vs
                          /\ cell_in (get (series (columns df) vs) "type")
                               Validation.VALID_ENTRY_TYPES = false
                          /\ v = Validation.mkTypeViolation (Z.of_nat j + 2)
                                   (get (series (columns df) vs) "type")) as Hin.
  { intros v. rewrite in_flat_map. split.
    - intros [[idx c] [Hen Hv]]. unfold enumerate in Hen.
      apply enumerate_from_In in Hen. destruct Hen as [j [-> Hj]].
      unfold Frame.column in Hj. rewrite nth_error_map in Hj.
      destruct (nth_error (data df) j) as [vs|] eqn:E; [|discriminate].
      simpl in Hj. inversion Hj; subst c.
      apply check_entry_type_In in Hv. destruct Hv as [Hbad ->].
      exists j, vs. auto.
    - intros [j [vs [Hj [Hbad ->]]]].
      exists (Z.of_nat j, get (series (columns df) vs) "type"). split.
      + unfold enumerate. apply enumerate_from_In. exists j. split; [reflexivity|].
        unfold Frame.column. rewrite nth_error_map, Hj. reflexivity.
      + apply check_entry_type_In. auto. }
  split; [split|].
  - intros [v [Hv Hrow]]. apply Hin in Hv. destruct Hv as [j [vs [Hj [Hbad ->]]]].
    simpl in Hrow. assert (j = k) as -> by lia.
    rewrite Hk in Hj. inversion Hj; subst vs. exact Hbad.
  - intros Hbad. exists (Validation.mkTypeViolation (Z.of_nat k + 2) ty).
    split; [|reflexivity]. apply Hin. exists k, vals. auto.
  - intros Hbad.
    assert (In (Validation.mkTypeViolation (Z.of_nat k + 2) ty)
              (flat_map Validation.check_entry_type (enumerate (Frame.column df "type"))))
      as Hv by (apply Hin; exists k, vals; auto).
    split; [exact Hv|].
    destruct (flat_map Validation.check_entry_type (enumerate (Frame.column df "type")));
      [contradiction | reflexivity].
Qed.

Lemma type_violation_rows_witness :
  exists r, Validation.validate_case_file_data (RT := World.runtime) World.bad_type_table = Ok r
            /\ In (Validation.mkTypeViolation 2 (CText "memo-type"))
                 (Validation.invalid_types r)
            /\ Validation.valid r = false.
Proof.
  eexists. split; [vm_compute; reflexivity|].
  apply (type_violation_rows (RT := World.runtime) World.bad_type_table _ 0
           (World.plain_row "memo-type" "Hello")); reflexivity.
Defined.

(** C8. On a table whose first row has the type [memo-type], the
    validator of [app.py] records the violation under the row number 1
    (row index + 1), where the validator of [validation.py] records it
    under the row number 2 (row index + 2); both mark the table invalid. *)
Theorem app_validator_row_number :
  App.validate_case_file_data World.bad_type_table
  = Ok (App.mkReport false [] [ App.mkInvalidEntry 1 (CText "memo-type") ])
  /\ (forall RT : Runtime,
        exists r, Validation.validate_case_file_data World.bad_type_table = Ok r
                  /\ Validation.valid r = false
                  /\ Validation.invalid_types r
                     = [ Validation.mkTypeViolation 2 (CText "memo-type") ]).
Proof.
  split; [reflexivity|].
  intros RT. eexists. split; [reflexivity|]. split; reflexivity.
Qed.

(** ** C9: the file type decides before anything is read or opened *)

Ltac split_cases :=
  repeat match goal with
         | |- context [match ?x with _ => _ end] => destruct x
         | |- context [if ?b then _ else _] => destruct b
         end.

Section FileType.
Context {RT : Runtime} {ST : Sql.Store}.

Lemma app_trace_excel (file_path : string) (db : Sql.Db) (case_id : Z) :
  PyStr.mem (extension file_path) [ ".xlsx"; ".xls"; ".xlsm" ] = true ->
  exists rest, snd (App.load_excel_to_db file_path db case_id)
               = ReadExcel file_path :: rest.
Proof.
  intros H. unfold App.load_excel_to_db. fold (extension file_path). rewrite H.
  split_cases; simpl; eexists; reflexivity.
Qed.

Lemma app_trace_csv (file_path : string) (db : Sql.Db) (case_id : Z) :
  extension file_path = ".csv" ->
  exists rest, snd (App.load_excel_to_db file_path db case_id)
               = ReadCsv file_path tab :: rest.
Proof.
  intros H. unfold App.load_excel_to_db. fold (extension file_path). rewrite H.
  cbn [PyStr.mem existsb String.eqb Ascii.eqb Bool.eqb orb andb].
  split_cases; simpl; eexists; reflexivity.
Qed.

Lemma loader_excel (file_path : string) :
  PyStr.mem (extension file_path) [ ".xlsx"; ".xls"; ".xlsm" ] = true ->
  ExcelLoader.load_data_to_dataframe file_path
  = (read_excel file_path, [ ReadExcel file_path ]).
Proof.
  intros H. unfold ExcelLoader.load_data_to_dataframe, ExcelLoader.identify_file_type.
  fold (extension file_path). rewrite H. reflexivity.
Qed.

Lemma loader_csv (file_path : string) :
  extension file_path = ".csv" ->
  ExcelLoader.load_data_to_dataframe file_path
  = (read_csv file_path tab, [ ReadCsv file_path tab ]).
Proof.
  intros H. unfold ExcelLoader.load_data_to_dataframe, ExcelLoader.identify_file_type.
  fold (extension file_path). rewrite H. reflexivity.
Qed.

Lemma loader_unknown (file_path : string) :
  PyStr.mem (extension file_path) [ ".xlsx"; ".xls"; ".xlsm"; ".csv" ] = false ->
  PyStr.mem (extension file_path) [ ".xlsx"; ".xls"; ".xlsm" ] = false
  /\ String.eqb (extension file_path) ".csv" = false.
Proof.
  unfold PyStr.mem. cbn [existsb]. rewrite !orb_false_iff.
  intros [H1 [H2 [H3 [H4 _]]]]. rewrite H1, H2, H3, H4. auto.
Qed.

End FileType.

(** C9. Let the extension of a path be the second component of
    [os.path.splitext] on the lower-cased path, as both importers compute
    it. When it is none of [.xlsx], [.xls], [.xlsm], [.csv], the import
    of [app.py] returns [success = false] with the message
    [Unsupported file type], and the import of [excel_loader.py] returns
    [success = false] with the error [Unsupported file type] raised by
    the loader; in both, nothing was read and no connection was opened
    (the trace is empty) and the database is as before. A path with one
    of the three spreadsheet extensions is read by [read_excel], and a
    [.csv] path by [read_csv] with the tab character as delimiter, before
    anything else happens. *)
Theorem unsupported_file_type_rejected {RT : Runtime} {ST : Sql.Store}
    (file_path : string) (db : Sql.Db) (case_id : Z) :
  (PyStr.mem (extension file_path) [ ".xlsx"; ".xls"; ".xlsm"; ".csv" ] = false ->
   App.load_excel_to_db file_path db case_id
   = (App.mkResults false (MsgUnsupported (extension file_path)) 0 [] None, db, [])
   /\ ExcelLoader.load_excel_to_db file_path db case_id
      = (ExcelLoader.mkResults false (MsgError (UnsupportedFileType file_path)) 0 None
           [ UnsupportedFileType file_path ] None, db, []))
  /\ (PyStr.mem (extension file_path) [ ".xlsx"; ".xls"; ".xlsm" ] = true ->
      ExcelLoader.load_data_to_dataframe file_path
      = (read_excel file_path, [ ReadExcel file_path ])
      /\ exists rest, snd (App.load_excel_to_db file_path db case_id)
                      = ReadExcel file_path :: rest)
  /\ (extension file_path = ".csv" ->
      ExcelLoader.load_data_to_dataframe file_path
      = (read_csv file_path tab, [ ReadCsv file_path tab ])
      /\ exists rest, snd (App.load_excel_to_db file_path db case_id)
                      = ReadCsv file_path tab :: rest).
Proof.
  split; [|split].
  - intros H. apply loader_unknown in H. destruct H as [H3 Hcsv]. split.
    + unfold App.load_excel_to_db. fold (extension file_path).
      rewrite H3, Hcsv. reflexivity.
    + unfold ExcelLoader.load_excel_to_db, ExcelLoader.load_data_to_dataframe,
        ExcelLoader.identify_file_type.
      fold (extension file_path). rewrite H3, Hcsv. reflexivity.
  - intros H. split; [now apply loader_excel | now apply app_trace_excel].
  - intros H. split; [now apply loader_csv | now apply app_trace_csv].
Qed.

Lemma unsupported_file_type_rejected_witness :
  (App.load_excel_to_db (RT := World.runtime) (ST := World.store)
     "notes/Case.TXT" World.empty_db 7
   = (App.mkResults false (MsgUnsupported ".txt") 0 [] None, World.empty_db, [])
   /\ ExcelLoader.load_excel_to_db (RT := World.runtime) (ST := World.store)
        "notes/Case.TXT" World.empty_db 7
      = (ExcelLoader.mkResults false (MsgError (UnsupportedFileType "notes/Case.TXT")) 0
           None [ UnsupportedFileType "notes/Case.TXT" ] None, World.empty_db, []))
  /\ ExcelLoader.load_data_to_dataframe (RT := World.runtime) "Cases.XLSX"
     = (Raise IOError, [ ReadExcel "Cases.XLSX" ])
  /\ ExcelLoader.load_data_to_dataframe (RT := World.runtime) "cases.csv"
     = (Ok World.good_table, [ ReadCsv "cases.csv" tab ]).
Proof.
  split; [|split].
  - apply (unsupported_file_type_rejected (RT := World.runtime) (ST := World.store)
             "notes/Case.TXT" World.empty_db 7).
    reflexivity.
  - apply (unsupported_file_type_rejected (RT := World.runtime) (ST := World.store)
             "Cases.XLSX" World.empty_db 7).
    reflexivity.
  - apply (unsupported_file_type_rejected (RT := World.runtime) (ST := World.store)
             "cases.csv" World.empty_db 7).
    reflexivity.
Defined.

(** ** C2, C3: a billing row without a date skips the time checks *)

(** C2. A table whose only row is a billing row with an empty date cell,
    a billing start of 10:00 and a billing stop of 09:00 (start after
    stop) passes validation: the report is valid and records no date
    error. The [continue] on an empty date leaves the loop body before
    the sequence check. With a date in the row, the same times are
    recorded as a [billing_sequence] error under row number 2. *)
Theorem reversed_times_without_date_pass :
  forall RT : Runtime,
    Validation.ts_ge (Some (World.at_time 10 0)) (Some (World.at_time 9 0)) = true
    /\ Validation.validate_case_file_data World.reversed_times_table
       = Ok (Validation.mkReport true [] [] [] [] Validation.no_samples)
    /\ exists r,
         Validation.validate_case_file_data World.dated_reversed_times_table = Ok r
         /\ Validation.valid r = false
         /\ Validation.date_format_errors r
            = [ Validation.BillingSequence 2 (CTime (World.at_time 10 0))
                  (CTime (World.at_time 9 0)) ].
Proof.
  intros RT. split; [reflexivity|]. split; [reflexivity|].
  eexists. split; [reflexivity|]. split; reflexivity.
Qed.

(** C3. A table whose only row is a billing row with an empty date cell,
    billed from 09:00 to 10:00 with [billing-hrs] one half (off by half
    an hour) passes validation: the report is valid and records no date
    error. With a date in the row, the validator records a
    [billing_duration] error under row number 2, with the calculated
    duration (one hour) and the provided value. *)
Theorem wrong_hours_without_date_pass :
  forall RT : Runtime,
    Validation.off_tolerance
      (Validation.total_seconds (World.at_time 10 0 - World.at_time 9 0) / (3600 # 1))
      (1 # 2) = true
    /\ Validation.validate_case_file_data World.wrong_hours_table
       = Ok (Validation.mkReport true [] [] [] [] Validation.no_samples)
    /\ exists r calculated,
         Validation.validate_case_file_data World.dated_wrong_hours_table = Ok r
         /\ Validation.valid r = false
         /\ Validation.date_format_errors r
            = [ Validation.BillingDuration 2 calculated (CNum (1 # 2)) ]
         /\ (calculated == 1)%Q.
Proof.
  intros RT. split; [reflexivity|]. split; [reflexivity|].
  eexists. eexists. split; [reflexivity|]. repeat split.
Qed.

(** ** C4: the category of a title, in the validator and in the importers *)

Lemma split1_second (title : string) :
  nth_error (PyStr.split1 ":" title) 1
  = if PyStr.contains ":" title then Some (Spec.after_first_colon title) else None.
Proof.
  induction title as [|a rest IH]; [reflexivity|].
  cbn [PyStr.split1 PyStr.contains Spec.after_first_colon].
  destruct (Ascii.eqb a ":"); [reflexivity|].
  destruct (PyStr.split1 ":" rest) as [|h [|h' t]]; simpl in *; exact IH.
Qed.

(** The category both importers read off a title that is a string. *)
Lemma import_category_text (title : string) :
  ExcelLoader.billing_category (CText title) = Ok (CText (Spec.category title))
  /\ App.billing_category (CText title) = Ok (CText (Spec.category title)).
Proof.
  unfold ExcelLoader.billing_category, App.billing_category, Spec.category,
    colon_in, split_colon, PyStr.index, rbind.
  rewrite split1_second. destruct (PyStr.contains ":" title); split; reflexivity.
Qed.

(** C4, as stated, fails: on the colon-free title [Nonsense] the
    importers take the whole title as the category, the validator reads
    no category off it, and so a billing row with that title passes
    validation although [Nonsense] is not a billing category. *)
Lemma validator_reads_no_category_without_colon :
  Validation.title_category (CText "Nonsense") = Ok None
  /\ ExcelLoader.billing_category (CText "Nonsense") = Ok (CText "Nonsense")
  /\ App.billing_category (CText "Nonsense") = Ok (CText "Nonsense")
  /\ PyStr.mem "Nonsense" Validation.BILLING_CATEGORIES = false
  /\ Validation.validate_case_file_data (RT := World.runtime)
       World.uncategorised_billing_table
     = Ok (Validation.mkReport true [] [] [] [] Validation.no_samples).
Proof. repeat split. Qed.

(** C4, amended. For every title string, the importer of
    [excel_loader.py] and the importer of [app.py] derive the same
    category, the one of the colon rule: the stripped text after the
    first colon, or the whole title when it holds no colon. The
    validator derives that same category when the title holds a colon,
    and derives none (it checks no category) when the title holds no
    colon. *)
Theorem category_derivations_agree (title : string) :
  ExcelLoader.billing_category (CText title) = Ok (CText (Spec.category title))
  /\ App.billing_category (CText title) = Ok (CText (Spec.category title))
  /\ Validation.title_category (CText title)
     = Ok (if PyStr.contains ":" title then Some (Spec.category title) else None).
Proof.
  destruct (import_category_text title) as [H1 H2].
  split; [exact H1|]. split; [exact H2|].
  unfold Validation.title_category, Spec.category, colon_in, split_colon,
    PyStr.index, rbind.
  cbn [isna]. rewrite split1_second. destruct (PyStr.contains ":" title); reflexivity.
Qed.

(** ** Transactions *)

Section Transactions.
Context {RT : Runtime} {ST : Sql.Store}.
Import Sql.

Lemma keeps_ret {A : Type} (a : A) : keeps_committed (ret a).
Proof. intros c r c' H. inversion H. reflexivity. Qed.

Lemma keeps_raise {A : Type} (e : exn) : keeps_committed (raise (A := A) e).
Proof. intros c r c' H. inversion H. reflexivity. Qed.

Lemma keeps_liftR {A : Type} (x : result A) : keeps_committed (liftR x).
Proof. intros c r c' H. inversion H. reflexivity. Qed.

Lemma keeps_lastrowid : keeps_committed lastrowid.
Proof. intros c r c' H. inversion H. reflexivity. Qed.

Lemma keeps_insert_entry (values : list (string * cell)) :
  keeps_committed (insert_entry values).
Proof.
  intros c r c'. unfold insert_entry.
  destruct (entry_ok (working c) values); intros H; inversion H; reflexivity.
Qed.

Lemma keeps_insert_billing (values : BillingValues) :
  keeps_committed (insert_billing values).
Proof.
  intros c r c'. unfold insert_billing.
  destruct (billing_ok (working c) values); intros H; inversion H; reflexivity.
Qed.

Lemma keeps_bind {A B : Type} (m : M Conn A) (k : A -> M Conn B) :
  keeps_committed m -> (forall a, keeps_committed (k a)) -> keeps_committed (bind m k).
Proof.
  intros Hm Hk c r c'. unfold bind.
  destruct (m c) as [[a|e] c1] eqn:E; intros H.
  - rewrite (Hk a _ _ _ H). eapply Hm; eassumption.
  - inversion H; subst. eapply Hm; eassumption.
Qed.

Lemma keeps_foldM {A B : Type} (body : B -> A -> M Conn B) (xs : list A) :
  (forall acc x, keeps_committed (body acc x)) ->
  forall acc, keeps_committed (foldM body acc xs).
Proof.
  intros Hbody. induction xs as [|x xs IH]; intros acc; simpl.
  - apply keeps_ret.
  - apply keeps_bind; [apply Hbody | intros; apply IH].
Qed.

End Transactions.

Ltac keeps :=
  repeat first
    [ apply keeps_ret | apply keeps_raise | apply keeps_liftR | apply keeps_lastrowid
    | apply keeps_insert_entry | apply keeps_insert_billing
    | apply keeps_bind | apply keeps_foldM | intro
    | match goal with |- keeps_committed (if ?b then _ else _) => destruct b end ].

Section AppTransactions.
Context {RT : Runtime} {ST : Sql.Store}.
Import Sql.

Lemma keeps_create_billing_entry (case_id entry_id : Z) (row : Row) :
  keeps_committed (App.create_billing_entry case_id entry_id row).
Proof. unfold App.create_billing_entry. keeps. Qed.

Lemma keeps_insert_row (case_id : Z) (df_columns : list string) (n : Z) (it : Z * Row) :
  keeps_committed (App.insert_row case_id df_columns n it).
Proof.
  unfold App.insert_row.
  apply keeps_bind; [apply keeps_insert_entry | intros _].
  apply keeps_bind; [apply keeps_lastrowid | intros entry_id].
  apply keeps_bind; [apply keeps_liftR | intros ty].
  apply keeps_bind; [|intros; apply keeps_ret].
  destruct (cell_is ty "billing-type");
    [apply keeps_create_billing_entry | apply keeps_ret].
Qed.

(** The import of [app.py] is all or nothing: when [insert_data_to_db]
    raises, what is committed is what was committed before and the open
    transaction holds nothing more; when it returns, everything it wrote
    is committed. *)
Lemma app_insert_all_or_nothing (df : DataFrame) (case_id : Z) (c : Conn) :
  match App.insert_data_to_db df case_id c with
  | (Raise _, c') => committed c' = committed c /\ working c' = committed c
  | (Ok _, c') => committed c' = working c'
  end.
Proof.
  unfold App.insert_data_to_db, try_except, bind.
  destruct (foldM _ 0 _ c) as [[n|e] c1] eqn:E; simpl.
  - reflexivity.
  - assert (committed c1 = committed c) as Hc.
    { eapply keeps_foldM; [|exact E]. intros. apply keeps_insert_row. }
    auto.
Qed.

End AppTransactions.

(** ** Rows of a restricted table *)

Lemma lookup_select (g : string -> cell) (cols : list string) (col : string) :
  lookup (series cols (map g cols)) col
  = if PyStr.mem col cols then Some (g col) else None.
Proof.
  induction cols as [|c cs IH]; [reflexivity|].
  cbn [map series hd tl lookup]. unfold PyStr.mem in *. cbn [existsb].
  rewrite (String.eqb_sym col c).
  destruct (String.eqb_spec c col) as [->|Hne]; [reflexivity|].
  rewrite IH. reflexivity.
Qed.

Lemma getitem_select (g : string -> cell) (cols : list string) (col : string) :
  getitem (series cols (map g cols)) col
  = if PyStr.mem col cols then Ok (g col) else Raise KeyError.
Proof.
  unfold getitem. rewrite lookup_select. destruct (PyStr.mem col cols); reflexivity.
Qed.

Lemma get_select (g : string -> cell) (cols : list string) (col : string) :
  PyStr.mem col cols = true -> get (series cols (map g cols)) col = g col.
Proof. intros H. unfold get. rewrite lookup_select, H. reflexivity. Qed.

Lemma iterrows_select (df : DataFrame) (cols : list string) :
  iterrows (Frame.select df cols)
  = enumerate (map (fun vals => series cols (map (get (series (columns df) vals)) cols))
                 (data df)).
Proof.
  unfold iterrows, Frame.select. cbn [columns data]. rewrite map_map. reflexivity.
Qed.

(** ** C10: a billing row without a title passes validation and fails the import *)

Section UntitledBilling.
Context {RT : Runtime} {ST : Sql.Store}.
Import Sql.

(** In the importer of [app.py], the row of a billing entry whose title
    cell is empty never goes through: the INSERT of the entry is refused,
    or a column is missing, or the colon test raises TypeError. *)
Lemma app_untitled_row_raises (case_id n : Z) (cols : list string)
    (g : string -> cell) (idx : Z) (c : Conn) :
  g "type" = CText "billing-type" ->
  g "title" = CEmpty ->
  exists e c1,
    App.insert_row case_id cols n (idx, series cols (map g cols)) c = (Raise e, c1).
Proof.
  intros Hty Htitle. unfold App.insert_row, bind. cbn [snd].
  destruct (insert_entry _ c) as [[[]|e] c1]; [|eauto].
  unfold lastrowid, liftR. rewrite getitem_select.
  destruct (PyStr.mem "type" cols); [|eauto].
  rewrite Hty. cbn [cell_is String.eqb Ascii.eqb Bool.eqb andb].
  unfold App.create_billing_entry, bind, liftR. rewrite getitem_select.
  destruct (PyStr.mem "title" cols); [|eauto].
  rewrite Htitle. cbn [App.billing_category colon_in rbind]. eauto.
Qed.

Lemma prepare_untitled (case_id : Z) :
  App.prepare_data_for_db World.untitled_billing_table case_id
  = mkDataFrame
      [ "type"; "date"; "title"; "from_party"; "to_party"; "cc_party"; "content";
        "attachments"; "synopsis"; "comments"; "billing_start"; "billing_stop";
        "billing_hrs"; "case_id" ]
      [ [ CText "billing-type"; CTime (World.at_time 9 0); CEmpty; CText "a"; CText "b";
          CEmpty; CText "work done"; CEmpty; CEmpty; CEmpty; CTime (World.at_time 9 0);
          CTime (World.at_time 10 0); CNum 1; CNum (inject_Z case_id) ] ].
Proof. reflexivity. Qed.

Lemma app_untitled_import_raises (case_id : Z) (c : Conn) :
  exists e c',
    App.insert_data_to_db (App.prepare_data_for_db World.untitled_billing_table case_id)
      case_id c = (Raise e, c')
    /\ committed c' = committed c /\ working c' = committed c.
Proof.
  pose proof (app_insert_all_or_nothing
                (App.prepare_data_for_db World.untitled_billing_table case_id) case_id c)
    as Hall.
  rewrite prepare_untitled in *.
  unfold App.insert_data_to_db, try_except, bind in *.
  rewrite iterrows_select in *. cbn [data map enumerate enumerate_from foldM] in *.
  unfold bind in *.
  edestruct (app_untitled_row_raises case_id 0)
    with (idx := 0) (c := c) as [e [c1 Hrow]];
    [ | | rewrite Hrow in *; cbn in *; exists e; eexists; split; [reflexivity | exact Hall] ];
    reflexivity.
Qed.

End UntitledBilling.

(** ** The import of excel_loader.py, step by step *)

Section LoaderSteps.
Context {RT : Runtime} {ST : Sql.Store}.
Import Sql.

(** [row.get(col) if col in row else None] is [row.get(col)]. *)
Lemma get_if_has_label (row : Row) (col : string) :
  (if has_label row col then get row col else CEmpty) = get row col.
Proof. unfold has_label, get. destruct (lookup row col); reflexivity. Qed.

Lemma insert_billing_row_on_conn (case_id first_id n : Z) (it : Z * Row)
    (s : ExcelLoader.ImportState) :
  ExcelLoader.insert_billing_row case_id first_id n it s
  = let (r, c) := billing_step case_id first_id n it (ExcelLoader.conn s) in
    (r, ExcelLoader.mkImportState (ExcelLoader.results s) c).
Proof.
  destruct it as [idx row]. destruct s as [res c].
  unfold ExcelLoader.insert_billing_row, billing_step, bind, liftR, ExcelLoader.on_conn.
  cbn [fst snd ExcelLoader.conn ExcelLoader.results].
  rewrite !get_if_has_label.
  destruct (getitem row "title") as [title|e]; [|reflexivity].
  destruct (ExcelLoader.billing_category title) as [cat|e]; [|reflexivity].
  destruct (getitem row "content") as [content|e]; [|reflexivity].
  destruct (insert_billing _ c) as [[[]|e] c1]; reflexivity.
Qed.

Lemma billing_loop_on_conn (case_id first_id : Z) (rows : list (Z * Row)) :
  forall n s,
    foldM (ExcelLoader.insert_billing_row case_id first_id) n rows s
    = let (r, c) := foldM (billing_step case_id first_id) n rows (ExcelLoader.conn s) in
      (r, ExcelLoader.mkImportState (ExcelLoader.results s) c).
Proof.
  induction rows as [|it rows IH]; intros n s.
  - destruct s. reflexivity.
  - cbn [foldM]. unfold bind. rewrite insert_billing_row_on_conn.
    destruct (billing_step case_id first_id n it (ExcelLoader.conn s)) as [[m|e] c1].
    + rewrite IH. reflexivity.
    + reflexivity.
Qed.

(** [load_case_file_to_db], one outcome after the other: [to_sql] raises;
    the table has no [type] column; the billing loop raises; everything
    went in and is committed. *)
Lemma load_case_file_to_db_cases (df : DataFrame) (case_id : Z) (c : Conn) :
  ExcelLoader.load_case_file_to_db df case_id c
  = match to_sql (filtered_df df case_id) c with
    | (Raise e, c1) =>
        (ExcelLoader.mkImportResults false 0 0 [e], snd (rollback c1))
    | (Ok _, c1) =>
        let n := len (filtered_df df case_id) in
        match ExcelLoader.billing_rows df with
        | Raise e => (ExcelLoader.mkImportResults false n 0 [e], snd (rollback c1))
        | Ok rows =>
            match foldM (billing_step case_id (last_rowid c1 - n + 1)) 0 rows c1 with
            | (Raise e, c2) =>
                (ExcelLoader.mkImportResults false n 0 [e], snd (rollback c2))
            | (Ok billing_entries, c2) =>
                (ExcelLoader.mkImportResults true n billing_entries [], snd (commit c2))
            end
        end
    end.
Proof.
  unfold ExcelLoader.load_case_file_to_db, ExcelLoader.import_body, try_except, bind.
  fold (filtered_df df case_id).
  unfold ExcelLoader.on_conn at 1. cbn [ExcelLoader.conn ExcelLoader.results].
  destruct (to_sql (filtered_df df case_id) c) as [[[]|e] c1]; [|reflexivity].
  cbn -[filtered_df len foldM]. unfold liftR.
  destruct (ExcelLoader.billing_rows df) as [rows|e]; [|reflexivity].
  rewrite billing_loop_on_conn. cbn [ExcelLoader.conn ExcelLoader.results].
  destruct (foldM _ 0 rows c1) as [[m|e] c2]; reflexivity.
Qed.

(** What [to_sql] leaves committed: everything it wrote when it returns
    and ends its own transaction, and nothing new otherwise. *)
Lemma to_sql_committed (df : DataFrame) (c : Conn) :
  match to_sql df c with
  | (Ok _, c1) => committed c1 = if to_sql_commits then working c1 else committed c
  | (Raise _, c1) => committed c1 = committed c
  end.
Proof.
  unfold to_sql.
  destruct (foldM _ tt (data df) c) as [[[]|e] c1] eqn:E.
  - assert (committed c1 = committed c) as Hc.
    { eapply keeps_foldM; [|exact E]. intros. apply keeps_insert_entry. }
    destruct to_sql_commits; [reflexivity | exact Hc].
  - assert (committed c1 = committed c) as Hc.
    { eapply keeps_foldM; [|exact E]. intros. apply keeps_insert_entry. }
    destruct to_sql_commits; exact Hc.
Qed.

End LoaderSteps.

Section UntitledBillingLoader.
Context {RT : Runtime} {ST : Sql.Store}.
Import Sql.

Lemma loader_untitled_cases (case_id : Z) (c : Conn) :
  ExcelLoader.load_case_file_to_db World.untitled_billing_table case_id c
  = match to_sql (filtered_df World.untitled_billing_table case_id) c with
    | (Raise e, c1) => (ExcelLoader.mkImportResults false 0 0 [e], snd (rollback c1))
    | (Ok _, c1) =>
        (ExcelLoader.mkImportResults false 1 0 [TypeError], snd (rollback c1))
    end.
Proof.
  rewrite load_case_file_to_db_cases.
  destruct (to_sql (filtered_df World.untitled_billing_table case_id) c)
    as [[[]|e] c1]; reflexivity.
Qed.

(** The loader on the table with the untitled billing row: the import
    fails with one error, no billing entry is written, the transaction
    is closed by a rollback, and what [to_sql] did not commit by itself
    is gone. *)
Lemma loader_untitled_import_fails (case_id : Z) (c : Conn) :
  exists r c',
    ExcelLoader.load_case_file_to_db World.untitled_billing_table case_id c = (r, c')
    /\ ExcelLoader.success r = false
    /\ (exists e, ExcelLoader.errors r = [e])
    /\ ExcelLoader.billing_entries_added r = 0
    /\ working c' = committed c'
    /\ (to_sql_commits = false -> committed c' = committed c).
Proof.
  rewrite loader_untitled_cases.
  pose proof (to_sql_committed (filtered_df World.untitled_billing_table case_id) c) as Hc.
  destruct (to_sql (filtered_df World.untitled_billing_table case_id) c)
    as [[[]|e] c1]; do 2 eexists; (split; [reflexivity|]); cbn;
    repeat split; eauto.
  intros Hno. rewrite Hno in Hc. exact Hc.
Qed.

End UntitledBillingLoader.

(** C10. The table whose only row is a billing row with an empty title
    cell passes validation: the validator reads no category off the
    empty title and returns a valid report (so does the validator of
    [app.py]). Its import fails in both importers, whatever the store
    holds and accepts: the colon test of the category derivation raises
    TypeError on the empty title. In [app.py] the exception leaves
    [insert_data_to_db] after a rollback, and the database is as it was;
    in [excel_loader.py] the result has [success = false] and one error,
    no billing entry was added, the transaction is rolled back, and the
    database is as it was unless [to_sql] committed the entry rows by
    itself. *)
Theorem untitled_billing_row_fails_import {RT : Runtime} {ST : Sql.Store}
    (db : Sql.Db) (case_id : Z) :
  Validation.title_category CEmpty = Ok None
  /\ ExcelLoader.billing_category CEmpty = Raise TypeError
  /\ App.billing_category CEmpty = Raise TypeError
  /\ Validation.validate_case_file_data World.untitled_billing_table
     = Ok (Validation.mkReport true [] [] [] [] Validation.no_samples)
  /\ App.validate_case_file_data World.untitled_billing_table
     = Ok (App.mkReport true [] [])
  /\ (exists e c',
        App.insert_data_to_db
          (App.prepare_data_for_db World.untitled_billing_table case_id) case_id
          (Sql.connect db) = (Raise e, c')
        /\ Sql.committed c' = db /\ Sql.working c' = db)
  /\ (exists r c',
        ExcelLoader.load_case_file_to_db World.untitled_billing_table case_id
          (Sql.connect db) = (r, c')
        /\ ExcelLoader.success r = false
        /\ (exists e, ExcelLoader.errors r = [e])
        /\ ExcelLoader.billing_entries_added r = 0
        /\ Sql.working c' = Sql.committed c'
        /\ (to_sql_commits = false -> Sql.committed c' = db)).
Proof.
  do 5 (split; [reflexivity|]). split.
  - apply app_untitled_import_raises.
  - apply loader_untitled_import_fails.
Qed.

Lemma untitled_billing_row_fails_import_witness :
  App.load_excel_to_db (RT := World.runtime) (ST := World.store)
    "untitled.xlsx" World.empty_db 7
  = (App.mkResults false (MsgError TypeError) 0 [ TypeError ] None, World.empty_db,
     [ ReadExcel "untitled.xlsx"; Connect ])
  /\ exists r c',
       ExcelLoader.load_case_file_to_db (RT := World.runtime_of false)
         (ST := World.store) World.untitled_billing_table 7
         (Sql.connect World.empty_db) = (r, c')
       /\ ExcelLoader.success r = false
       /\ (exists e, ExcelLoader.errors r = [e])
       /\ ExcelLoader.billing_entries_added r = 0
       /\ Sql.working c' = Sql.committed c'
       /\ Sql.committed c' = World.empty_db.
Proof.
  split; [vm_compute; reflexivity|].
  destruct (untitled_billing_row_fails_import (RT := World.runtime_of false)
              (ST := World.store) World.empty_db 7)
    as [_ [_ [_ [_ [_ [_ [r [c' [H1 [H2 [H3 [H4 [H5 H6]]]]]]]]]]]]].
  exists r, c'. repeat (split; [assumption|]). apply H6. reflexivity.
Defined.

(** ** C1: what a failed import reports and leaves behind *)

Section FailedImport.
Context {RT : Runtime} {ST : Sql.Store}.
Import Sql.

(** X4. [app.py]: whenever [load_excel_to_db] returns [success = false]
    (unsupported file type, unreadable file, failed validation, or an
    exception during the inserts, after which [insert_data_to_db] rolls
    back), it reports [entries_added = 0] and the database is as it was
    before the call. *)
Theorem app_failed_import (file_path : string) (db : Db) (case_id : Z) :
  App.success (fst (fst (App.load_excel_to_db file_path db case_id))) = false ->
  App.entries_added (fst (fst (App.load_excel_to_db file_path db case_id))) = 0
  /\ snd (fst (App.load_excel_to_db file_path db case_id)) = db.
Proof.
  unfold App.load_excel_to_db.
  destruct (PyStr.mem _ [ ".xlsx"; ".xls"; ".xlsm" ]).
  - destruct (read_excel file_path) as [df|e]; [|auto].
    destruct (App.validate_case_file_data df) as [v|e]; [|auto].
    destruct (negb (App.valid v)); [auto|].
    pose proof (app_insert_all_or_nothing (App.prepare_data_for_db df case_id) case_id
                  (connect db)) as Hall.
    destruct (App.insert_data_to_db _ case_id (connect db)) as [[n|e] c']; cbn.
    + discriminate.
    + intros _. split; [reflexivity | apply Hall].
  - destruct (String.eqb _ ".csv"); [|auto].
    destruct (read_csv file_path tab) as [df|e]; [|auto].
    destruct (App.validate_case_file_data df) as [v|e]; [|auto].
    destruct (negb (App.valid v)); [auto|].
    pose proof (app_insert_all_or_nothing (App.prepare_data_for_db df case_id) case_id
                  (connect db)) as Hall.
    destruct (App.insert_data_to_db _ case_id (connect db)) as [[n|e] c']; cbn.
    + discriminate.
    + intros _. split; [reflexivity | apply Hall].
Qed.

(** [excel_loader.py]: when the entry rows went in and the billing loop
    raises, the result keeps the count of entry rows set before the
    loop. *)
Lemma loader_failed_billing_loop (df : DataFrame) (case_id : Z) (c c1 c2 : Conn)
    (rows : list (Z * Row)) (e : exn) :
  to_sql (filtered_df df case_id) c = (Ok tt, c1) ->
  ExcelLoader.billing_rows df = Ok rows ->
  foldM (billing_step case_id (last_rowid c1 - len (filtered_df df case_id) + 1)) 0 rows c1
  = (Raise e, c2) ->
  ExcelLoader.load_case_file_to_db df case_id c
  = (ExcelLoader.mkImportResults false (len (filtered_df df case_id)) 0 [e],
     snd (rollback c2)).
Proof.
  intros Hsql Hrows Hloop. rewrite load_case_file_to_db_cases, Hsql, Hrows.
  cbv zeta. rewrite Hloop. reflexivity.
Qed.

End FailedImport.

Lemma app_failed_import_witness :
  App.entries_added
    (fst (fst (App.load_excel_to_db (RT := World.runtime) (ST := World.store)
                 "untitled.xlsx" World.empty_db 7))) = 0
  /\ snd (fst (App.load_excel_to_db (RT := World.runtime) (ST := World.store)
                 "untitled.xlsx" World.empty_db 7)) = World.empty_db.
Proof.
  apply (app_failed_import (RT := World.runtime) (ST := World.store)
           "untitled.xlsx" World.empty_db 7).
  reflexivity.
Defined.

(** C1. The spreadsheet [untitled.xlsx] holds one billing row whose
    title cell is empty; the store accepts every row. The import of
    [excel_loader.py] fails on the billing entry (TypeError) and returns
    [success = false] with [entries_added = 1]: the count set after
    [to_sql] is not reset by the handler. The import of [app.py] fails
    on the same row and returns [success = false] with
    [entries_added = 0], the database being as it was. *)
Theorem failed_import_reports_entries_added :
  fst (fst (ExcelLoader.load_excel_to_db (RT := World.runtime) (ST := World.store)
              "untitled.xlsx" World.empty_db 7))
  = ExcelLoader.mkResults false MsgEmpty 1 (Some 0) [ TypeError ] None
  /\ fst (fst (ExcelLoader.load_excel_to_db (RT := World.runtime_of false)
                 (ST := World.store) "untitled.xlsx" World.empty_db 7))
     = ExcelLoader.mkResults false MsgEmpty 1 (Some 0) [ TypeError ] None
  /\ App.load_excel_to_db (RT := World.runtime) (ST := World.store)
       "untitled.xlsx" World.empty_db 7
     = (App.mkResults false (MsgError TypeError) 0 [ TypeError ] None, World.empty_db,
        [ ReadExcel "untitled.xlsx"; Connect ]).
Proof. repeat split. Qed.

(** ** Generated keys and the links of billing entries *)

Lemma ids_from_length (n : nat) : forall first, List.length (ids_from first n) = n.
Proof. induction n; intros; simpl; [reflexivity | now rewrite IHn]. Qed.

Lemma ids_from_nth (n : nat) :
  forall first k, (k < n)%nat -> nth_error (ids_from first n) k = Some (first + Z.of_nat k).
Proof.
  induction n as [|n IH]; intros first k Hk; [lia|].
  destruct k as [|k]; simpl.
  - f_equal. lia.
  - rewrite IH by lia. f_equal. lia.
Qed.

Lemma links_lower_bound (flags : list bool) :
  forall first id, In id (links first flags) -> first <= id.
Proof.
  induction flags as [|b flags IH]; intros first id Hin; [contradiction|].
  simpl in Hin. apply in_app_or in Hin. destruct Hin as [Hin|Hin].
  - destruct b; [|contradiction]. destruct Hin as [<-|[]]. lia.
  - apply IH in Hin. lia.
Qed.

Lemma occurrences_app (id : Z) (xs ys : list Z) :
  occurrences id (xs ++ ys) = (occurrences id xs + occurrences id ys)%nat.
Proof. unfold occurrences. now rewrite filter_app, length_app. Qed.

Lemma occurrences_absent (id : Z) (ids : list Z) :
  ~ In id ids -> occurrences id ids = 0%nat.
Proof.
  unfold occurrences. induction ids as [|x ids IH]; intros Hnot; [reflexivity|].
  simpl. destruct (Z.eqb_spec id x) as [->|Hne].
  - exfalso. apply Hnot. now left.
  - apply IH. intros Hin. apply Hnot. now right.
Qed.

(** Every row has as many links to its key as it should: one when it is
    a billing row, none otherwise. *)
Lemma links_occurrences (flags : list bool) :
  forall first k b,
    nth_error flags k = Some b ->
    occurrences (first + Z.of_nat k) (links first flags) = if b then 1%nat else 0%nat.
Proof.
  induction flags as [|b0 flags IH]; intros first k b Hk.
  - destruct k; discriminate.
  - cbn [links]. rewrite occurrences_app. destruct k as [|k].
    + inversion Hk; subst b0. rewrite Z.add_0_r.
      rewrite (occurrences_absent first (links (first + 1) flags)).
      * destruct b; unfold occurrences; simpl; [rewrite Z.eqb_refl|]; reflexivity.
      * intros Hin. apply links_lower_bound in Hin. lia.
    + simpl in Hk.
      replace (first + Z.of_nat (S k)) with (first + 1 + Z.of_nat k) by lia.
      rewrite (IH (first + 1) k b Hk).
      rewrite occurrences_absent; [reflexivity|].
      destruct b0; simpl; [|tauto]. intros [H|[]]. lia.
Qed.

Lemma links_length (flags : list bool) :
  forall first, List.length (links first flags) = List.length (filter (fun b => b) flags).
Proof.
  induction flags as [|b flags IH]; intros first; [reflexivity|].
  cbn [links filter]. rewrite length_app, IH. destruct b; reflexivity.
Qed.


(** ** Rows written inside a transaction *)

Section Writes.
Context {RT : Runtime} {ST : Sql.Store}.
Import Sql.

Lemma max_id_nonneg (ids : list Z) : 0 <= max_id ids.
Proof. induction ids; simpl; lia. Qed.

Lemma max_id_snoc (ids : list Z) (x : Z) :
  max_id (ids ++ [x]) = Z.max (max_id ids) (Z.max x 0).
Proof. induction ids as [|y ids IH]; simpl; [lia | rewrite IH; lia]. Qed.

Lemma next_rowid_snoc (ids : list Z) :
  next_rowid (ids ++ [next_rowid ids]) = next_rowid ids + 1.
Proof.
  unfold next_rowid. fold (max_id ids). fold (max_id (ids ++ [1 + max_id ids])).
  rewrite max_id_snoc. pose proof (max_id_nonneg ids). lia.
Qed.

Lemma wrote_refl (c : Conn) : wrote c c [] [].
Proof. unfold wrote. now rewrite !app_nil_r. Qed.

Lemma wrote_trans (c c1 c2 : Conn) (es es' : list Entry) (bs bs' : list Billing) :
  wrote c c1 es bs -> wrote c1 c2 es' bs' -> wrote c c2 (es ++ es') (bs ++ bs').
Proof.
  intros [H1 [H2 H3]] [H1' [H2' H3']]. unfold wrote.
  rewrite H1', H1, H2', H2, H3', H3, !app_assoc. auto.
Qed.

Lemma entry_ids_wrote (c c1 : Conn) (es : list Entry) (bs : list Billing) :
  wrote c c1 es bs -> entry_ids c1 = entry_ids c ++ map entry_id es.
Proof. intros [_ [H _]]. unfold entry_ids. now rewrite H, map_app. Qed.

Lemma insert_entry_Ok (values : list (string * cell)) (c c1 : Conn) :
  insert_entry values c = (Ok tt, c1) ->
  wrote c c1 [ mkEntry (next_rowid (entry_ids c)) values ] []
  /\ last_rowid c1 = next_rowid (entry_ids c).
Proof.
  unfold insert_entry. destruct (entry_ok (working c) values); [|discriminate].
  intros H. inversion H. unfold wrote, entry_ids. cbn. rewrite app_nil_r. auto.
Qed.

Lemma insert_billing_Ok (values : BillingValues) (c c1 : Conn) :
  insert_billing values c = (Ok tt, c1) ->
  exists id, wrote c c1 [] [ mkBilling id values ].
Proof.
  unfold insert_billing. destruct (billing_ok (working c) values); [|discriminate].
  intros H. inversion H. eexists. unfold wrote. cbn. rewrite app_nil_r. auto.
Qed.

(** The rows [to_sql] inserts get consecutive keys, and the last key is
    what [last_insert_rowid()] returns afterwards. *)
Lemma insert_all_Ok (f : list cell -> list (string * cell)) (rows : list (list cell)) :
  forall c c1,
    foldM (fun (_ : unit) vals => insert_entry (f vals)) tt rows c = (Ok tt, c1) ->
    exists es,
      wrote c c1 es []
      /\ map entry_id es = ids_from (next_rowid (entry_ids c)) (List.length rows)
      /\ map entry_values es = map f rows
      /\ last_rowid c1
         = match rows with
           | [] => last_rowid c
           | _ :: _ => next_rowid (entry_ids c) + Z.of_nat (List.length rows) - 1
           end.
Proof.
  induction rows as [|vals rows IH]; intros c c1 H.
  - inversion H; subst. exists []. split; [apply wrote_refl|]. auto.
  - cbn [foldM] in H. unfold bind in H.
    destruct (insert_entry (f vals) c) as [[[]|e] c0] eqn:E; [|discriminate].
    apply insert_entry_Ok in E. destruct E as [Hw Hlast].
    apply IH in H. destruct H as [es [Hw' [Hids [Hvals Hlast']]]].
    pose proof (entry_ids_wrote _ _ _ _ Hw) as Hids0. cbn [map entry_id] in Hids0.
    rewrite Hids0, next_rowid_snoc in Hids, Hlast'.
    exists (mkEntry (next_rowid (entry_ids c)) (f vals) :: es).
    split; [|split; [|split]].
    + apply (wrote_trans _ _ _ _ _ _ _ Hw Hw').
    + cbn [map ids_from List.length entry_id]. f_equal. exact Hids.
    + cbn [map entry_values]. f_equal. exact Hvals.
    + rewrite Hlast'. destruct rows as [|v rows]; cbn [List.length]; lia.
Qed.

End Writes.

Section Loops.
Context {RT : Runtime} {ST : Sql.Store}.
Import Sql.

Lemma getitem_Ok (row : Row) (col : string) (v : cell) :
  getitem row col = Ok v -> get row col = v.
Proof.
  unfold getitem, get. destruct (lookup row col); intros H; inversion H; reflexivity.
Qed.



Lemma create_billing_entry_Ok (case_id entry_id : Z) (row : Row) (c c1 : Conn) :
  App.create_billing_entry case_id entry_id row c = (Ok tt, c1) ->
  exists b, wrote c c1 [] [b] /\ link b = entry_id.
Proof.
  unfold App.create_billing_entry, bind, liftR.
  destruct (getitem row "title") as [title|e]; [|discriminate].
  destruct (App.billing_category title) as [cat|e]; [|discriminate].
  destruct (getitem row "billing_start") as [start|e]; [|discriminate].
  destruct (getitem row "billing_stop") as [stop|e]; [|discriminate].
  destruct (getitem row "billing_hrs") as [hrs|e]; [|discriminate].
  destruct (getitem row "content") as [content|e]; [|discriminate].
  intros H. apply insert_billing_Ok in H. destruct H as [id Hw]. eauto.
Qed.

Lemma insert_row_Ok (case_id : Z) (cols : list string) (n : Z) (it : Z * Row)
    (c c1 : Conn) (m : Z) :
  App.insert_row case_id cols n it c = (Ok m, c1) ->
  m = n + 1
  /\ (exists ty, getitem (snd it) "type" = Ok ty)
  /\ exists e bs,
       wrote c c1 [e] bs
       /\ entry_id e = next_rowid (entry_ids c)
       /\ map link bs = if is_billing (snd it) then [ next_rowid (entry_ids c) ] else [].
Proof.
  unfold App.insert_row, bind, lastrowid, liftR.
  destruct (insert_entry _ c) as [[[]|e] c0] eqn:E; [|discriminate].
  apply insert_entry_Ok in E. destruct E as [Hw Hlast].
  destruct (getitem (snd it) "type") as [ty|e] eqn:Ety; [|discriminate].
  unfold is_billing. rewrite (getitem_Ok _ _ _ Ety).
  destruct (cell_is ty "billing-type").
  - destruct (App.create_billing_entry case_id (last_rowid c0) (snd it) c0)
      as [[[]|e] c2] eqn:Eb; [|discriminate].
    intros H. inversion H; subst. split; [reflexivity|]. split; [eauto|].
    apply create_billing_entry_Ok in Eb. destruct Eb as [b [Hw' Hb]].
    do 2 eexists. split; [apply (wrote_trans _ _ _ _ [] [] [b] Hw Hw')|].
    split; [reflexivity|]. cbn [map app]. now rewrite Hb, Hlast.
  - intros H. inversion H; subst. split; [reflexivity|]. split; [eauto|].
    do 2 eexists. split; [exact Hw|]. split; reflexivity.
Qed.

(** The loop of [insert_data_to_db] writes one entry per row, with
    consecutive keys, and after each billing row one billing entry
    linked to the key of that row. *)
Lemma insert_rows_Ok (case_id : Z) (cols : list string) (rows : list (Z * Row)) :
  forall n c m c1,
    foldM (App.insert_row case_id cols) n rows c = (Ok m, c1) ->
    m = n + Z.of_nat (List.length rows)
    /\ (forall it, In it rows -> exists ty, getitem (snd it) "type" = Ok ty)
    /\ exists es bs,
         wrote c c1 es bs
         /\ map entry_id es = ids_from (next_rowid (entry_ids c)) (List.length rows)
         /\ map link bs
            = links (next_rowid (entry_ids c)) (map (fun it => is_billing (snd it)) rows).
Proof.
  induction rows as [|it rows IH]; intros n c m c1 H.
  - inversion H; subst. split; [cbn; lia|]. split; [contradiction|].
    exists [], []. split; [apply wrote_refl|]. split; reflexivity.
  - cbn [foldM] in H. unfold bind in H.
    destruct (App.insert_row case_id cols n it c) as [[n'|e] c0] eqn:E; [|discriminate].
    apply insert_row_Ok in E. destruct E as [-> [Hty [e [bs [Hw [He Hbs]]]]]].
    apply IH in H. destruct H as [-> [Htys [es [bs' [Hw' [Hes Hbs']]]]]].
    pose proof (entry_ids_wrote _ _ _ _ Hw) as Hids0. cbn [map] in Hids0.
    rewrite Hids0, He, next_rowid_snoc in Hes, Hbs'.
    split; [cbn [List.length]; lia|]. split.
    { intros it' [<-|Hin]; [exact Hty | now apply Htys]. }
    exists (e :: es), (bs ++ bs'). split; [apply (wrote_trans _ _ _ [e] es bs bs' Hw Hw')|].
    split.
    + cbn [map ids_from List.length]. now rewrite He, Hes.
    + cbn [map links]. rewrite map_app, Hbs, Hbs'. reflexivity.
Qed.

End Loops.

(** ** The mapper keeps the rows and their types *)

Section Mapper.
Context {RT : Runtime}.

Lemma lookup_map_col (cols : list string) (col : string) (f : cell -> cell) (c : string) :
  c <> col ->
  forall vals,
    lookup (series cols (Frame.map_col cols col f vals)) c = lookup (series cols vals) c.
Proof.
  intros Hne. induction cols as [|c0 cs IH]; intros vals; [reflexivity|].
  cbn [Frame.map_col series hd tl lookup].
  destruct (String.eqb_spec c0 c) as [->|Hc].
  - destruct (String.eqb_spec c col) as [->|_]; [contradiction | reflexivity].
  - apply IH.
Qed.

Lemma column_update_column (df : DataFrame) (col : string) (f : cell -> cell) (c : string) :
  c <> col -> Frame.column (Frame.update_column df col f) c = Frame.column df c.
Proof.
  intros Hne. unfold Frame.column, Frame.update_column. cbn [columns data].
  rewrite map_map. apply map_ext. intros vals. unfold get.
  now rewrite lookup_map_col.
Qed.

Lemma lookup_series_snoc (cols : list string) (col : string) (v : cell) (c : string) :
  c <> col ->
  forall vals,
    lookup (series (cols ++ [col]) (map snd (series cols vals) ++ [v])) c
    = lookup (series cols vals) c.
Proof.
  intros Hne. induction cols as [|c0 cs IH]; intros vals.
  - cbn. destruct (String.eqb_spec col c) as [->|_]; [contradiction | reflexivity].
  - cbn [app series map snd hd tl lookup].
    destruct (String.eqb c0 c); [reflexivity | apply IH].
Qed.

Lemma column_assign (df : DataFrame) (col : string) (v : cell) (c : string) :
  c <> col -> Frame.column (Frame.assign df col v) c = Frame.column df c.
Proof.
  intros Hne. unfold Frame.assign. destruct (PyStr.mem col (columns df)).
  - now apply column_update_column.
  - unfold Frame.column. cbn [columns data]. rewrite map_map. apply map_ext.
    intros vals. unfold get. now rewrite lookup_series_snoc.
Qed.

Lemma lookup_series_renamed (new_name : string -> string) (c : string) :
  (forall c', String.eqb (new_name c') c = String.eqb c' c) ->
  forall cols vals,
    lookup (series (map new_name cols) vals) c = lookup (series cols vals) c.
Proof.
  intros Hname. induction cols as [|c0 cs IH]; intros vals; [reflexivity|].
  cbn [map series lookup]. rewrite Hname.
  destruct (String.eqb c0 c); [reflexivity | apply IH].
Qed.

Lemma column_rename_type (df : DataFrame) :
  Frame.column (Frame.rename df App.column_mapping) "type" = Frame.column df "type".
Proof.
  unfold Frame.column, Frame.rename. cbn [columns data]. apply map_ext. intros vals.
  unfold get. rewrite lookup_series_renamed; [reflexivity|].
  intros c'. unfold App.column_mapping. cbn [find fst snd].
  repeat match goal with
         | |- context [String.eqb ?a c'] =>
             destruct (String.eqb_spec a c') as [<-|?]; [reflexivity|]
         end.
  reflexivity.
Qed.

Lemma column_coerce_date_columns (date_columns : list string) (c : string) :
  ~ In c date_columns ->
  forall df, Frame.column (Frame.coerce_date_columns date_columns df) c = Frame.column df c.
Proof.
  unfold Frame.coerce_date_columns.
  induction date_columns as [|col cols IH]; intros Hnot df; [reflexivity|].
  cbn [fold_left]. rewrite IH by (intros H; apply Hnot; now right).
  destruct (PyStr.mem col (columns df)); [|reflexivity].
  destruct (negb _); [|reflexivity].
  apply column_update_column. intros ->. apply Hnot. now left.
Qed.

(** The mapper of [app.py] leaves the [type] of every row as it is. *)
Lemma prepare_type_column (df : DataFrame) (case_id : Z) :
  Frame.column (App.prepare_data_for_db df case_id) "type" = Frame.column df "type".
Proof.
  unfold App.prepare_data_for_db.
  rewrite column_coerce_date_columns, column_rename_type, column_assign;
    [reflexivity | discriminate |].
  unfold App.date_columns. cbn [In].
  intros [H|[H|[H|[]]]]; discriminate H.
Qed.

Lemma column_length (df : DataFrame) (c : string) :
  List.length (Frame.column df c) = List.length (data df).
Proof. unfold Frame.column. apply length_map. Qed.

Lemma prepare_length (df : DataFrame) (case_id : Z) :
  List.length (data (App.prepare_data_for_db df case_id)) = List.length (data df).
Proof.
  rewrite <- (column_length _ "type"), prepare_type_column. apply column_length.
Qed.

Lemma select_length (df : DataFrame) (cols : list string) :
  List.length (data (Frame.select df cols)) = List.length (data df).
Proof. unfold Frame.select. cbn [data]. apply length_map. Qed.

End Mapper.

Lemma map_snd_enumerate_from {A B : Type} (h : A -> B) (xs : list A) :
  forall i, map (fun it => h (snd it)) (enumerate_from i xs) = map h xs.
Proof.
  induction xs as [|x xs IH]; intros i; [reflexivity|].
  cbn [enumerate_from map snd]. now rewrite IH.
Qed.


(** ** C5: every billing row gets one billing entry, linked to its entry *)

Lemma linked_rows (first : Z) (flags : list bool) (es : list Sql.Entry)
    (bs : list Sql.Billing) :
  map Sql.entry_id es = ids_from first (List.length flags) ->
  map link bs = links first flags ->
  forall k b e,
    nth_error flags k = Some b ->
    nth_error es k = Some e ->
    occurrences (Sql.entry_id e) (map link bs) = if b then 1%nat else 0%nat.
Proof.
  intros Hes Hbs k b e Hk He.
  assert (Sql.entry_id e = first + Z.of_nat k) as ->.
  { assert (nth_error (map Sql.entry_id es) k = Some (Sql.entry_id e)) as Hn
      by (rewrite nth_error_map, He; reflexivity).
    rewrite Hes, ids_from_nth in Hn; [now inversion Hn|].
    apply nth_error_Some. congruence. }
  rewrite Hbs. now apply links_occurrences.
Qed.

Lemma filter_map_length {A B : Type} (p : B -> bool) (g : A -> B) (xs : list A) :
  List.length (filter p (map g xs)) = List.length (filter (fun x => p (g x)) xs).
Proof.
  induction xs as [|x xs IH]; [reflexivity|].
  cbn [map filter]. destruct (p (g x)); cbn [List.length]; now rewrite IH.
Qed.

(** Entries with consecutive keys and billing entries with the links of
    the rows make an import. *)
Lemma imported_intro (df : DataFrame) (db db' : Sql.Db) (first : Z)
    (es : list Sql.Entry) (bs : list Sql.Billing) :
  Sql.entries db' = Sql.entries db ++ es ->
  Sql.billing_entries db' = Sql.billing_entries db ++ bs ->
  map Sql.entry_id es = ids_from first (List.length (data df)) ->
  map link bs = links first (map (billing_row df) (data df)) ->
  imported df db db'.
Proof.
  intros He Hb Hes Hbs. exists es, bs.
  split; [exact He|]. split; [exact Hb|]. split; [|split].
  - rewrite <- (length_map Sql.entry_id), Hes. apply ids_from_length.
  - rewrite <- (length_map link), Hbs, links_length.
    apply (filter_map_length (fun b => b)).
  - intros k vals e Hk Hek.
    apply (linked_rows first (map (billing_row df) (data df)) es bs) with (k := k).
    + now rewrite length_map.
    + exact Hbs.
    + rewrite nth_error_map, Hk. reflexivity.
    + exact Hek.
Qed.

Section Linkage.
Context {RT : Runtime} {ST : Sql.Store}.
Import Sql.

Lemma to_sql_Ok (df : DataFrame) (c c1 : Conn) (u : unit) :
  to_sql df c = (Ok u, c1) ->
  exists es,
    entries (working c1) = entries (working c) ++ es
    /\ billing_entries (working c1) = billing_entries (working c)
    /\ map entry_id es = ids_from (next_rowid (entry_ids c)) (List.length (data df))
    /\ last_rowid c1
       = match data df with
         | [] => last_rowid c
         | _ :: _ => next_rowid (entry_ids c) + Z.of_nat (List.length (data df)) - 1
         end.
Proof.
  unfold to_sql.
  destruct (foldM _ tt (data df) c) as [[[]|e] c0] eqn:E; [|discriminate].
  apply insert_all_Ok in E. destruct E as [es [[_ [He Hb]] [Hids [_ Hlast]]]].
  rewrite app_nil_r in Hb.
  intros H. exists es.
  destruct to_sql_commits; inversion H; subst; cbn; auto.
Qed.

Lemma filtered_df_length (df : DataFrame) (case_id : Z) :
  List.length (data (filtered_df df case_id)) = List.length (data df).
Proof.
  unfold filtered_df. rewrite select_length. exact (prepare_length df case_id).
Qed.


Lemma app_flags (df : DataFrame) (case_id : Z) (cols : list string) :
  (forall it,
     In it (iterrows (Frame.select (App.prepare_data_for_db df case_id) cols)) ->
     exists ty, getitem (snd it) "type" = Ok ty) ->
  map (fun it => is_billing (snd it))
    (iterrows (Frame.select (App.prepare_data_for_db df case_id) cols))
  = map (billing_row df) (data df).
Proof.
  intros Htys. rewrite iterrows_select in *. unfold enumerate in *.
  rewrite (map_snd_enumerate_from is_billing), map_map.
  destruct (PyStr.mem "type" cols) eqn:E.
  - transitivity (map (fun v => cell_is v "billing-type")
                    (Frame.column (App.prepare_data_for_db df case_id) "type")).
    + unfold Frame.column. rewrite map_map. apply map_ext. intros vals.
      unfold is_billing. now rewrite get_select.
    + rewrite prepare_type_column. unfold Frame.column. now rewrite map_map.
  - pose proof (prepare_length df case_id) as Hlen.
    destruct (data (App.prepare_data_for_db df case_id)) as [|v vs].
    + destruct (data df); [reflexivity | discriminate].
    + exfalso. destruct (Htys (0, series cols
                                   (map (get (series
                                      (columns (App.prepare_data_for_db df case_id)) v)) cols)))
        as [ty Hty]; [now left|].
      cbn [snd] in Hty. rewrite getitem_select, E in Hty. discriminate.
Qed.

(** A successful import of [app.py]. *)
Lemma app_import_linked (df : DataFrame) (case_id : Z) (db : Db) (n : Z) (c' : Conn) :
  App.insert_data_to_db (App.prepare_data_for_db df case_id) case_id (connect db)
  = (Ok n, c') ->
  n = len df /\ imported df db (committed c').
Proof.
  unfold App.insert_data_to_db, try_except, bind.
  destruct (foldM _ 0 _ (connect db)) as [[m|e] c1] eqn:E; [|discriminate].
  intros H. inversion H; subst n c'. clear H. cbn [committed].
  apply insert_rows_Ok in E. destruct E as [-> [Htys [es [bs [[_ [He Hb]] [Hes Hbs]]]]]].
  rewrite (app_flags df case_id _ Htys) in Hbs.
  assert (List.length (iterrows (Frame.select (App.prepare_data_for_db df case_id)
            (filter (fun col => PyStr.mem col table_columns)
               (columns (App.prepare_data_for_db df case_id)))))
          = List.length (data df)) as Hlen.
  { unfold iterrows, enumerate.
    rewrite enumerate_from_length, length_map, select_length. apply prepare_length. }
  rewrite Hlen in *. split; [unfold len; lia|].
  apply (imported_intro df db _ (next_rowid (entry_ids (connect db))) es bs); assumption.
Qed.

End Linkage.



(** ** The time checks on a billing row that has a date *)

Lemma mapR_concat_In {A B : Type} (f : A -> result (list B)) (xs : list A) :
  forall ys e,
    mapR f xs = Ok ys ->
    (In e (List.concat ys) <-> exists x y, In x xs /\ f x = Ok y /\ In e y).
Proof.
  induction xs as [|x xs IH]; intros ys e H; cbn [mapR] in H.
  - inversion H; subst. cbn. split; [contradiction | intros [x [y [[] _]]]].
  - destruct (f x) as [y|] eqn:Ex; [|discriminate].
    destruct (mapR f xs) as [ys'|] eqn:Exs; [|discriminate].
    inversion H; subst ys. cbn [List.concat]. rewrite in_app_iff, (IH ys' e eq_refl).
    split.
    + intros [Hin | [x' [y' [Hx' [Hf Hin]]]]].
      * exists x, y. auto with datatypes.
      * exists x', y'. auto with datatypes.
    + intros [x' [y' [[<-|Hx'] [Hf Hin]]]].
      * left. congruence.
      * right. eauto.
Qed.

Section TimeChecks.
Context {RT : Runtime}.

Lemma rows_are_aret {A : Type} (j : Z) (a : A) : rows_are j (Validation.aret a).
Proof. intros e []. Qed.

Lemma rows_are_lift {A : Type} (j : Z) (r : result A) : rows_are j (Validation.lift r).
Proof. intros e []. Qed.

Lemma rows_are_append (j : Z) (e : Validation.DateError) :
  error_row e = j + 2 -> rows_are j (Validation.append e).
Proof. intros H e' [<-|[]]. exact H. Qed.

Lemma rows_are_abind {A B : Type} (j : Z) (m : Validation.Acc A)
    (k : A -> Validation.Acc B) :
  rows_are j m -> (forall a, rows_are j (k a)) -> rows_are j (Validation.abind m k).
Proof.
  intros Hm Hk e. unfold Validation.abind. destruct m as [errs [a|ex]]; cbn.
  - specialize (Hk a). destruct (k a) as [errs' r]. cbn in *.
    rewrite in_app_iff. intros [H|H]; [apply Hm | apply Hk]; exact H.
  - apply Hm.
Qed.

Lemma date_checks_rows (j : Z) (row : Row) : rows_are j (Validation.date_checks j row).
Proof.
  unfold Validation.date_checks.
  repeat first
    [ apply rows_are_aret | apply rows_are_lift
    | apply rows_are_append; reflexivity
    | apply rows_are_abind
    | match goal with
      | |- forall _, _ => intro
      | |- rows_are _ (if ?b then _ else _) => destruct b
      | |- rows_are _ (match ?x with _ => _ end) => destruct x
      end
    | progress cbv zeta ].
Qed.

Lemma check_row_dates_rows (j : Z) (row : Row) (errs : list Validation.DateError) :
  Validation.check_row_dates (j, row) = Ok errs ->
  forall e, In e errs -> error_row e = j + 2.
Proof.
  unfold Validation.check_row_dates. pose proof (date_checks_rows j row) as Hrows.
  destruct (Validation.date_checks j row) as [es [[]|ex]]; cbn in Hrows.
  - intros H. inversion H; subst. exact Hrows.
  - destruct (Validation.caught ex); [|discriminate].
    intros H. inversion H; subst. intros e Hin. apply in_app_iff in Hin.
    destruct Hin as [Hin|[<-|[]]]; [now apply Hrows | reflexivity].
Qed.

(** The date errors a report holds under the row number [k + 2] are the
    ones the loop body recorded for the row at position [k]. *)
Lemma date_errors_of_row (df : DataFrame) (r : Validation.Report) (k : nat)
    (vals : list cell) :
  Validation.validate_case_file_data df = Ok r ->
  Validation.missing_columns r = [] ->
  nth_error (data df) k = Some vals ->
  exists errs,
    Validation.check_row_dates (Z.of_nat k, series (columns df) vals) = Ok errs
    /\ (forall e, In e errs -> In e (Validation.date_format_errors r))
    /\ (forall e, In e (Validation.date_format_errors r) ->
                  error_row e = Z.of_nat k + 2 -> In e errs)
    /\ (errs <> [] -> Validation.valid r = false).
Proof.
  intros H Hm Hk.
  apply validate_inv in H. destruct H as [[Hne ->] | [_ [cats [dates [_ [Hdates ->]]]]]].
  { cbn in Hm. contradiction. }
  cbn [Validation.date_format_errors Validation.valid].
  assert (In (Z.of_nat k, series (columns df) vals) (iterrows df)) as Hin
    by (apply iterrows_In; eauto).
  destruct (In_nth_error _ _ Hin) as [i Hi].
  destruct (mapR_Ok_nth _ _ _ _ _ Hdates Hi) as [errs [Hf Herrs]].
  exists errs. split; [exact Hf|]. split; [|split].
  - intros e He. apply (mapR_concat_In _ _ _ e Hdates). eauto.
  - intros e He Hrow. apply (mapR_concat_In _ _ _ e Hdates) in He.
    destruct He as [[j row'] [y [Hx [Hy Hey]]]].
    pose proof (check_row_dates_rows j row' y Hy e Hey) as Hj.
    apply iterrows_In in Hx. destruct Hx as [k' [vals' [-> [Hk' ->]]]].
    assert (k' = k) as -> by lia.
    rewrite Hk in Hk'. inversion Hk'; subst vals'.
    rewrite Hf in Hy. inversion Hy; subst. exact Hey.
  - intros Hne.
    assert (Validation.nonempty (List.concat dates) = true) as ->.
    { destruct errs as [|e errs]; [contradiction|].
      assert (In e (List.concat dates)) as He
        by (apply (mapR_concat_In _ _ _ e Hdates); eauto with datatypes).
      destruct (List.concat dates); [contradiction | reflexivity]. }
    cbn. now rewrite andb_false_r.
Qed.

End TimeChecks.

Section DatedBillingRows.
Context {RT : Runtime}.

(** What the loop body records for a billing row that has an accepted
    date and two billing times that coerce to timestamps. *)
Lemma date_checks_dated (idx : Z) (row : Row) (start_dt stop_dt : Z) :
  (exists date, getitem row "date" = Ok date /\ date_accepted date = true) ->
  (exists ty, getitem row "type" = Ok ty /\ cell_is ty "billing-type" = true) ->
  isna (get row "billing-start") = false ->
  isna (get row "billing-stop") = false ->
  Validation.as_datetime (get row "billing-start") = Ok (Some start_dt) ->
  Validation.as_datetime (get row "billing-stop") = Ok (Some stop_dt) ->
  Validation.date_checks idx row
  = let sequence :=
      if stop_dt <=? start_dt
      then [ Validation.BillingSequence (idx + 2) (get row "billing-start")
               (get row "billing-stop") ]
      else [] in
    let duration := (Validation.total_seconds (stop_dt - start_dt) / (3600 # 1))%Q in
    if isna (get row "billing-hrs") then (sequence, Ok tt)
    else
      match Validation.float_of (get row "billing-hrs") with
      | Raise e => (sequence, Raise e)
      | Ok hrs =>
          (sequence
           ++ (if Validation.off_tolerance duration hrs
               then [ Validation.BillingDuration (idx + 2) duration (get row "billing-hrs") ]
               else []),
           Ok tt)
      end.
Proof.
  intros [date [Hdate Hacc]] [ty [Hty Hbilling]] Hstart Hstop Hs Ht.
  unfold Validation.date_checks, Validation.abind, Validation.lift,
    Validation.aret, Validation.append, Validation.strptime.
  rewrite Hdate. unfold date_accepted in Hacc.
  apply andb_true_iff in Hacc. destruct Hacc as [Hna Hfmt].
  apply negb_true_iff in Hna. rewrite Hna.
  destruct (is_timestamp date); cbn [negb orb] in *; [|rewrite Hfmt];
    rewrite Hty, Hbilling, Hstart, Hstop, Hs, Ht;
    cbn [negb andb app Validation.ts_ge Validation.duration_hours];
    destruct (stop_dt <=? start_dt); destruct (isna (get row "billing-hrs"));
    cbn [negb app]; try reflexivity;
    destruct (Validation.float_of (get row "billing-hrs")) as [hrs|e];
    try reflexivity;
    destruct (Validation.off_tolerance _ hrs); reflexivity.
Qed.

Lemma float_of_caught (c : cell) (e : exn) :
  Validation.float_of c = Raise e -> Validation.caught e = true.
Proof.
  destruct c as [|s|q|t]; cbn; try (intros H; inversion H; reflexivity).
  destruct (float_of_string s); intros H; inversion H; reflexivity.
Qed.

Lemma required_present (df : DataFrame) (r : Validation.Report) (col : string) :
  Validation.validate_case_file_data df = Ok r ->
  Validation.missing_columns r = [] ->
  In col Validation.required_columns ->
  In col (columns df).
Proof.
  intros H Hm Hcol. apply validate_inv in H.
  destruct H as [[Hne ->] | [Hnil _]]; [cbn in Hm; contradiction|].
  now apply (missing_of_nil Validation.required_columns).
Qed.


End DatedBillingRows.

(** X2. For a billing row that has an accepted date and whose two billing
    times are present and coerce to timestamps, the validator records a
    [billing_sequence] error under the row number of the row (position
    + 2) exactly when the start is not before the stop, and then the
    report is invalid. *)
Theorem dated_billing_sequence_checked {RT : Runtime} (df : DataFrame)
    (r : Validation.Report) (k : nat) (vals : list cell) (start_dt stop_dt : Z) :
  Validation.validate_case_file_data df = Ok r ->
  Validation.missing_columns r = [] ->
  nth_error (data df) k = Some vals ->
  cell_is (get (series (columns df) vals) "type") "billing-type" = true ->
  date_accepted (get (series (columns df) vals) "date") = true ->
  isna (get (series (columns df) vals) "billing-start") = false ->
  isna (get (series (columns df) vals) "billing-stop") = false ->
  Validation.as_datetime (get (series (columns df) vals) "billing-start")
  = Ok (Some start_dt) ->
  Validation.as_datetime (get (series (columns df) vals) "billing-stop")
  = Ok (Some stop_dt) ->
  (In (Validation.BillingSequence (Z.of_nat k + 2)
         (get (series (columns df) vals) "billing-start")
         (get (series (columns df) vals) "billing-stop"))
      (Validation.date_format_errors r)
   <-> stop_dt <= start_dt)
  /\ (stop_dt <= start_dt -> Validation.valid r = false).
Proof.
  intros H Hm Hk Hty Hdate Hstart Hstop Hs Ht.
  set (row := series (columns df) vals) in *.
  destruct (date_errors_of_row df r k vals H Hm Hk) as [errs [Hf [Hin [Hof Hinvalid]]]].
  fold row in Hf.
  assert (In "date" (columns df)) as Hcd
    by (apply (required_present df r); auto; cbn; auto).
  assert (In "type" (columns df)) as Hct
    by (apply (required_present df r); auto; cbn; auto).
  unfold Validation.check_row_dates in Hf.
  rewrite (date_checks_dated (Z.of_nat k) row start_dt stop_dt) in Hf; auto;
    [ | exists (get row "date"); split; [apply getitem_series; exact Hcd | exact Hdate]
      | exists (get row "type"); split; [apply getitem_series; exact Hct | exact Hty] ].
  cbv zeta in Hf.
  set (seq_error := Validation.BillingSequence (Z.of_nat k + 2) (get row "billing-start")
                      (get row "billing-stop")) in *.
  assert (In seq_error errs <-> stop_dt <= start_dt) as Hiff.
  { rewrite <- Z.leb_le.
    destruct (stop_dt <=? start_dt); destruct (isna (get row "billing-hrs"));
      try (inversion Hf; subst errs; cbn; split; [reflexivity | auto]; fail);
      try (inversion Hf; subst errs; cbn; split; [tauto | discriminate]; fail);
      destruct (Validation.float_of (get row "billing-hrs")) as [hrs|e] eqn:Ef;
      try (rewrite (float_of_caught _ _ Ef) in Hf);
      try destruct (Validation.off_tolerance _ hrs);
      inversion Hf; subst errs; cbn; unfold seq_error;
      split; auto; intros Hx; try discriminate;
      repeat (destruct Hx as [Hx|Hx]; [discriminate Hx|]); contradiction. }
  split.
  - rewrite <- Hiff. split; [|apply Hin].
    intros He. apply Hof; [exact He | reflexivity].
  - intros Hle. apply Hinvalid. apply Hiff in Hle. intros ->. contradiction.
Qed.

Lemma dated_billing_sequence_checked_witness :
  exists r,
    Validation.validate_case_file_data (RT := World.runtime)
      World.dated_reversed_times_table = Ok r
    /\ In (Validation.BillingSequence 2 (CTime (World.at_time 10 0))
             (CTime (World.at_time 9 0)))
         (Validation.date_format_errors r)
    /\ Validation.valid r = false.
Proof.
  eexists. split; [vm_compute; reflexivity|].
  match goal with
  | |- _ /\ Validation.valid ?r = false =>
      destruct (dated_billing_sequence_checked (RT := World.runtime)
                  World.dated_reversed_times_table r 0
                  (World.billing_row (CTime (World.at_time 8 0))
                     (CText "Call: Phone Call")
                     (CTime (World.at_time 10 0)) (CTime (World.at_time 9 0)) CEmpty)
                  (World.at_time 10 0) (World.at_time 9 0))
        as [Hiff Hinvalid]; try reflexivity
  end.
  split; [apply Hiff | apply Hinvalid]; vm_compute; discriminate.
Defined.



(** ** When the validators return a report *)

Section Returns.
Context {RT : Runtime}.

Lemma raises_caught_aret {A : Type} (a : A) : raises_caught (Validation.aret a).
Proof. intros e H. discriminate H. Qed.

Lemma raises_caught_append (e : Validation.DateError) :
  raises_caught (Validation.append e).
Proof. intros e' H. discriminate H. Qed.

Lemma raises_caught_lift {A : Type} (r : result A) :
  (forall e, r = Raise e -> Validation.caught e = true) ->
  raises_caught (Validation.lift r).
Proof. intros H e He. apply H. exact He. Qed.

Lemma raises_caught_abind {A B : Type} (m : Validation.Acc A)
    (k : A -> Validation.Acc B) :
  raises_caught m -> (forall a, raises_caught (k a)) ->
  raises_caught (Validation.abind m k).
Proof.
  intros Hm Hk e. unfold Validation.abind. destruct m as [errs [a|ex]]; cbn.
  - specialize (Hk a). destruct (k a) as [errs' r]. exact (Hk e).
  - intros H. inversion H; subst. apply Hm. reflexivity.
Qed.

Lemma as_datetime_caught (c : cell) :
  (forall x e, to_datetime x = Raise e -> Validation.caught e = true) ->
  forall e, Validation.as_datetime c = Raise e -> Validation.caught e = true.
Proof.
  intros Hrt e. destruct c; cbn; try apply Hrt. discriminate.
Qed.

Lemma strptime_caught (c : cell) :
  forall e, Validation.strptime c = Raise e -> Validation.caught e = true.
Proof.
  intros e. unfold Validation.strptime.
  destruct (strptime_ok _); intros H; inversion H; reflexivity.
Qed.

(** In the date loop, on a table that has the required columns and with
    a [pd.to_datetime] that raises nothing but ValueError and TypeError,
    every exception of the loop body is one the handler catches. *)
Lemma date_checks_caught (idx : Z) (cols : list string) (vals : list cell) :
  (forall x e, to_datetime x = Raise e -> Validation.caught e = true) ->
  In "date" cols -> In "type" cols ->
  raises_caught (Validation.date_checks idx (series cols vals)).
Proof.
  intros Hrt Hd Ht. unfold Validation.date_checks.
  rewrite !getitem_series by assumption.
  repeat first
    [ apply raises_caught_aret | apply raises_caught_append
    | apply raises_caught_lift;
        first [ discriminate | apply strptime_caught | apply float_of_caught
              | apply as_datetime_caught; exact Hrt ]
    | apply raises_caught_abind
    | match goal with
      | |- forall _, _ => intro
      | |- raises_caught (if ?b then _ else _) => destruct b
      | |- raises_caught (match ?x with _ => _ end) => destruct x
      end
    | progress cbv zeta ].
Qed.

Lemma title_category_text (title : string) :
  exists c, Validation.title_category (CText title) = Ok c.
Proof.
  unfold Validation.title_category, colon_in, split_colon, PyStr.index, rbind.
  cbn [isna]. rewrite split1_second. destruct (PyStr.contains ":" title); eauto.
Qed.

(** X5. The validator returns a report (it does not raise) on every
    table in which the title of each billing row is a string or empty,
    as long as [pd.to_datetime] raises nothing but ValueError and
    TypeError. *)
Theorem validate_returns (df : DataFrame) :
  (forall x e, to_datetime x = Raise e -> Validation.caught e = true) ->
  (forall vals,
     In vals (data df) ->
     cell_is (get (series (columns df) vals) "type") "billing-type" = true ->
     (exists s, get (series (columns df) vals) "title" = CText s)
     \/ get (series (columns df) vals) "title" = CEmpty) ->
  exists r, Validation.validate_case_file_data df = Ok r.
Proof.
  intros Hrt Htitles. unfold Validation.validate_case_file_data.
  rewrite check_columns_initial. cbn [Validation.valid]. rewrite negb_involutive.
  destruct (Validation.nonempty (missing_of Validation.required_columns df)) eqn:E;
    [eauto|].
  apply nonempty_false in E.
  pose proof (missing_of_nil _ _ E) as Hcols.
  assert (In "type" (columns df)) as Hct by (apply Hcols; cbn; auto).
  assert (In "date" (columns df)) as Hcd by (apply Hcols; cbn; auto).
  assert (In "title" (columns df)) as Hctitle by (apply Hcols; cbn; auto).
  destruct (mapR_total Validation.check_billing_category (iterrows df)) as [cats Hcats].
  { intros [idx row] Hin. apply iterrows_In in Hin.
    destruct Hin as [k [vals [-> [Hk ->]]]].
    unfold Validation.check_billing_category, rbind.
    rewrite !getitem_series by assumption.
    destruct (cell_is _ "billing-type") eqn:Ety; [|eauto].
    destruct (Htitles vals (nth_error_In _ _ Hk) Ety) as [[s ->] | ->].
    - destruct (title_category_text s) as [[c|] ->]; eauto.
    - cbn. eauto. }
  destruct (mapR_total Validation.check_row_dates (iterrows df)) as [dates Hdates].
  { intros [idx row] Hin. apply iterrows_In in Hin.
    destruct Hin as [k [vals [-> [Hk ->]]]].
    unfold Validation.check_row_dates.
    pose proof (date_checks_caught (Z.of_nat k) (columns df) vals Hrt Hcd Hct) as Hc.
    destruct (Validation.date_checks (Z.of_nat k) (series (columns df) vals))
      as [errs [[]|e]]; [eauto|].
    rewrite (Hc e eq_refl). eauto. }
  unfold rbind. rewrite Hcats, Hdates. eauto.
Qed.

(** The validator of [app.py] returns a report on every table. *)
Lemma app_validate_returns (df : DataFrame) :
  exists r, App.validate_case_file_data df = Ok r.
Proof. rewrite app_validate_spec. eauto. Qed.

End Returns.

Lemma validate_returns_witness :
  exists r,
    Validation.validate_case_file_data (RT := World.runtime) World.good_table = Ok r.
Proof.
  apply (validate_returns (RT := World.runtime) World.good_table).
  - intros x e H. cbn in H. inversion H. reflexivity.
  - intros vals Hin Hty. cbn in Hin.
    destruct Hin as [<-|[<-|[<-|[]]]];
      first [ discriminate Hty | left; eexists; reflexivity ].
Defined.

(** ** The stand-alone time checks *)

Section StandAloneChecks.
Context {RT : Runtime}.


(** The validator reads a text or timestamp cell as the stand-alone
    checks read their argument. *)
Lemma as_datetime_time_of_cell (c : cell) (x : TimeChecks.time_arg) :
  time_of_cell c = Some x ->
  Validation.as_datetime c = TimeChecks.to_dt x /\ isna c = false.
Proof.
  destruct c; cbn; intros H; inversion H; subst; split; reflexivity.
Qed.

(** What the loop body records for a billing row that has an accepted
    date and two billing times. *)
Lemma date_checks_billing (idx : Z) (row : Row) :
  (exists date, getitem row "date" = Ok date /\ date_accepted date = true) ->
  (exists ty, getitem row "type" = Ok ty /\ cell_is ty "billing-type" = true) ->
  isna (get row "billing-start") = false ->
  isna (get row "billing-stop") = false ->
  Validation.date_checks idx row
  = match Validation.as_datetime (get row "billing-start") with
    | Raise e => ([], Raise e)
    | Ok start_dt =>
        match Validation.as_datetime (get row "billing-stop") with
        | Raise e => ([], Raise e)
        | Ok stop_dt =>
            let sequence :=
              if Validation.ts_ge start_dt stop_dt
              then [ Validation.BillingSequence (idx + 2) (get row "billing-start")
                       (get row "billing-stop") ]
              else [] in
            if isna (get row "billing-hrs") then (sequence, Ok tt)
            else
              match Validation.float_of (get row "billing-hrs") with
              | Raise e => (sequence, Raise e)
              | Ok hrs =>
                  (sequence
                   ++ match Validation.duration_hours start_dt stop_dt with
                      | Some d =>
                          if Validation.off_tolerance d hrs
                          then [ Validation.BillingDuration (idx + 2) d
                                   (get row "billing-hrs") ]
                          else []
                      | None => []
                      end,
                   Ok tt)
              end
        end
    end.
Proof.
  intros [date [Hdate Hacc]] [ty [Hty Hbilling]] Hstart Hstop.
  unfold Validation.date_checks, Validation.abind, Validation.lift,
    Validation.aret, Validation.append, Validation.strptime.
  rewrite Hdate. unfold date_accepted in Hacc.
  apply andb_true_iff in Hacc. destruct Hacc as [Hna Hfmt].
  apply negb_true_iff in Hna. rewrite Hna.
  destruct (is_timestamp date); cbn [negb orb] in *; [|rewrite Hfmt];
    rewrite Hty, Hbilling, Hstart, Hstop; cbn [negb andb app];
    destruct (Validation.as_datetime (get row "billing-start")) as [start_dt|e];
    try reflexivity;
    destruct (Validation.as_datetime (get row "billing-stop")) as [stop_dt|e];
    try reflexivity;
    cbv zeta;
    destruct (Validation.ts_ge start_dt stop_dt);
    destruct (isna (get row "billing-hrs")); cbn [negb app]; try reflexivity;
    destruct (Validation.float_of (get row "billing-hrs")) as [hrs|e];
    try reflexivity;
    destruct (Validation.duration_hours start_dt stop_dt) as [d|]; try reflexivity;
    destruct (Validation.off_tolerance d hrs); reflexivity.
Qed.

End StandAloneChecks.



(** X7. The two stand-alone checks of validation.py accept a missing
    time: when both times are read without an exception and one of them
    reads as NaT, [validate_time_sequence] reports no error and
    [check_billing_duration] reports none either, whatever the billed
    hours, with a calculated duration and a difference that are NaN. *)
Theorem time_checks_accept_missing_time {RT : Runtime}
    (start_time stop_time : TimeChecks.time_arg) (start_dt stop_dt : option Z) :
  TimeChecks.to_dt start_time = Ok start_dt ->
  TimeChecks.to_dt stop_time = Ok stop_dt ->
  start_dt = None \/ stop_dt = None ->
  TimeChecks.validate_time_sequence start_time stop_time
  = TimeChecks.mkSequenceResult true None
  /\ forall billing_hours,
       TimeChecks.check_billing_duration start_time stop_time billing_hours
       = TimeChecks.mkDurationResult true TimeChecks.NaNHours TimeChecks.NaNHours None.
Proof.
  intros Hs Ht Hnat.
  unfold TimeChecks.check_billing_duration, TimeChecks.validate_time_sequence, rbind.
  rewrite Hs, Ht.
  destruct Hnat as [-> | ->]; [|destruct start_dt]; split; reflexivity.
Qed.

Lemma time_checks_accept_missing_time_witness :
  TimeChecks.validate_time_sequence (RT := Desk.runtime)
    (TimeChecks.TimeText "NaT") (TimeChecks.TimeStamp (World.at_time 10 0))
  = TimeChecks.mkSequenceResult true None
  /\ forall billing_hours,
       TimeChecks.check_billing_duration (RT := Desk.runtime)
         (TimeChecks.TimeText "NaT") (TimeChecks.TimeStamp (World.at_time 10 0))
         billing_hours
       = TimeChecks.mkDurationResult true TimeChecks.NaNHours TimeChecks.NaNHours None.
Proof.
  apply (time_checks_accept_missing_time (RT := Desk.runtime)
           (TimeChecks.TimeText "NaT") (TimeChecks.TimeStamp (World.at_time 10 0))
           None (Some (World.at_time 10 0)));
    [reflexivity | reflexivity | left; reflexivity].
Defined.

(** X8. The validator of validation.py and the two stand-alone checks
    agree: for a billing row that has an accepted date, billing times
    that are texts or timestamps and billed hours that are a number, the
    report holds no date error under the row's number (position + 2)
    exactly when [validate_time_sequence] and [check_billing_duration]
    both accept the row's times and hours. *)
Theorem validator_agrees_with_time_checks {RT : Runtime} (df : DataFrame)
    (r : Validation.Report) (k : nat) (vals : list cell)
    (start_time stop_time : TimeChecks.time_arg) (billing_hours : Q) :
  Validation.validate_case_file_data df = Ok r ->
  Validation.missing_columns r = [] ->
  nth_error (data df) k = Some vals ->
  cell_is (get (series (columns df) vals) "type") "billing-type" = true ->
  date_accepted (get (series (columns df) vals) "date") = true ->
  time_of_cell (get (series (columns df) vals) "billing-start") = Some start_time ->
  time_of_cell (get (series (columns df) vals) "billing-stop") = Some stop_time ->
  get (series (columns df) vals) "billing-hrs" = CNum billing_hours ->
  ((forall e, In e (Validation.date_format_errors r) -> error_row e <> Z.of_nat k + 2)
   <-> TimeChecks.seq_valid (TimeChecks.validate_time_sequence start_time stop_time)
       = true
       /\ TimeChecks.dur_valid
            (TimeChecks.check_billing_duration start_time stop_time billing_hours)
          = true).
Proof.
  intros H Hm Hk Hty Hdate Hstart Hstop Hhrs.
  set (row := series (columns df) vals) in *.
  destruct (date_errors_of_row df r k vals H Hm Hk) as [errs [Hf [Hin [Hof _]]]].
  fold row in Hf.
  assert (In "date" (columns df)) as Hcd
    by (apply (required_present df r); auto; cbn; auto).
  assert (In "type" (columns df)) as Hct
    by (apply (required_present df r); auto; cbn; auto).
  destruct (as_datetime_time_of_cell _ _ Hstart) as [Has Hns].
  destruct (as_datetime_time_of_cell _ _ Hstop) as [Hat Hnt].
  assert ((forall e, In e (Validation.date_format_errors r) ->
                     error_row e <> Z.of_nat k + 2) <-> errs = []) as ->.
  { split.
    - intros Hnone. destruct errs as [|e errs]; [reflexivity|exfalso].
      apply (Hnone e); [apply Hin; now left|].
      apply (check_row_dates_rows _ _ _ Hf). now left.
    - intros -> e He Hrow. exact (Hof e He Hrow). }
  unfold Validation.check_row_dates in Hf.
  rewrite (date_checks_billing (Z.of_nat k) row) in Hf; auto;
    [ | exists (get row "date"); split; [apply getitem_series; exact Hcd | exact Hdate]
      | exists (get row "type"); split; [apply getitem_series; exact Hct | exact Hty] ].
  rewrite Has, Hat, Hhrs in Hf. cbn [isna Validation.float_of] in Hf. cbv zeta in Hf.
  unfold TimeChecks.validate_time_sequence, TimeChecks.check_billing_duration, rbind.
  unfold Validation.off_tolerance in Hf.
  destruct (TimeChecks.to_dt start_time) as [a|e].
  2:{ destruct (Validation.caught e); [|discriminate].
      inversion Hf; subst errs. cbn. split; [discriminate | intros [Hx _]; discriminate]. }
  destruct (TimeChecks.to_dt stop_time) as [b|e].
  2:{ destruct (Validation.caught e); [|discriminate].
      inversion Hf; subst errs. cbn. split; [discriminate | intros [Hx _]; discriminate]. }
  destruct a as [a|]; destruct b as [b|];
    cbn [Validation.ts_ge Validation.duration_hours] in *;
    try (inversion Hf; subst errs; cbn; tauto).
  destruct (b <=? a);
    destruct (negb (Qle_bool _ (1 # 100)));
    inversion Hf; subst errs; cbn; split; try discriminate; try tauto;
    intros [Hx Hy]; discriminate.
Qed.

Lemma validator_agrees_with_time_checks_witness :
  exists r,
    Validation.validate_case_file_data (RT := Desk.runtime) Desk.text_times_table = Ok r
    /\ forall e, In e (Validation.date_format_errors r) -> error_row e <> 2.
Proof.
  eexists. split; [vm_compute; reflexivity|].
  match goal with
  | |- forall e, In e (Validation.date_format_errors ?r) -> _ =>
      apply (validator_agrees_with_time_checks (RT := Desk.runtime)
               Desk.text_times_table r 0
               (World.billing_row (CTime (World.at_time 8 0)) (CText "Call: Phone Call")
                  (CText "2024-01-01 09:00") (CText "2024-01-01 10:00") (CNum 1))
               (TimeChecks.TimeText "2024-01-01 09:00")
               (TimeChecks.TimeText "2024-01-01 10:00") 1);
        try reflexivity
  end.
  split; reflexivity.
Defined.

(** ** The health check of app.py *)

Section HealthCheck.

Lemma difference_In (xs ys : list string) (c : string) :
  In c (Health.difference xs ys) <-> In c xs /\ ~ In c ys.
Proof.
  unfold Health.difference.
  rewrite nodup_In, filter_In, negb_true_iff, mem_false_iff. reflexivity.
Qed.

Lemma difference_nil (xs ys : list string) :
  Health.difference xs ys = [] <-> forall c, In c xs -> In c ys.
Proof.
  split.
  - intros H c Hc. destruct (PyStr.mem c ys) eqn:E; [now apply mem_true_iff|].
    assert (In c (Health.difference xs ys)) as Hin
      by (apply difference_In; split; [exact Hc | now apply mem_false_iff]).
    rewrite H in Hin. contradiction.
  - intros H. destruct (Health.difference xs ys) as [|c l] eqn:E; [reflexivity|].
    assert (In c (Health.difference xs ys)) as Hin by (rewrite E; now left).
    apply difference_In in Hin. destruct Hin as [Hx Hy]. elim Hy. now apply H.
Qed.

Lemma table_discrepancies_nil (schema : Health.Schema) (table : string) :
  table_discrepancies schema table = [] <-> table_as_expected schema table.
Proof.
  unfold table_discrepancies, table_as_expected.
  split.
  - intros H. apply app_eq_nil in H. destruct H as [Hm He].
    assert (missing_columns_of schema table = []) as Hm'
      by (destruct (missing_columns_of schema table); [reflexivity | discriminate]).
    assert (extra_columns_of schema table = []) as He'
      by (destruct (extra_columns_of schema table); [reflexivity | discriminate]).
    intros c. split.
    + apply (proj1 (difference_nil _ _) He').
    + apply (proj1 (difference_nil _ _) Hm').
  - intros H.
    assert (missing_columns_of schema table = []) as ->
      by (apply difference_nil; intros c; apply H).
    assert (extra_columns_of schema table = []) as ->
      by (apply difference_nil; intros c; apply H).
    reflexivity.
Qed.

(** One round of the loop: the flag goes down and the findings are
    appended exactly when the table has findings. *)
Lemma check_table_spec (schema : Health.Schema) (v : bool)
    (ds : list Health.Discrepancy) (table : string) :
  Health.check_table schema (v, ds) table
  = (v && negb (Validation.nonempty (table_discrepancies schema table)),
     ds ++ table_discrepancies schema table).
Proof.
  unfold Health.check_table, table_discrepancies.
  fold (missing_columns_of schema table). fold (extra_columns_of schema table).
  destruct (Validation.nonempty (missing_columns_of schema table));
    destruct (Validation.nonempty (extra_columns_of schema table));
    cbn [orb app Validation.nonempty negb];
    rewrite ?andb_false_r, ?andb_true_r, ?app_nil_r, <- ?app_assoc; reflexivity.
Qed.

Lemma check_tables_spec (schema : Health.Schema) (tables : list string) :
  forall v ds,
    fold_left (Health.check_table schema) tables (v, ds)
    = (v && negb (Validation.nonempty (flat_map (table_discrepancies schema) tables)),
       ds ++ flat_map (table_discrepancies schema) tables).
Proof.
  induction tables as [|t ts IH]; intros v ds; cbn [fold_left flat_map].
  - cbn. now rewrite andb_true_r, app_nil_r.
  - rewrite check_table_spec, IH, <- app_assoc. f_equal.
    destruct (table_discrepancies schema t); cbn;
      rewrite ?andb_true_r, ?andb_false_r; reflexivity.
Qed.

(** The report of the health check on a database that can be read. *)
Lemma db_health_check_tables (schema : Health.Schema) :
  Health.db_health_check (Health.Tables schema)
  = let tables :=
      filter (fun name => negb (String.eqb name "sqlite_sequence")) (map fst schema) in
    if forallb (fun table => PyStr.mem table tables) Health.required_tables
    then
      let found := flat_map (table_discrepancies schema) Health.required_tables in
      Health.mkResults true true true (negb (Validation.nonempty found)) found tables None
    else Health.mkResults true true false false [] tables None.
Proof.
  unfold Health.db_health_check. cbv zeta.
  destruct (forallb _ Health.required_tables); [|reflexivity].
  rewrite check_tables_spec. reflexivity.
Qed.

Lemma required_tables_listed (schema : Health.Schema) :
  forallb
    (fun table =>
       PyStr.mem table
         (filter (fun name => negb (String.eqb name "sqlite_sequence")) (map fst schema)))
    Health.required_tables = true
  <-> forall table, In table Health.required_tables -> In table (map fst schema).
Proof.
  rewrite forallb_forall. split; intros H table Hin.
  - specialize (H table Hin). apply mem_true_iff, filter_In in H. tauto.
  - apply mem_true_iff, filter_In. split; [now apply H|].
    cbn in Hin. destruct Hin as [<-|[<-|[<-|[<-|[]]]]]; reflexivity.
Qed.

Lemma flat_map_nil {A B : Type} (f : A -> list B) (xs : list A) :
  flat_map f xs = [] <-> forall x, In x xs -> f x = [].
Proof.
  induction xs as [|x xs IH]; cbn [flat_map].
  - split; [intros _ x [] | reflexivity].
  - split.
    + intros H. apply app_eq_nil in H. destruct H as [Hx Hxs].
      intros y [<-|Hy]; [exact Hx | now apply IH].
    + intros H. rewrite (H x) by now left. cbn. apply IH. intros y Hy. apply H. now right.
Qed.

End HealthCheck.

(** A schema the health check finds valid has the expected columns in
    every required table. *)
Lemma schema_valid_tables (schema : Health.Schema) (table : string) :
  Health.schema_valid (Health.db_health_check (Health.Tables schema)) = true ->
  In table Health.required_tables ->
  table_as_expected schema table.
Proof.
  rewrite db_health_check_tables. cbv zeta.
  destruct (forallb _ Health.required_tables); cbn [Health.schema_valid];
    [|discriminate].
  rewrite negb_true_iff, nonempty_false, flat_map_nil.
  intros H Hin. now apply table_discrepancies_nil, H.
Qed.

(** X9. [db_health_check] of app.py reports [schema_valid] exactly when
    the file is a database that can be read, each of the four required
    tables is among its tables, and each of them has exactly the
    expected columns, in any order; further tables are of no account. *)
Theorem schema_valid_iff (file : Health.DbFile) :
  Health.schema_valid (Health.db_health_check file) = true
  <-> exists schema,
        file = Health.Tables schema
        /\ forall table, In table Health.required_tables ->
             In table (map fst schema) /\ table_as_expected schema table.
Proof.
  destruct file as [|e|e|schema];
    try (cbn; split; [discriminate | intros [s [Hs _]]; discriminate]).
  rewrite db_health_check_tables. cbv zeta.
  destruct (forallb _ Health.required_tables) eqn:E; cbn [Health.schema_valid].
  - rewrite negb_true_iff, nonempty_false, flat_map_nil.
    pose proof (proj1 (required_tables_listed schema) E) as Hlisted.
    split.
    + intros H. exists schema. split; [reflexivity|]. intros table Hin.
      split; [now apply Hlisted | now apply table_discrepancies_nil, H].
    + intros [s [Hs H]]. inversion Hs; subst s. intros table Hin.
      now apply table_discrepancies_nil, H.
  - split; [discriminate|]. intros [s [Hs H]]. inversion Hs; subst s.
    rewrite (proj2 (required_tables_listed schema)) in E; [discriminate|].
    intros table Hin. now apply H.
Qed.

(** X10. The flags of the report of [db_health_check] hang together:
    [schema_valid] holds exactly when [schema_exists] holds and no
    discrepancy is listed; [schema_exists] holds exactly when every
    required table is among the listed tables, and then the database
    could be opened; a database that could be opened exists;
    discrepancies are listed only when the required tables exist; and
    [sqlite_sequence] is never listed as a table. *)
Theorem health_report_consistent (file : Health.DbFile) :
  let r := Health.db_health_check file in
  (Health.schema_valid r = true
   <-> Health.schema_exists r = true /\ Health.discrepancies r = [])
  /\ (Health.schema_exists r = true
      <-> forall table, In table Health.required_tables -> In table (Health.tables r))
  /\ (Health.schema_exists r = true -> Health.can_connect r = true)
  /\ (Health.can_connect r = true -> Health.database_exists r = true)
  /\ (Health.discrepancies r <> [] -> Health.schema_exists r = true)
  /\ ~ In "sqlite_sequence" (Health.tables r).
Proof.
  assert (forall l : list string,
            (forall table, In table Health.required_tables -> In table l) ->
            l <> []) as Hne.
  { intros l H ->. apply (H "clients"). cbn. auto. }
  destruct file as [|e|e|schema]; cbv zeta.
  1-3: cbn; split; [|split; [|split; [|split; [|split]]]];
       [ split; [discriminate | intros [H _]; discriminate]
       | split; [discriminate | intros H; now elim (Hne [] H)]
       | discriminate
       | try discriminate; auto
       | intros H; now elim H
       | tauto ].
  rewrite db_health_check_tables. cbv zeta.
  destruct (forallb _ Health.required_tables) eqn:E;
    cbn [Health.schema_valid Health.schema_exists Health.discrepancies Health.tables
         Health.can_connect Health.error Health.database_exists];
    (split; [|split; [|split; [|split; [|split]]]]).
  - rewrite negb_true_iff, nonempty_false. tauto.
  - split; [|reflexivity]. intros _ table Hin.
    rewrite forallb_forall in E. apply mem_true_iff. now apply E.
  - auto.
  - auto.
  - auto.
  - intros Hin. apply filter_In in Hin. destruct Hin as [_ Hin]. discriminate Hin.
  - split; [discriminate | intros [H _]; discriminate].
  - split; [discriminate|].
    intros H. rewrite <- E. apply forallb_forall. intros table Hin.
    apply mem_true_iff. now apply H.
  - discriminate.
  - auto.
  - intros H. now elim H.
  - intros Hin. apply filter_In in Hin. destruct Hin as [_ Hin]. discriminate Hin.
Qed.

Section Discrepancies.

Lemma table_discrepancies_In (schema : Health.Schema) (table : string)
    (d : Health.Discrepancy) :
  In d (table_discrepancies schema table)
  <-> (d = Health.mkDiscrepancy table Health.MissingColumns (missing_columns_of schema table)
       /\ missing_columns_of schema table <> [])
      \/ (d = Health.mkDiscrepancy table Health.ExtraColumns (extra_columns_of schema table)
          /\ extra_columns_of schema table <> []).
Proof.
  unfold table_discrepancies. rewrite in_app_iff.
  destruct (missing_columns_of schema table) as [|m ms];
    destruct (extra_columns_of schema table) as [|x xs]; cbn;
    intuition (try discriminate; try congruence; auto).
Qed.

Lemma discrepancies_In (schema : Health.Schema) (d : Health.Discrepancy) :
  Health.schema_exists (Health.db_health_check (Health.Tables schema)) = true ->
  (In d (Health.discrepancies (Health.db_health_check (Health.Tables schema)))
   <-> In (Health.d_table d) Health.required_tables
       /\ In d (table_discrepancies schema (Health.d_table d))).
Proof.
  rewrite db_health_check_tables. cbv zeta.
  destruct (forallb _ Health.required_tables); cbn [Health.schema_exists]; [|discriminate].
  intros _. cbn [Health.discrepancies]. rewrite in_flat_map. split.
  - intros [table [Hin Hd]].
    assert (Health.d_table d = table) as ->; [|auto].
    apply table_discrepancies_In in Hd. destruct Hd as [[-> _]|[-> _]]; reflexivity.
  - intros [Hin Hd]. eauto.
Qed.

End Discrepancies.

(** X11. The discrepancies [db_health_check] lists are sound and
    complete: when the required tables exist, a column is listed as
    missing for a required table exactly when it is an expected column
    the table has not, and as extra exactly when the table has it and
    it is not expected. *)
Theorem discrepancies_sound_complete (schema : Health.Schema) (table c : string) :
  Health.schema_exists (Health.db_health_check (Health.Tables schema)) = true ->
  In table Health.required_tables ->
  ((exists d,
      In d (Health.discrepancies (Health.db_health_check (Health.Tables schema)))
      /\ Health.d_table d = table /\ Health.d_issue d = Health.MissingColumns
      /\ In c (Health.d_columns d))
   <-> In c (Health.columns_of Health.expected_schema table)
       /\ ~ In c (Health.columns_of schema table))
  /\ ((exists d,
         In d (Health.discrepancies (Health.db_health_check (Health.Tables schema)))
         /\ Health.d_table d = table /\ Health.d_issue d = Health.ExtraColumns
         /\ In c (Health.d_columns d))
      <-> In c (Health.columns_of schema table)
          /\ ~ In c (Health.columns_of Health.expected_schema table)).
Proof.
  intros Hex Htable. split; split.
  - intros [d [Hd [Ht [Hi Hc]]]]. apply (discrepancies_In schema d Hex) in Hd.
    destruct Hd as [_ Hd]. rewrite Ht in Hd. apply table_discrepancies_In in Hd.
    destruct Hd as [[-> _]|[-> _]]; [|discriminate Hi].
    now apply difference_In.
  - intros Hc. apply difference_In in Hc. fold (missing_columns_of schema table) in Hc.
    exists (Health.mkDiscrepancy table Health.MissingColumns
              (missing_columns_of schema table)).
    split; [|auto]. apply (discrepancies_In schema _ Hex). cbn [Health.d_table].
    split; [exact Htable|].
    apply table_discrepancies_In. left. split; [reflexivity|].
    intros Hnil. rewrite Hnil in Hc. contradiction.
  - intros [d [Hd [Ht [Hi Hc]]]]. apply (discrepancies_In schema d Hex) in Hd.
    destruct Hd as [_ Hd]. rewrite Ht in Hd. apply table_discrepancies_In in Hd.
    destruct Hd as [[-> _]|[-> _]]; [discriminate Hi|].
    now apply difference_In.
  - intros Hc. apply difference_In in Hc. fold (extra_columns_of schema table) in Hc.
    exists (Health.mkDiscrepancy table Health.ExtraColumns
              (extra_columns_of schema table)).
    split; [|auto]. apply (discrepancies_In schema _ Hex). cbn [Health.d_table].
    split; [exact Htable|].
    apply table_discrepancies_In. right. split; [reflexivity|].
    intros Hnil. rewrite Hnil in Hc. contradiction.
Qed.

Lemma discrepancies_sound_complete_witness :
  (exists d,
     In d (Health.discrepancies
             (Health.db_health_check (Health.Tables Desk.drifted_schema)))
     /\ Health.d_table d = "case_file_entries"
     /\ Health.d_issue d = Health.MissingColumns
     /\ In "synopsis" (Health.d_columns d))
  /\ (exists d,
        In d (Health.discrepancies
                (Health.db_health_check (Health.Tables Desk.drifted_schema)))
        /\ Health.d_table d = "case_file_entries"
        /\ Health.d_issue d = Health.ExtraColumns
        /\ In "notes" (Health.d_columns d)).
Proof.
  split.
  - apply (discrepancies_sound_complete Desk.drifted_schema "case_file_entries" "synopsis");
      [reflexivity | cbn; auto |].
    split; [cbn; auto 20|].
    cbn. intros H. repeat (destruct H as [H|H]; [discriminate H|]). exact H.
  - apply (discrepancies_sound_complete Desk.drifted_schema "case_file_entries" "notes");
      [reflexivity | cbn; auto |].
    split; [cbn; auto 20|].
    cbn. intros H. repeat (destruct H as [H|H]; [discriminate H|]). exact H.
Defined.

(** ** The columns of the prepared table of app.py *)

Section PreparedColumns.
Context {RT : Runtime}.

Lemma columns_coerce_date_columns (date_columns : list string) :
  forall df, columns (Frame.coerce_date_columns date_columns df) = columns df.
Proof.
  unfold Frame.coerce_date_columns.
  induction date_columns as [|col cols IH]; intros df; cbn [fold_left]; [reflexivity|].
  rewrite IH.
  destruct (PyStr.mem col (columns df)); [|reflexivity].
  destruct (negb _); reflexivity.
Qed.

Lemma columns_prepare (df : DataFrame) (case_id : Z) :
  columns (App.prepare_data_for_db df case_id)
  = map storage_name (columns df)
    ++ (if PyStr.mem "case_id" (columns df) then [] else [ "case_id" ]).
Proof.
  unfold App.prepare_data_for_db. rewrite columns_coerce_date_columns.
  unfold Frame.rename, Frame.assign. cbn [columns].
  fold storage_name.
  destruct (PyStr.mem "case_id" (columns df)); cbn [columns Frame.update_column].
  - now rewrite app_nil_r.
  - now rewrite map_app.
Qed.

End PreparedColumns.

(** X12. The health check and the importer of app.py fit together: on
    a database whose schema the health check finds valid, the column
    filter of [insert_data_to_db] keeps, under its storage name, every
    required or billing column the spreadsheet has, keeps [case_id],
    and keeps nothing but expected columns of [case_file_entries]. *)
Theorem healthy_schema_keeps_columns {RT : Runtime} {ST : Sql.Store}
    (schema : Health.Schema) (df : DataFrame) (case_id : Z) (col : string) :
  Health.schema_valid (Health.db_health_check (Health.Tables schema)) = true ->
  Sql.table_columns = Health.columns_of schema "case_file_entries" ->
  In col (columns df) ->
  In col known_columns ->
  let kept :=
    filter (fun c => PyStr.mem c Sql.table_columns)
      (columns (App.prepare_data_for_db df case_id)) in
  In (storage_name col) kept
  /\ In "case_id" kept
  /\ forall c, In c kept -> In c App.expected_case_file_entries.
Proof.
  intros Hvalid Hstore Hcol Hknown kept.
  assert (forall c, In c Sql.table_columns <-> In c App.expected_case_file_entries)
    as Hsame.
  { rewrite Hstore.
    apply (schema_valid_tables schema "case_file_entries" Hvalid). cbn. auto. }
  assert (forall c, In c kept
                    <-> In c (columns (App.prepare_data_for_db df case_id))
                        /\ In c App.expected_case_file_entries) as Hkept.
  { intros c. unfold kept. rewrite filter_In, mem_true_iff, Hsame. reflexivity. }
  split; [|split].
  - apply Hkept. split.
    + rewrite columns_prepare. apply in_or_app. left. now apply in_map.
    + cbn in Hknown.
      repeat (destruct Hknown as [<-|Hknown]; [cbn; auto 20|]). contradiction.
  - apply Hkept. split; [|cbn; auto].
    rewrite columns_prepare.
    destruct (PyStr.mem "case_id" (columns df)) eqn:E.
    + rewrite app_nil_r. apply mem_true_iff in E.
      apply (in_map storage_name) in E. exact E.
    + apply in_or_app. right. now left.
  - intros c Hc. now apply Hkept.
Qed.

Lemma healthy_schema_keeps_columns_witness :
  In "from_party"
    (filter (fun c => PyStr.mem c (Sql.table_columns (Store := World.store)))
       (columns (App.prepare_data_for_db (RT := World.runtime) World.good_table 7)))
  /\ In "case_id"
       (filter (fun c => PyStr.mem c (Sql.table_columns (Store := World.store)))
          (columns (App.prepare_data_for_db (RT := World.runtime) World.good_table 7)))
  /\ forall c,
       In c (filter (fun c => PyStr.mem c (Sql.table_columns (Store := World.store)))
               (columns (App.prepare_data_for_db (RT := World.runtime)
                           World.good_table 7))) ->
       In c App.expected_case_file_entries.
Proof.
  apply (healthy_schema_keeps_columns (RT := World.runtime) (ST := World.store)
           Desk.healthy_schema World.good_table 7 "from");
    [reflexivity | reflexivity | cbn; auto | cbn; auto].
Defined.

(** ** The findings of the validators, row by row *)

Section CategoryRows.
Context {RT : Runtime}.

Lemma title_category_of_text (title : string) :
  Validation.title_category (CText title)
  = Ok (if PyStr.contains ":" title
        then Some (PyStr.strip (Spec.after_first_colon title))
        else None).
Proof.
  unfold Validation.title_category, colon_in, split_colon, PyStr.index, rbind.
  cbn [isna]. rewrite split1_second. now destruct (PyStr.contains ":" title).
Qed.

Lemma check_category_In (idx : Z) (category : string) (e : Validation.CategoryError) :
  In e (Validation.check_category idx category)
  <-> PyStr.mem category Validation.BILLING_CATEGORIES = false
      /\ e = Validation.mkCategoryError (idx + 2) category Validation.AllowedGeneral.
Proof.
  unfold Validation.check_category, Validation.is_cpcs. cbn [andb negb].
  destruct (PyStr.mem category Validation.BILLING_CATEGORIES); cbn [negb In].
  - split; [contradiction | intros [H _]; discriminate].
  - split; [intros [<-|[]]; auto | intros [_ ->]; now left].
Qed.

Lemma check_billing_category_rows (j : Z) (row : Row)
    (errs : list Validation.CategoryError) :
  Validation.check_billing_category (j, row) = Ok errs ->
  forall e, In e errs -> Validation.ce_row e = j + 2.
Proof.
  unfold Validation.check_billing_category, rbind.
  destruct (getitem row "type") as [ty|]; [|discriminate].
  destruct (cell_is ty "billing-type");
    [|intros H; inversion H; subst; intros e []].
  destruct (getitem row "title") as [title|]; [|discriminate].
  destruct (Validation.title_category title) as [[c|]|]; try discriminate;
    intros H; inversion H; subst; intros e He; [|destruct He].
  apply check_category_In in He. destruct He as [_ ->]. reflexivity.
Qed.

(** The category errors a report holds under the row number [k + 2]
    are the ones the loop body recorded for the row at position [k]. *)
Lemma category_errors_of_row (df : DataFrame) (r : Validation.Report) (k : nat)
    (vals : list cell) :
  Validation.validate_case_file_data df = Ok r ->
  Validation.missing_columns r = [] ->
  nth_error (data df) k = Some vals ->
  exists errs,
    Validation.check_billing_category (Z.of_nat k, series (columns df) vals) = Ok errs
    /\ (forall e, In e errs
                  <-> In e (Validation.billing_category_errors r)
                      /\ Validation.ce_row e = Z.of_nat k + 2)
    /\ (errs <> [] -> Validation.valid r = false).
Proof.
  intros H Hm Hk.
  apply validate_inv in H. destruct H as [[Hne ->] | [_ [cats [dates [Hcats [_ ->]]]]]].
  { cbn in Hm. contradiction. }
  cbn [Validation.billing_category_errors Validation.valid].
  assert (In (Z.of_nat k, series (columns df) vals) (iterrows df)) as Hin
    by (apply iterrows_In; eauto).
  destruct (In_nth_error _ _ Hin) as [i Hi].
  destruct (mapR_Ok_nth _ _ _ _ _ Hcats Hi) as [errs [Hf Herrs]].
  exists errs. split; [exact Hf|]. split.
  - intros e. split.
    + intros He. split; [|exact (check_billing_category_rows _ _ _ Hf e He)].
      apply (mapR_concat_In _ _ _ e Hcats). eauto.
    + intros [He Hrow]. apply (mapR_concat_In _ _ _ e Hcats) in He.
      destruct He as [[j row'] [y [Hx [Hy Hey]]]].
      pose proof (check_billing_category_rows j row' y Hy e Hey) as Hj.
      apply iterrows_In in Hx. destruct Hx as [k' [vals' [-> [Hk' ->]]]].
      assert (k' = k) as -> by lia.
      rewrite Hk in Hk'. inversion Hk'; subst vals'.
      rewrite Hf in Hy. inversion Hy; subst. exact Hey.
  - intros Hne.
    assert (Validation.nonempty (List.concat cats) = true) as ->.
    { destruct errs as [|e errs]; [contradiction|].
      assert (In e (List.concat cats)) as He
        by (apply (mapR_concat_In _ _ _ e Hcats); eauto with datatypes).
      destruct (List.concat cats); [contradiction | reflexivity]. }
    cbn. now rewrite andb_false_r.
Qed.

End CategoryRows.

(** X13. In validation.py, for every table that has the required
    columns, a billing-category error is recorded under the row number
    of a row (position + 2) exactly when the row is of type
    [billing-type], its title is a text with a colon, and the stripped
    text after the first colon is not one of the general billing
    categories; the error names that text, refers to the general
    categories (the CPCS list is never consulted) and makes the report
    invalid. A billing row with an empty title or a title without a
    colon is never flagged. *)
Theorem category_error_rows {RT : Runtime} (df : DataFrame) (r : Validation.Report)
    (k : nat) (vals : list cell) (e : Validation.CategoryError) :
  Validation.validate_case_file_data df = Ok r ->
  Validation.missing_columns r = [] ->
  nth_error (data df) k = Some vals ->
  ((In e (Validation.billing_category_errors r)
    /\ Validation.ce_row e = Z.of_nat k + 2)
   <-> cell_is (get (series (columns df) vals) "type") "billing-type" = true
       /\ exists title,
            get (series (columns df) vals) "title" = CText title
            /\ PyStr.contains ":" title = true
            /\ PyStr.mem (PyStr.strip (Spec.after_first_colon title))
                 Validation.BILLING_CATEGORIES = false
            /\ e = Validation.mkCategoryError (Z.of_nat k + 2)
                     (PyStr.strip (Spec.after_first_colon title))
                     Validation.AllowedGeneral)
  /\ (In e (Validation.billing_category_errors r) -> Validation.valid r = false).
Proof.
  intros H Hm Hk. split.
  - set (row := series (columns df) vals) in *.
    destruct (category_errors_of_row df r k vals H Hm Hk) as [errs [Hf [Hiff _]]].
    fold row in Hf. rewrite <- Hiff. clear Hiff.
    assert (In "type" (columns df)) as Hct
      by (apply (required_present df r); auto; cbn; auto).
    assert (In "title" (columns df)) as Hcti
      by (apply (required_present df r); auto; cbn; auto 10).
    unfold Validation.check_billing_category, rbind in Hf.
    unfold row in Hf. rewrite !getitem_series in Hf by assumption. fold row in Hf.
    destruct (cell_is (get row "type") "billing-type").
    2:{ inversion Hf; subst errs. split; [contradiction | intros [Hx _]; discriminate]. }
    destruct (get row "title") as [|title|q|t] eqn:Etitle; try discriminate Hf.
    + inversion Hf; subst errs.
      split; [contradiction | intros [_ [title [Hx _]]]; discriminate].
    + rewrite title_category_of_text in Hf.
      destruct (PyStr.contains ":" title) eqn:Ec.
      * inversion Hf; subst errs. rewrite check_category_In. split.
        -- intros [Hmem ->]. split; [reflexivity|]. exists title. auto.
        -- intros [_ [title' [Ht [_ [Hmem ->]]]]]. inversion Ht; subst title'. auto.
      * inversion Hf; subst errs. split; [contradiction|].
        intros [_ [title' [Ht [Hc _]]]]. inversion Ht; subst title'. congruence.
  - intros He.
    apply validate_inv in H.
    destruct H as [[Hne ->] | [_ [cats [dates [_ [_ ->]]]]]]; [reflexivity|].
    cbn [Validation.billing_category_errors Validation.valid] in *.
    destruct (List.concat cats); [contradiction|].
    cbn. now rewrite andb_false_r.
Qed.

Lemma category_error_rows_witness :
  exists r,
    Validation.validate_case_file_data (RT := World.runtime) Desk.miscategorised_table
    = Ok r
    /\ In (Validation.mkCategoryError 3 "Nonsense" Validation.AllowedGeneral)
         (Validation.billing_category_errors r)
    /\ Validation.valid r = false.
Proof.
  eexists. split; [vm_compute; reflexivity|].
  match goal with
  | |- _ /\ Validation.valid ?r = false =>
      destruct (category_error_rows (RT := World.runtime) Desk.miscategorised_table r 1
                  (World.billing_row (CTime (World.at_time 8 0))
                     (CText "Call:  Nonsense ")
                     (CTime (World.at_time 9 0)) (CTime (World.at_time 10 0)) (CNum 1))
                  (Validation.mkCategoryError 3 "Nonsense" Validation.AllowedGeneral))
        as [Hiff Hinvalid]; try reflexivity
  end.
  assert (In (Validation.mkCategoryError 3 "Nonsense" Validation.AllowedGeneral)
            (Validation.billing_category_errors
               (Validation.mkReport false [] [] []
                  [ Validation.mkCategoryError 3 "Nonsense" Validation.AllowedGeneral ]
                  (Validation.mkSampleErrors [] []
                     [ Validation.mkCategoryError 3 "Nonsense"
                         Validation.AllowedGeneral ])))) as Hin.
  { apply Hiff. split; [reflexivity|].
    exists "Call:  Nonsense ". repeat split; reflexivity. }
  split; [exact Hin | exact (Hinvalid Hin)].
Defined.

Section RowOrder.
Context {RT : Runtime}.

Lemma ascending_weaken (strict : bool) (rows : list Z) (lo lo' : Z) :
  lo' <= lo -> ascending strict lo rows -> ascending strict lo' rows.
Proof.
  destruct rows as [|row rows]; [auto|]. cbn. intros Hle [H Hrest].
  split; [destruct strict; lia | exact Hrest].
Qed.

Lemma ascending_bound (strict : bool) (rows : list Z) :
  forall lo row, ascending strict lo rows -> In row rows ->
                 if strict then lo < row else lo <= row.
Proof.
  induction rows as [|x rows IH]; intros lo row H Hin; [destruct Hin|].
  cbn in H. destruct H as [Hx Hrest]. destruct Hin as [<-|Hin]; [exact Hx|].
  specialize (IH x row Hrest Hin). destruct strict; lia.
Qed.

(** A loop that records at most one finding per round, numbered by
    the round, records the findings in strictly ascending order. *)
Lemma ascending_flat_map {A B : Type} (f : Z * A -> list B) (row : B -> Z) (c : Z)
    (xs : list A) :
  (forall j x, f (j, x) = [] \/ exists b, f (j, x) = [b] /\ row b = j + c) ->
  forall i,
    ascending true (i + c - 1) (map row (flat_map f (enumerate_from i xs)))
    /\ forall b, In b (flat_map f (enumerate_from i xs)) ->
                 row b < i + c + Z.of_nat (List.length xs).
Proof.
  intros Hf. induction xs as [|x xs IH]; intros i; cbn [enumerate_from flat_map].
  - split; [exact I | intros b []].
  - destruct (IH (i + 1)) as [Hasc Hup]. split.
    + destruct (Hf i x) as [-> | [b [-> Hb]]]; cbn [app map ascending].
      * apply (ascending_weaken _ _ (i + 1 + c - 1)); [lia | exact Hasc].
      * split; [lia|]. rewrite Hb.
        apply (ascending_weaken _ _ (i + 1 + c - 1)); [lia | exact Hasc].
    + intros b Hb. apply in_app_or in Hb. rewrite length_cons. destruct Hb as [Hb|Hb].
      * destruct (Hf i x) as [Hnil | [b' [Hone Hrow]]]; rewrite ?Hnil, ?Hone in Hb.
        -- destruct Hb.
        -- destruct Hb as [<-|[]]. lia.
      * specialize (Hup b Hb). lia.
Qed.

Lemma ascending_app_same (lo row : Z) (l1 l2 : list Z) :
  lo <= row -> (forall x, In x l1 -> x = row) -> ascending false row l2 ->
  ascending false lo (l1 ++ l2).
Proof.
  intros Hlo. revert lo Hlo. induction l1 as [|x l1 IH]; intros lo Hlo Hsame Hl2.
  - cbn. apply (ascending_weaken _ _ row); assumption.
  - cbn [app ascending]. assert (x = row) as -> by (apply Hsame; now left).
    split; [exact Hlo|]. apply IH; [lia | | exact Hl2].
    intros y Hy. apply Hsame. now right.
Qed.

(** A loop whose round [j] records findings numbered [j + c] records
    them in ascending order. *)
Lemma ascending_concat {A B : Type} (f : Z * A -> result (list B)) (row : B -> Z)
    (c : Z) (xs : list A) :
  (forall j x y, f (j, x) = Ok y -> forall b, In b y -> row b = j + c) ->
  forall i ys,
    mapR f (enumerate_from i xs) = Ok ys ->
    ascending false (i + c) (map row (List.concat ys))
    /\ forall b, In b (List.concat ys) -> row b < i + c + Z.of_nat (List.length xs).
Proof.
  intros Hf. induction xs as [|x xs IH]; intros i ys H; cbn [enumerate_from mapR] in H.
  - inversion H; subst ys. split; [exact I | intros b []].
  - unfold rbind in H.
    destruct (f (i, x)) as [y|] eqn:Ey; [|discriminate].
    destruct (mapR f (enumerate_from (i + 1) xs)) as [ys'|] eqn:Eys; [|discriminate].
    inversion H; subst ys. clear H. cbn [List.concat].
    destruct (IH (i + 1) ys' Eys) as [Hasc Hup]. split.
    + rewrite map_app. apply (ascending_app_same _ (i + c)); [lia | |].
      * intros z Hz. apply in_map_iff in Hz. destruct Hz as [b [<- Hb]].
        exact (Hf i x y Ey b Hb).
      * apply (ascending_weaken _ _ (i + 1 + c)); [lia | exact Hasc].
    + intros b Hb. apply in_app_or in Hb. rewrite length_cons. destruct Hb as [Hb|Hb].
      * rewrite (Hf i x y Ey b Hb). lia.
      * specialize (Hup b Hb). lia.
Qed.

Lemma check_entry_type_one (j : Z) (ty : cell) :
  Validation.check_entry_type (j, ty) = []
  \/ exists v, Validation.check_entry_type (j, ty) = [v] /\ Validation.tv_row v = j + 2.
Proof.
  unfold Validation.check_entry_type. destruct (isna ty || negb _); eauto.
Qed.

Lemma app_check_type_one (j : Z) (ty : cell) :
  app_check_type (j, ty) = []
  \/ exists v, app_check_type (j, ty) = [v] /\ App.ie_row v = j + 1.
Proof.
  unfold app_check_type. cbn [fst snd]. destruct (isna ty || negb _); eauto.
Qed.

Lemma check_billing_category_one (j : Z) (row : Row)
    (errs : list Validation.CategoryError) :
  Validation.check_billing_category (j, row) = Ok errs ->
  (List.length errs <= 1)%nat.
Proof.
  unfold Validation.check_billing_category, rbind.
  destruct (getitem row "type") as [ty|]; [|discriminate].
  destruct (cell_is ty "billing-type"); [|intros H; inversion H; cbn; lia].
  destruct (getitem row "title") as [title|]; [|discriminate].
  destruct (Validation.title_category title) as [[c|]|]; try discriminate;
    intros H; inversion H; subst; [|cbn; lia].
  unfold Validation.check_category.
  destruct (_ && _); [cbn; lia|]. destruct (_ && _); cbn; lia.
Qed.

End RowOrder.

Section RowOrderReports.
Context {RT : Runtime}.

(** A loop whose round [j] records at most one finding, numbered
    [j + c], records the findings in strictly ascending order. *)
Lemma ascending_concat_strict {A B : Type} (f : Z * A -> result (list B))
    (row : B -> Z) (c : Z) (xs : list A) :
  (forall j x y, f (j, x) = Ok y ->
     (List.length y <= 1)%nat /\ forall b, In b y -> row b = j + c) ->
  forall i ys,
    mapR f (enumerate_from i xs) = Ok ys ->
    ascending true (i + c - 1) (map row (List.concat ys)).
Proof.
  intros Hf. induction xs as [|x xs IH]; intros i ys H; cbn [enumerate_from mapR] in H.
  - inversion H; subst ys. exact I.
  - unfold rbind in H.
    destruct (f (i, x)) as [y|] eqn:Ey; [|discriminate].
    destruct (mapR f (enumerate_from (i + 1) xs)) as [ys'|] eqn:Eys; [|discriminate].
    inversion H; subst ys. clear H. cbn [List.concat].
    pose proof (IH (i + 1) ys' Eys) as Hasc.
    destruct (Hf i x y Ey) as [Hlen Hrow].
    destruct y as [|b [|b' y]]; cbn [app map ascending].
    + apply (ascending_weaken _ _ (i + 1 + c - 1)); [lia | exact Hasc].
    + rewrite (Hrow b) by now left. split; [lia|].
      apply (ascending_weaken _ _ (i + 1 + c - 1)); [lia | exact Hasc].
    + cbn in Hlen. lia.
Qed.

Lemma sample_firstn {A : Type} (l : list A) : Validation.sample l = firstn 5 l.
Proof. unfold Validation.sample. now destruct l. Qed.

Lemma iterrows_length (df : DataFrame) :
  List.length (map (series (columns df)) (data df)) = List.length (data df).
Proof. apply length_map. Qed.

End RowOrderReports.

(** X14. Both validators list their findings in the order of the rows.
    In validation.py the row numbers of [invalid_types] and of
    [billing_category_errors] are strictly ascending (at most one
    finding per row), those of [date_format_errors] are ascending, all
    of them lie between 2 and the number of rows plus 1, and each list
    of [sample_errors] is the first five entries of its full list. In
    app.py the row numbers of [invalid_entries] are strictly ascending
    and lie between 1 and the number of rows. *)
Theorem findings_in_row_order {RT : Runtime} (df : DataFrame) :
  (forall r,
     Validation.validate_case_file_data df = Ok r ->
     ascending true 1 (map Validation.tv_row (Validation.invalid_types r))
     /\ ascending true 1 (map Validation.ce_row (Validation.billing_category_errors r))
     /\ ascending false 2 (map error_row (Validation.date_format_errors r))
     /\ (forall row,
           In row (map Validation.tv_row (Validation.invalid_types r)
                   ++ map Validation.ce_row (Validation.billing_category_errors r)
                   ++ map error_row (Validation.date_format_errors r)) ->
           2 <= row <= len df + 1)
     /\ Validation.sample_errors r
        = Validation.mkSampleErrors
            (firstn 5 (Validation.invalid_types r))
            (firstn 5 (Validation.date_format_errors r))
            (firstn 5 (Validation.billing_category_errors r)))
  /\ (forall r,
        App.validate_case_file_data df = Ok r ->
        ascending true 0 (map App.ie_row (App.invalid_entries r))
        /\ forall row, In row (map App.ie_row (App.invalid_entries r)) ->
                       1 <= row <= len df).
Proof.
  split.
  - intros r H. apply validate_inv in H.
    destruct H as [[_ ->] | [_ [cats [dates [Hcats [Hdates ->]]]]]].
    { cbn. repeat split; try contradiction. }
    cbv zeta.
    cbn [Validation.invalid_types Validation.billing_category_errors
         Validation.date_format_errors Validation.sample_errors].
    destruct (ascending_flat_map Validation.check_entry_type Validation.tv_row 2
                (Frame.column df "type") check_entry_type_one 0) as [Htypes Htypes_up].
    pose proof (ascending_concat_strict Validation.check_billing_category
                  Validation.ce_row 2 (map (series (columns df)) (data df))
                  (fun j x y Hy =>
                     conj (check_billing_category_one j x y Hy)
                          (check_billing_category_rows j x y Hy))
                  0 cats Hcats) as Hcat.
    destruct (ascending_concat Validation.check_billing_category
                Validation.ce_row 2 (map (series (columns df)) (data df))
                check_billing_category_rows 0 cats Hcats) as [_ Hcat_up].
    destruct (ascending_concat Validation.check_row_dates error_row 2
                (map (series (columns df)) (data df))
                check_row_dates_rows 0 dates Hdates) as [Hdate Hdate_up].
    rewrite iterrows_length in Hcat_up, Hdate_up.
    rewrite column_length in Htypes_up.
    change (0 + 2 - 1) with 1 in *. change (0 + 2) with 2 in *.
    split; [exact Htypes|]. split; [exact Hcat|]. split; [exact Hdate|]. split.
    + intros row Hin. unfold len.
      apply in_app_or in Hin. destruct Hin as [Hin|Hin];
        [|apply in_app_or in Hin; destruct Hin as [Hin|Hin]].
      * pose proof (ascending_bound _ _ _ _ Htypes Hin) as Hlow. cbv beta iota in Hlow.
        apply in_map_iff in Hin. destruct Hin as [b [<- Hb]].
        specialize (Htypes_up b Hb). lia.
      * pose proof (ascending_bound _ _ _ _ Hcat Hin) as Hlow. cbv beta iota in Hlow.
        apply in_map_iff in Hin. destruct Hin as [b [<- Hb]].
        specialize (Hcat_up b Hb). lia.
      * pose proof (ascending_bound _ _ _ _ Hdate Hin) as Hlow. cbv beta iota in Hlow.
        apply in_map_iff in Hin. destruct Hin as [b [<- Hb]].
        specialize (Hdate_up b Hb). lia.
    + now rewrite !sample_firstn.
  - intros r H. rewrite app_validate_spec in H.
    destruct (Validation.nonempty (missing_of App.required_columns df));
      inversion H; subst r; clear H.
    { cbn. split; [exact I | contradiction]. }
    cbv zeta. cbn [App.invalid_entries].
    destruct (ascending_flat_map app_check_type App.ie_row 1
                (Frame.column df "type") app_check_type_one 0) as [Hasc Hup].
    rewrite column_length in Hup. change (0 + 1 - 1) with 0 in *.
    split; [exact Hasc|].
    intros row Hin. pose proof (ascending_bound _ _ _ _ Hasc Hin) as Hlow.
    cbv beta iota in Hlow.
    apply in_map_iff in Hin. destruct Hin as [b [<- Hb]].
    specialize (Hup b Hb). unfold len. lia.
Qed.

(** X15. The two validators find the same type violations: on a table
    on which both return a report, they list the same missing columns,
    and the entries of [invalid_entries] of app.py are those of
    [invalid_types] of validation.py, in the same order and with the
    same cells, under row numbers that are one less; a table that
    validation.py finds valid is valid for app.py. *)
Theorem validators_agree_on_types {RT : Runtime} (df : DataFrame)
    (r : Validation.Report) (r' : App.Report) :
  Validation.validate_case_file_data df = Ok r ->
  App.validate_case_file_data df = Ok r' ->
  App.missing_columns r' = Validation.missing_columns r
  /\ map (fun e => (App.ie_row e + 1, App.ie_type e)) (App.invalid_entries r')
     = map (fun v => (Validation.tv_row v, Validation.tv_type v))
         (Validation.invalid_types r)
  /\ (Validation.valid r = true -> App.valid r' = true).
Proof.
  intros H H'. rewrite app_validate_spec in H'.
  apply validate_inv in H.
  change App.required_columns with Validation.required_columns in H'.
  destruct H as [[Hne ->] | [Hnil [cats [dates [_ [_ ->]]]]]].
  - destruct (missing_of Validation.required_columns df); [contradiction|].
    inversion H'; subst r'. cbn. auto.
  - rewrite Hnil in H'. inversion H'; subst r'. clear H'. cbv zeta.
    cbn [Validation.nonempty App.missing_columns App.invalid_entries App.valid
         Validation.missing_columns Validation.invalid_types Validation.valid].
    assert (forall l : list (Z * cell),
              map (fun e => (App.ie_row e + 1, App.ie_type e)) (flat_map app_check_type l)
              = map (fun v => (Validation.tv_row v, Validation.tv_type v))
                  (flat_map Validation.check_entry_type l)) as Hmap.
    { induction l as [|[j ty] l IH]; [reflexivity|].
      cbn [flat_map]. rewrite !map_app, IH. f_equal.
      unfold app_check_type, Validation.check_entry_type. cbn [fst snd].
      change App.valid_types with Validation.VALID_ENTRY_TYPES.
      destruct (isna ty || negb _); [|reflexivity].
      cbn. do 2 f_equal. lia. }
    split; [reflexivity|]. split; [apply Hmap|].
    intros Hvalid. apply andb_true_iff in Hvalid. destruct Hvalid as [Hvalid _].
    apply andb_true_iff in Hvalid. destruct Hvalid as [Hvalid _].
    apply negb_true_iff, nonempty_false in Hvalid.
    specialize (Hmap (enumerate (Frame.column df "type"))).
    rewrite Hvalid in Hmap. cbn [map] in Hmap.
    apply map_eq_nil in Hmap. now rewrite Hmap.
Qed.

Lemma validators_agree_on_types_witness :
  exists r r',
    Validation.validate_case_file_data (RT := World.runtime) World.bad_type_table = Ok r
    /\ App.validate_case_file_data World.bad_type_table = Ok r'
    /\ map (fun e => (App.ie_row e + 1, App.ie_type e)) (App.invalid_entries r')
       = map (fun v => (Validation.tv_row v, Validation.tv_type v))
           (Validation.invalid_types r).
Proof.
  do 2 eexists. split; [vm_compute; reflexivity|]. split; [vm_compute; reflexivity|].
  match goal with
  | |- map _ (App.invalid_entries ?r') = map _ (Validation.invalid_types ?r) =>
      destruct (validators_agree_on_types (RT := World.runtime) World.bad_type_table r r')
        as [_ [Hmap _]]; [reflexivity | reflexivity | exact Hmap]
  end.
Defined.

(** ** What an import of excel_loader.py leaves behind *)

Section LoaderOutcome.
Context {RT : Runtime} {ST : Sql.Store}.
Import Sql.

Lemma keeps_billing_step (case_id first_id n : Z) (it : Z * Row) :
  keeps_committed (billing_step case_id first_id n it).
Proof. unfold billing_step. keeps. Qed.

Lemma ids_from_map_length {A : Type} (g : A -> Z) (xs : list A) (first : Z) (n : nat) :
  map g xs = ids_from first n -> List.length xs = n.
Proof.
  intros H. rewrite <- (length_map g), H. apply ids_from_length.
Qed.

(** What is committed after [to_sql] returned: the database as it was,
    or, when [to_sql] commits, the database with one entry per row. *)
Lemma to_sql_Ok_committed (df : DataFrame) (db : Db) (c1 : Conn) (u : unit) :
  to_sql df (connect db) = (Ok u, c1) ->
  billing_entries (committed c1) = billing_entries db
  /\ (committed c1 = db
      \/ (to_sql_commits = true
          /\ exists es, entries (committed c1) = entries db ++ es
                        /\ List.length es = List.length (data df))).
Proof.
  intros H. pose proof (to_sql_committed df (connect db)) as Hc. rewrite H in Hc.
  apply to_sql_Ok in H. destruct H as [es [He [Hb [Hids _]]]].
  cbn [connect working committed] in *.
  destruct to_sql_commits; rewrite Hc.
  - split; [exact Hb|]. right. split; [reflexivity|]. exists es.
    split; [exact He | exact (ids_from_map_length _ _ _ _ Hids)].
  - split; [reflexivity | now left].
Qed.

End LoaderOutcome.

(** X16. [load_case_file_to_db] of excel_loader.py, on a fresh
    connection: it never leaves a transaction open; it reports success
    exactly when it records no error; a failed import records exactly
    one error, reports no billing entry and [entries_added] 0 or the
    number of rows, commits no billing entry, and leaves the entries
    as they were unless [to_sql] had committed its rows, in which case
    one entry per row of the table stays in the database. *)
Theorem loader_import_outcome {RT : Runtime} {ST : Sql.Store} (df : DataFrame)
    (case_id : Z) (db : Sql.Db) (r : ExcelLoader.ImportResults) (c' : Sql.Conn) :
  ExcelLoader.load_case_file_to_db df case_id (Sql.connect db) = (r, c') ->
  Sql.working c' = Sql.committed c'
  /\ (ExcelLoader.success r = true <-> ExcelLoader.errors r = [])
  /\ (ExcelLoader.success r = false ->
      (exists e, ExcelLoader.errors r = [e])
      /\ ExcelLoader.billing_entries_added r = 0
      /\ (ExcelLoader.entries_added r = 0 \/ ExcelLoader.entries_added r = len df)
      /\ Sql.billing_entries (Sql.committed c') = Sql.billing_entries db
      /\ (Sql.committed c' = db
          \/ (to_sql_commits = true
              /\ ExcelLoader.entries_added r = len df
              /\ exists es,
                   Sql.entries (Sql.committed c') = Sql.entries db ++ es
                   /\ List.length es = List.length (data df)))).
Proof.
  rewrite load_case_file_to_db_cases.
  destruct (Sql.to_sql (filtered_df df case_id) (Sql.connect db)) as [[u|e] c1] eqn:Esql.
  2:{ pose proof (to_sql_committed (filtered_df df case_id) (Sql.connect db)) as Hc.
      rewrite Esql in Hc. cbn in Hc.
      intros H. inversion H; subst r c'. cbn.
      split; [reflexivity|]. split; [split; discriminate|]. intros _.
      rewrite Hc. eauto 10. }
  cbv zeta.
  destruct (to_sql_Ok_committed _ _ _ _ Esql) as [Hbill Hent].
  rewrite filtered_df_length in Hent.
  assert (len (filtered_df df case_id) = len df) as Hlen
    by (unfold len; now rewrite filtered_df_length).
  destruct (ExcelLoader.billing_rows df) as [rows|e].
  2:{ intros H. inversion H; subst r c'. cbn.
      split; [reflexivity|]. split; [split; discriminate|]. intros _.
      rewrite Hlen. split; [eauto|]. split; [reflexivity|]. split; [auto|].
      split; [exact Hbill|]. destruct Hent as [Hent|[Hcommits Hes]]; auto. }
  destruct (Sql.foldM _ 0 rows c1) as [[m|e] c2] eqn:Eloop.
  - intros H. inversion H; subst r c'. cbn.
    split; [reflexivity|]. split; [tauto|]. discriminate.
  - assert (Sql.committed c2 = Sql.committed c1) as Hc2.
    { eapply keeps_foldM; [|exact Eloop]. intros. apply keeps_billing_step. }
    intros H. inversion H; subst r c'. cbn.
    split; [reflexivity|]. split; [split; discriminate|]. intros _.
    rewrite Hlen, Hc2. split; [eauto|]. split; [reflexivity|]. split; [auto|].
    split; [exact Hbill|]. destruct Hent as [Hent|[Hcommits Hes]]; auto.
Qed.

Lemma loader_import_outcome_witness :
  exists r c',
    ExcelLoader.load_case_file_to_db (RT := World.runtime) (ST := World.store)
      World.untitled_billing_table 7 (Sql.connect World.empty_db) = (r, c')
    /\ Sql.working c' = Sql.committed c'
    /\ ExcelLoader.success r = false
    /\ ExcelLoader.billing_entries_added r = 0
    /\ Sql.billing_entries (Sql.committed c') = [].
Proof.
  do 2 eexists. split; [vm_compute; reflexivity|].
  match goal with
  | |- Sql.working ?c' = _ /\ ExcelLoader.success ?r = _ /\ _ =>
      destruct (loader_import_outcome (RT := World.runtime) (ST := World.store)
                  World.untitled_billing_table 7 World.empty_db r c' eq_refl)
        as [Hopen [_ Hfailed]];
      destruct (Hfailed eq_refl) as [_ [Hbilling [_ [Hcommitted _]]]]
  end.
  split; [exact Hopen|]. split; [reflexivity|].
  split; [exact Hbilling | exact Hcommitted].
Defined.

(** ** An import from the file to the database *)

Section EndToEnd.
Context {RT : Runtime} {ST : Sql.Store}.

Lemma loader_reads_only (file_path : string) :
  ~ In Connect (snd (ExcelLoader.load_data_to_dataframe file_path))
  /\ ~ In Close (snd (ExcelLoader.load_data_to_dataframe file_path)).
Proof.
  unfold ExcelLoader.load_data_to_dataframe. cbv zeta.
  destruct (String.eqb _ "excel"); [|destruct (String.eqb _ "csv")]; cbn;
    split; intros H; repeat (destruct H as [H|H]; [discriminate H|]); exact H.
Qed.

Lemma app_reads_only (file_path : string) (x : result DataFrame) (read : list event) :
  app_read file_path = Some (x, read) -> ~ In Connect read /\ ~ In Close read.
Proof.
  unfold app_read.
  destruct (PyStr.mem _ _); [|destruct (String.eqb _ ".csv")];
    intros H; inversion H; subst; cbn;
    split; intros Hin; repeat (destruct Hin as [Hin|Hin]; [discriminate Hin|]);
    exact Hin.
Qed.

(** The four ways [load_excel_to_db] of excel_loader.py ends. *)
Lemma loader_load_excel_cases (file_path : string) (db : Sql.Db) (case_id : Z) :
  ExcelLoader.load_excel_to_db file_path db case_id
  = let results := ExcelLoader.mkResults false MsgEmpty 0 None [] None in
    match ExcelLoader.load_data_to_dataframe file_path with
    | (Raise e, read) => (ExcelLoader.failed results e, db, read)
    | (Ok df, read) =>
        match Validation.validate_case_file_data df with
        | Raise e => (ExcelLoader.failed results e, db, read)
        | Ok v =>
            if Validation.valid v then
              (ExcelLoader.mkResults
                 (ExcelLoader.success
                    (fst (ExcelLoader.load_case_file_to_db df case_id (Sql.connect db))))
                 (if ExcelLoader.success
                       (fst (ExcelLoader.load_case_file_to_db df case_id (Sql.connect db)))
                  then MsgSuccess
                         (ExcelLoader.entries_added
                            (fst (ExcelLoader.load_case_file_to_db df case_id
                                    (Sql.connect db))))
                  else MsgEmpty)
                 (ExcelLoader.entries_added
                    (fst (ExcelLoader.load_case_file_to_db df case_id (Sql.connect db))))
                 (Some (ExcelLoader.billing_entries_added
                          (fst (ExcelLoader.load_case_file_to_db df case_id
                                  (Sql.connect db)))))
                 (ExcelLoader.errors
                    (fst (ExcelLoader.load_case_file_to_db df case_id (Sql.connect db))))
                 None,
               Sql.committed
                 (snd (ExcelLoader.load_case_file_to_db df case_id (Sql.connect db))),
               read ++ [ Connect; Close ])
            else
              (ExcelLoader.mkResults false MsgValidationFailed 0 None [] (Some v),
               db, read)
        end
    end.
Proof.
  unfold ExcelLoader.load_excel_to_db. cbv zeta.
  destruct (ExcelLoader.load_data_to_dataframe file_path) as [[df|e] read];
    [|reflexivity].
  destruct (Validation.validate_case_file_data df) as [v|e]; [|reflexivity].
  destruct (Validation.valid v); cbn [negb]; [|reflexivity].
  destruct (ExcelLoader.load_case_file_to_db df case_id (Sql.connect db)) as [r c].
  reflexivity.
Qed.

(** The ways [load_excel_to_db] of app.py ends. *)
Lemma app_load_excel_cases (file_path : string) (db : Sql.Db) (case_id : Z) :
  App.load_excel_to_db file_path db case_id
  = let results := App.mkResults false MsgEmpty 0 [] None in
    match app_read file_path with
    | None => (App.mkResults false (MsgUnsupported (extension file_path)) 0 [] None, db, [])
    | Some (Raise e, read) => (App.failed results e, db, read)
    | Some (Ok df, read) =>
        match App.validate_case_file_data df with
        | Raise e => (App.failed results e, db, read)
        | Ok v =>
            if App.valid v then
              match App.insert_data_to_db (App.prepare_data_for_db df case_id) case_id
                      (Sql.connect db) with
              | (Ok entries_added, c) =>
                  (App.mkResults true (MsgSuccess entries_added) entries_added [] None,
                   Sql.committed c, read ++ [ Connect; Close ])
              | (Raise e, c) =>
                  (App.failed results e, Sql.committed c, read ++ [ Connect ])
              end
            else (App.mkResults false MsgValidationFailed 0 [] (Some v), db, read)
        end
    end.
Proof.
  unfold App.load_excel_to_db, app_read, extension. cbv zeta.
  destruct (PyStr.mem _ _); [|destruct (String.eqb _ ".csv")]; try reflexivity;
    match goal with
    | |- context [match ?x with Ok _ => _ | Raise _ => _ end] => destruct x as [df|e]
    end; try reflexivity;
    destruct (App.validate_case_file_data df) as [v|e]; try reflexivity;
    destruct (App.valid v); reflexivity.
Qed.

End EndToEnd.



(** X18. [load_excel_to_db] of app.py, end to end: when it reports
    success, the file was read into a table that its validator found
    valid; the result carries the message of success, the number of
    rows as [entries_added] and no error; the database holds the import
    of that table (one new entry per row, one new billing entry linked
    to the entry of each billing row); and the connection was opened
    and closed after the read. *)
Theorem app_success_end_to_end {RT : Runtime} {ST : Sql.Store}
    (file_path : string) (db : Sql.Db) (case_id : Z)
    (res : App.Results) (db' : Sql.Db) (trace : list event) :
  App.load_excel_to_db file_path db case_id = (res, db', trace) ->
  App.success res = true ->
  exists df read v,
    app_read file_path = Some (Ok df, read)
    /\ App.validate_case_file_data df = Ok v
    /\ App.valid v = true
    /\ res = App.mkResults true (MsgSuccess (len df)) (len df) [] None
    /\ imported df db db'
    /\ trace = read ++ [ Connect; Close ].
Proof.
  rewrite app_load_excel_cases. cbv zeta.
  destruct (app_read file_path) as [[[df|e] read]|];
    try (intros H; inversion H; subst; discriminate).
  destruct (App.validate_case_file_data df) as [v|e] eqn:Ev;
    [|intros H; inversion H; subst; discriminate].
  destruct (App.valid v) eqn:Evalid;
    [|intros H; inversion H; subst; discriminate].
  destruct (App.insert_data_to_db _ case_id (Sql.connect db)) as [[n|e] c] eqn:E;
    [|intros H; inversion H; subst; discriminate].
  intros H _. inversion H; subst res db' trace. clear H.
  destruct (app_import_linked df case_id db n c E) as [-> Himp].
  exists df, read, v. auto 10.
Qed.

Lemma app_success_end_to_end_witness :
  exists df read v,
    app_read (RT := World.runtime) "cases.csv" = Some (Ok df, read)
    /\ App.validate_case_file_data df = Ok v
    /\ App.valid v = true
    /\ fst (fst (App.load_excel_to_db (RT := World.runtime) (ST := World.store)
                   "cases.csv" World.empty_db 7))
       = App.mkResults true (MsgSuccess (len df)) (len df) [] None
    /\ imported df World.empty_db
         (snd (fst (App.load_excel_to_db (RT := World.runtime) (ST := World.store)
                      "cases.csv" World.empty_db 7)))
    /\ snd (App.load_excel_to_db (RT := World.runtime) (ST := World.store)
              "cases.csv" World.empty_db 7)
       = read ++ [ Connect; Close ].
Proof.
  apply (app_success_end_to_end (RT := World.runtime) (ST := World.store)
           "cases.csv" World.empty_db 7);
    [ now destruct (App.load_excel_to_db (RT := World.runtime) (ST := World.store)
                      "cases.csv" World.empty_db 7) as [[? ?] ?]
    | vm_compute; reflexivity ].
Defined.

(** X19. Neither importer opens the database before the table is
    validated: [load_excel_to_db] connects exactly when the file was
    read into a table its validator found valid, and a call that does
    not connect fails and leaves the database as it was.
    excel_loader.py closes every connection it opens; app.py closes it
    exactly when the import succeeded, so a failed insert leaves the
    connection open. *)
Theorem connection_only_for_valid_table {RT : Runtime} {ST : Sql.Store}
    (file_path : string) (db : Sql.Db) (case_id : Z) :
  (forall res db' trace,
     ExcelLoader.load_excel_to_db file_path db case_id = (res, db', trace) ->
     (In Connect trace
      <-> exists df read v,
            ExcelLoader.load_data_to_dataframe file_path = (Ok df, read)
            /\ Validation.validate_case_file_data df = Ok v
            /\ Validation.valid v = true)
     /\ (In Close trace <-> In Connect trace)
     /\ (~ In Connect trace ->
         db' = db /\ ExcelLoader.r_success res = false
         /\ ExcelLoader.r_entries_added res = 0))
  /\ (forall res db' trace,
        App.load_excel_to_db file_path db case_id = (res, db', trace) ->
        (In Connect trace
         <-> exists df read v,
               app_read file_path = Some (Ok df, read)
               /\ App.validate_case_file_data df = Ok v
               /\ App.valid v = true)
        /\ (In Close trace <-> App.success res = true)
        /\ (~ In Connect trace ->
            db' = db /\ App.success res = false /\ App.entries_added res = 0)).
Proof.
  split; intros res db' trace.
  - rewrite loader_load_excel_cases. cbv zeta.
    destruct (loader_reads_only file_path) as [Hnc Hncl].
    destruct (ExcelLoader.load_data_to_dataframe file_path) as [[df|e] read];
      cbn [snd] in Hnc, Hncl.
    2:{ intros H. inversion H; subst. cbn.
        split; [|split; [tauto | auto]].
        split; [tauto | intros [df [rd [v [Hx _]]]]; discriminate]. }
    destruct (Validation.validate_case_file_data df) as [v|e] eqn:Ev.
    2:{ intros H. inversion H; subst. cbn.
        split; [|split; [tauto | auto]].
        split; [tauto|]. intros [df' [rd [v [Hx [Hv _]]]]].
        inversion Hx; subst. congruence. }
    destruct (Validation.valid v) eqn:Evalid.
    + intros H. inversion H; subst. clear H.
      assert (In Connect (read ++ [ Connect; Close ])) as Hc
        by (apply in_or_app; right; cbn; auto).
      assert (In Close (read ++ [ Connect; Close ])) as Hcl
        by (apply in_or_app; right; cbn; auto).
      split; [|split; [tauto | intros Hn; now elim Hn]].
      split; [intros _; exists df, read, v; auto | auto].
    + intros H. inversion H; subst. cbn.
      split; [|split; [tauto | auto]].
      split; [tauto|]. intros [df' [rd [v' [Hx [Hv Hvalid]]]]].
      inversion Hx; subst. congruence.
  - rewrite app_load_excel_cases. cbv zeta.
    destruct (app_read file_path) as [[[df|e] read]|] eqn:Eread.
    3:{ intros H. inversion H; subst. cbn.
        split; [|split; [split; [tauto | discriminate] | auto]].
        split; [tauto | intros [df [rd [v [Hx _]]]]; discriminate]. }
    2:{ destruct (app_reads_only _ _ _ Eread) as [Hnc Hncl].
        intros H. inversion H; subst. cbn.
        split; [|split; [split; [tauto | discriminate] | auto]].
        split; [tauto | intros [df [rd [v [Hx _]]]]; discriminate]. }
    destruct (app_reads_only _ _ _ Eread) as [Hnc Hncl].
    destruct (App.validate_case_file_data df) as [v|e] eqn:Ev.
    2:{ intros H. inversion H; subst. cbn.
        split; [|split; [split; [tauto | discriminate] | auto]].
        split; [tauto|]. intros [df' [rd [v [Hx [Hv _]]]]].
        inversion Hx; subst. congruence. }
    destruct (App.valid v) eqn:Evalid.
    + destruct (App.insert_data_to_db _ case_id (Sql.connect db)) as [[n|e] c];
        intros H; inversion H; subst; clear H; cbn [App.success App.failed].
      * assert (In Connect (read ++ [ Connect; Close ])) as Hc
          by (apply in_or_app; right; cbn; auto).
        assert (In Close (read ++ [ Connect; Close ])) as Hcl
          by (apply in_or_app; right; cbn; auto).
        split; [|split; [tauto | intros Hn; now elim Hn]].
        split; [intros _; exists df, read, v; auto | auto].
      * assert (In Connect (read ++ [ Connect ])) as Hc
          by (apply in_or_app; right; cbn; auto).
        assert (~ In Close (read ++ [ Connect ])) as Hcl.
        { intros Hin. apply in_app_or in Hin. destruct Hin as [Hin|[Hin|[]]];
            [tauto | discriminate Hin]. }
        split; [|split; [split; [tauto | discriminate] | intros Hn; now elim Hn]].
        split; [intros _; exists df, read, v; auto | auto].
    + intros H. inversion H; subst. cbn.
      split; [|split; [split; [tauto | discriminate] | auto]].
      split; [tauto|]. intros [df' [rd [v' [Hx [Hv Hvalid]]]]].
      inversion Hx; subst. congruence.
Qed.

(** ** The values of the prepared table of app.py *)

Section PreparedValues.
Context {RT : Runtime}.

Lemma lookup_map_col_same (cols : list string) (col : string) (f : cell -> cell) :
  forall vals,
    lookup (series cols (Frame.map_col cols col f vals)) col
    = option_map f (lookup (series cols vals) col).
Proof.
  induction cols as [|c cs IH]; intros vals; cbn [series Frame.map_col lookup hd tl];
    [reflexivity|].
  destruct (String.eqb c col); [reflexivity | apply IH].
Qed.

Lemma column_update_column_same (df : DataFrame) (col : string) (f : cell -> cell) :
  In col (columns df) ->
  Frame.column (Frame.update_column df col f) col = map f (Frame.column df col).
Proof.
  intros Hin. unfold Frame.column, Frame.update_column. cbn [columns data].
  rewrite !map_map. apply map_ext. intros vals. unfold get.
  rewrite lookup_map_col_same.
  destruct (lookup_series (columns df) col vals Hin) as [v ->]. reflexivity.
Qed.

Lemma coerce_datetime_fixed (l : list cell) :
  Frame.is_datetime64_dtype l = true -> map Frame.coerce_datetime l = l.
Proof.
  unfold Frame.is_datetime64_dtype. induction l as [|c l IH]; [reflexivity|].
  cbn [forallb map]. intros H. apply andb_true_iff in H. destruct H as [Hc Hl].
  rewrite (IH Hl). destruct c; try discriminate Hc; reflexivity.
Qed.

Lemma column_coerce_date_columns_in (date_columns : list string) (c : string) :
  NoDup date_columns -> In c date_columns ->
  forall df, In c (columns df) ->
    Frame.column (Frame.coerce_date_columns date_columns df) c
    = map Frame.coerce_datetime (Frame.column df c).
Proof.
  unfold Frame.coerce_date_columns.
  induction date_columns as [|col cols IH]; intros Hnd Hin df Hc; [destruct Hin|].
  inversion Hnd as [|? ? Hnotin Hnd']; subst. cbn [fold_left].
  destruct (String.eqb_spec col c) as [->|Hne].
  - fold (Frame.coerce_date_columns cols
            (if PyStr.mem c (columns df)
             then if negb (Frame.is_datetime64_dtype (Frame.column df c))
                  then Frame.update_column df c Frame.coerce_datetime
                  else df
             else df)).
    rewrite (column_coerce_date_columns cols c Hnotin).
    rewrite (proj2 (mem_true_iff c (columns df)) Hc).
    destruct (Frame.is_datetime64_dtype (Frame.column df c)) eqn:E; cbn [negb].
    + symmetry. now apply coerce_datetime_fixed.
    + now apply column_update_column_same.
  - destruct Hin as [Heq|Hin]; [congruence|].
    destruct (PyStr.mem col (columns df)); [|now apply IH].
    destruct (negb (Frame.is_datetime64_dtype (Frame.column df col))); [|now apply IH].
    rewrite IH; [|assumption|assumption|exact Hc].
    now rewrite column_update_column by congruence.
Qed.

Lemma lookup_series_map_inj (new_name : string -> string) (c : string)
    (cols : list string) :
  (forall c', In c' cols -> new_name c' = new_name c -> c' = c) ->
  forall vals,
    lookup (series (map new_name cols) vals) (new_name c) = lookup (series cols vals) c.
Proof.
  induction cols as [|c0 cs IH]; intros Hinj vals; cbn [map series lookup];
    [reflexivity|].
  destruct (String.eqb_spec c0 c) as [->|Hne].
  - now rewrite String.eqb_refl.
  - destruct (String.eqb_spec (new_name c0) (new_name c)) as [Heq|_].
    + elim Hne. apply Hinj; [now left | exact Heq].
    + apply IH. intros c' Hc'. apply Hinj. now right.
Qed.

Lemma NoDup_map_inj {A B : Type} (g : A -> B) (xs : list A) :
  NoDup (map g xs) -> forall x y, In x xs -> In y xs -> g x = g y -> x = y.
Proof.
  induction xs as [|a xs IH]; intros Hnd x y Hx Hy Heq; [destruct Hx|].
  cbn [map] in Hnd. inversion Hnd as [|? ? Hnotin Hnd']; subst.
  destruct Hx as [<-|Hx]; destruct Hy as [<-|Hy]; auto.
  - elim Hnotin. rewrite Heq. now apply in_map.
  - elim Hnotin. rewrite <- Heq. now apply in_map.
Qed.

Lemma column_rename (df : DataFrame) (c : string) :
  (forall c', In c' (columns df) -> storage_name c' = storage_name c -> c' = c) ->
  Frame.column (Frame.rename df App.column_mapping) (storage_name c) = Frame.column df c.
Proof.
  intros Hinj. unfold Frame.column, Frame.rename. cbn [columns data].
  apply map_ext. intros vals. unfold get.
  change (map _ (columns df)) with (map storage_name (columns df)).
  now rewrite lookup_series_map_inj.
Qed.

Lemma lookup_series_last (cols : list string) (col : string) (v : cell) :
  ~ In col cols ->
  forall vals,
    lookup (series (cols ++ [col]) (map snd (series cols vals) ++ [v])) col = Some v.
Proof.
  induction cols as [|c cs IH]; intros Hnotin vals; cbn [app series map snd lookup hd tl].
  - now rewrite String.eqb_refl.
  - destruct (String.eqb_spec c col) as [->|_]; [elim Hnotin; now left|].
    apply IH. intros H. apply Hnotin. now right.
Qed.

Lemma column_assign_same (df : DataFrame) (col : string) (v : cell) :
  Frame.column (Frame.assign df col v) col = map (fun _ => v) (data df).
Proof.
  unfold Frame.assign. destruct (PyStr.mem col (columns df)) eqn:E.
  - rewrite column_update_column_same by now apply mem_true_iff.
    unfold Frame.column. now rewrite map_map.
  - unfold Frame.column. cbn [columns data]. rewrite map_map.
    apply map_ext. intros vals. unfold get.
    rewrite lookup_series_last; [reflexivity | now apply mem_false_iff].
Qed.

Lemma storage_name_case_id (c : string) : storage_name c = "case_id" -> c = "case_id".
Proof.
  unfold storage_name, App.column_mapping. cbn [find fst snd].
  repeat match goal with
         | |- context [String.eqb ?a c] => destruct (String.eqb a c); [discriminate|]
         end.
  auto.
Qed.

Lemma storage_name_known (c : string) :
  In c [ "from"; "to"; "cc"; "billing-start"; "billing-stop"; "billing-hrs" ]
  \/ storage_name c = c.
Proof.
  unfold storage_name, App.column_mapping. cbn [find fst snd].
  repeat match goal with
         | |- context [String.eqb ?a c] =>
             destruct (String.eqb_spec a c); [subst; left; cbn; auto 10|]
         end.
  now right.
Qed.

End PreparedValues.

Section PreparedTable.
Context {RT : Runtime}.

Lemma columns_assign (df : DataFrame) (col : string) (v : cell) (c : string) :
  In c (columns (Frame.assign df col v)) <-> In c (columns df) \/ c = col.
Proof.
  unfold Frame.assign. destruct (PyStr.mem col (columns df)) eqn:E; cbn [columns].
  - unfold Frame.update_column. cbn [columns]. apply mem_true_iff in E.
    split; [auto | intros [H| ->]; assumption].
  - rewrite in_app_iff. cbn. intuition congruence.
Qed.

Lemma coerce_datetime_dated (c : cell) :
  is_timestamp (Frame.coerce_datetime c) || isna (Frame.coerce_datetime c) = true.
Proof.
  destruct c; cbn; try reflexivity; destruct (to_datetime _) as [[t|]|]; reflexivity.
Qed.

(** The columns of the prepared table, read off the spreadsheet. *)
Lemma prepared_column (df : DataFrame) (case_id : Z) (col : string) :
  NoDup (map storage_name (columns df)) ->
  In col (columns df) -> col <> "case_id" ->
  Frame.column (App.prepare_data_for_db df case_id) (storage_name col)
  = if PyStr.mem (storage_name col) App.date_columns
    then map Frame.coerce_datetime (Frame.column df col)
    else Frame.column df col.
Proof.
  intros Hnd Hin Hne. unfold App.prepare_data_for_db.
  set (a := Frame.assign df "case_id" (CNum (inject_Z case_id))).
  assert (Frame.column (Frame.rename a App.column_mapping) (storage_name col)
          = Frame.column df col) as Hb.
  { rewrite column_rename.
    - apply column_assign. exact Hne.
    - intros c' Hc' Heq. apply columns_assign in Hc'. destruct Hc' as [Hc'| ->].
      + exact (NoDup_map_inj storage_name _ Hnd c' col Hc' Hin Heq).
      + elim Hne. apply storage_name_case_id. now rewrite <- Heq. }
  destruct (PyStr.mem (storage_name col) App.date_columns) eqn:E.
  - rewrite column_coerce_date_columns_in.
    + now rewrite Hb.
    + repeat constructor; cbn; intuition discriminate.
    + now apply mem_true_iff.
    + unfold Frame.rename. cbn [columns].
      change (map _ (columns a)) with (map storage_name (columns a)).
      apply in_map. apply columns_assign. now left.
  - rewrite column_coerce_date_columns; [exact Hb | now apply mem_false_iff].
Qed.

Lemma prepared_case_id (df : DataFrame) (case_id : Z) :
  Frame.column (App.prepare_data_for_db df case_id) "case_id"
  = map (fun _ => CNum (inject_Z case_id)) (data df).
Proof.
  unfold App.prepare_data_for_db.
  rewrite column_coerce_date_columns by (cbn; intuition discriminate).
  pose proof (column_rename (Frame.assign df "case_id" (CNum (inject_Z case_id)))
                "case_id"
                (fun c' _ Heq => storage_name_case_id c' Heq)) as Hrename.
  change (storage_name "case_id") with "case_id" in Hrename.
  rewrite Hrename. apply column_assign_same.
Qed.

End PreparedTable.

(** X20. [prepare_data_for_db] of app.py, on a spreadsheet whose
    columns have distinct storage names: the prepared table has as many
    rows as the spreadsheet; its column [case_id] holds the case
    identifier in every row; every other column of the spreadsheet is
    found under its storage name, with its values unchanged, except
    that the values of [date], [billing_start] and [billing_stop] are
    coerced, so that each of them is a timestamp or empty. *)
Theorem prepared_table_values {RT : Runtime} (df : DataFrame) (case_id : Z) :
  NoDup (map storage_name (columns df)) ->
  List.length (data (App.prepare_data_for_db df case_id)) = List.length (data df)
  /\ Frame.column (App.prepare_data_for_db df case_id) "case_id"
     = map (fun _ => CNum (inject_Z case_id)) (data df)
  /\ forall col,
       In col (columns df) -> col <> "case_id" ->
       (PyStr.mem (storage_name col) App.date_columns = false ->
        Frame.column (App.prepare_data_for_db df case_id) (storage_name col)
        = Frame.column df col)
       /\ (PyStr.mem (storage_name col) App.date_columns = true ->
           Frame.column (App.prepare_data_for_db df case_id) (storage_name col)
           = map Frame.coerce_datetime (Frame.column df col)
           /\ forall v,
                In v (Frame.column (App.prepare_data_for_db df case_id)
                        (storage_name col)) ->
                is_timestamp v || isna v = true).
Proof.
  intros Hnd. split; [apply prepare_length|]. split; [apply prepared_case_id|].
  intros col Hin Hne. rewrite (prepared_column df case_id col Hnd Hin Hne).
  split; intros ->; [reflexivity|]. split; [reflexivity|].
  intros v Hv. apply in_map_iff in Hv. destruct Hv as [c [<- _]].
  apply coerce_datetime_dated.
Qed.

Lemma prepared_table_values_witness :
  Frame.column (App.prepare_data_for_db (RT := Desk.runtime) Desk.text_times_table 7)
    "case_id"
  = [ CNum 7 ]
  /\ Frame.column (App.prepare_data_for_db (RT := Desk.runtime) Desk.text_times_table 7)
       "from_party"
     = [ CText "a" ]
  /\ Frame.column (App.prepare_data_for_db (RT := Desk.runtime) Desk.text_times_table 7)
       "billing_start"
     = [ CTime (World.at_time 9 0) ].
Proof.
  assert (NoDup (map storage_name (columns Desk.text_times_table))) as Hnd.
  { repeat (constructor;
            [ cbn; intros H; repeat (destruct H as [H|H]; [discriminate H|]); exact H | ]).
    constructor. }
  destruct (prepared_table_values (RT := Desk.runtime) Desk.text_times_table 7 Hnd)
    as [_ [Hcase Hcols]].
  split; [exact Hcase|]. split.
  - destruct (Hcols "from") as [Hkept _]; [cbn; auto | discriminate|].
    exact (Hkept eq_refl).
  - destruct (Hcols "billing-start") as [_ Hdated]; [cbn; auto 20 | discriminate|].
    destruct (Hdated eq_refl) as [Hvalues _]. exact Hvalues.
Defined.

(** ** What the billing entries of excel_loader.py hold *)

Section LoaderBillingValues.
Context {RT : Runtime} {ST : Sql.Store}.
Import Sql.


Lemma insert_billing_values (values : BillingValues) (c c1 : Conn) :
  insert_billing values c = (Ok tt, c1) ->
  exists b, wrote c c1 [] [b] /\ billing_values b = values.
Proof.
  unfold insert_billing.
  destruct (billing_ok (working c) values); [|discriminate].
  intros H. inversion H; subst.
  exists (mkBilling (next_rowid (map billing_id (billing_entries (working c)))) values).
  split; [|reflexivity].
  unfold wrote. cbn. rewrite app_nil_r. auto.
Qed.



End LoaderBillingValues.



(** ** What the entries and billing entries of app.py hold *)

Section AppStoredValues.
Context {RT : Runtime} {ST : Sql.Store}.
Import Sql.

Lemma getitem_has_label (row : Row) (label : string) (v : cell) :
  getitem row label = Ok v -> has_label row label = true /\ get row label = v.
Proof.
  unfold getitem, has_label, get. destruct (lookup row label); [|discriminate].
  intros H. inversion H. auto.
Qed.

Lemma create_billing_entry_values (case_id entry_id : Z) (row : Row) (c c1 : Conn) :
  App.create_billing_entry case_id entry_id row c = (Ok tt, c1) ->
  exists b,
    wrote c c1 [] [b]
    /\ billing_values b
       = mkBillingValues case_id entry_id (stored_category (get row "title"))
           (App.format_timestamp (get row "billing_start"))
           (App.format_timestamp (get row "billing_stop"))
           (get row "billing_hrs") (get row "content")
    /\ forall label,
         In label [ "title"; "billing_start"; "billing_stop"; "billing_hrs"; "content" ] ->
         has_label row label = true.
Proof.
  unfold App.create_billing_entry, bind, liftR, stored_category.
  destruct (getitem row "title") as [title|e] eqn:E1; [|discriminate].
  destruct (getitem_has_label _ _ _ E1) as [L1 ->].
  change (App.billing_category title) with (ExcelLoader.billing_category title).
  destruct (ExcelLoader.billing_category title) as [cat|e]; [|discriminate].
  destruct (getitem row "billing_start") as [start|e] eqn:E2; [|discriminate].
  destruct (getitem_has_label _ _ _ E2) as [L2 ->].
  destruct (getitem row "billing_stop") as [stop|e] eqn:E3; [|discriminate].
  destruct (getitem_has_label _ _ _ E3) as [L3 ->].
  destruct (getitem row "billing_hrs") as [hrs|e] eqn:E4; [|discriminate].
  destruct (getitem_has_label _ _ _ E4) as [L4 ->].
  destruct (getitem row "content") as [content|e] eqn:E5; [|discriminate].
  destruct (getitem_has_label _ _ _ E5) as [L5 ->].
  intros H. apply insert_billing_values in H. destruct H as [b [Hw Hb]].
  exists b. split; [exact Hw|]. split; [exact Hb|].
  intros label Hin. cbn in Hin.
  repeat (destruct Hin as [<-|Hin]; [assumption|]). contradiction.
Qed.

Lemma insert_entry_values (values : list (string * cell)) (c c1 : Conn) :
  insert_entry values c = (Ok tt, c1) ->
  exists e, wrote c c1 [e] [] /\ entry_values e = values /\ last_rowid c1 = entry_id e.
Proof.
  unfold insert_entry.
  destruct (entry_ok (working c) values); [|discriminate].
  intros H. inversion H; subst.
  exists (mkEntry (next_rowid (map entry_id (entries (working c)))) values).
  split; [|split; reflexivity].
  unfold wrote. cbn. rewrite app_nil_r. auto.
Qed.

Lemma insert_row_values (case_id : Z) (cols : list string) (n : Z) (it : Z * Row)
    (c c1 : Conn) (m : Z) :
  App.insert_row case_id cols n it c = (Ok m, c1) ->
  exists w, wrote c c1 [fst w] (snd w) /\ row_written case_id cols (snd it) w.
Proof.
  unfold App.insert_row, bind, lastrowid, liftR.
  destruct (insert_entry _ c) as [[[]|e] c0] eqn:E; [|discriminate].
  apply insert_entry_values in E. destruct E as [e [Hw [Hvalues Hlast]]].
  destruct (getitem (snd it) "type") as [ty|ex] eqn:Ety; [|discriminate].
  destruct (getitem_has_label _ _ _ Ety) as [Lty Hty].
  unfold row_written, is_billing. rewrite Hty.
  destruct (cell_is ty "billing-type").
  - destruct (App.create_billing_entry case_id (last_rowid c0) (snd it) c0)
      as [[[]|ex] c2] eqn:Eb; [|discriminate].
    intros H. inversion H; subst. clear H.
    apply create_billing_entry_values in Eb. destruct Eb as [b [Hw' [Hb Hlabels]]].
    exists (e, [b]). cbn [fst snd].
    split; [apply (wrote_trans _ _ _ [e] [] [] [b] Hw Hw')|].
    split; [exact Hvalues|]. split; [exact Lty|]. exists b. rewrite <- Hlast. auto.
  - intros H. inversion H; subst. clear H.
    exists (e, []). cbn [fst snd]. auto.
Qed.

Lemma insert_rows_values (case_id : Z) (cols : list string) (rows : list (Z * Row)) :
  forall n c m c1,
    foldM (App.insert_row case_id cols) n rows c = (Ok m, c1) ->
    exists ws,
      wrote c c1 (map fst ws) (List.concat (map snd ws))
      /\ Forall2 (fun it w => row_written case_id cols (snd it) w) rows ws.
Proof.
  induction rows as [|it rows IH]; intros n c m c1 H.
  - inversion H; subst. exists []. split; [apply wrote_refl | constructor].
  - cbn [foldM] in H. unfold bind in H.
    destruct (App.insert_row case_id cols n it c) as [[n'|e] c0] eqn:E; [|discriminate].
    apply insert_row_values in E. destruct E as [w [Hw Hrow]].
    apply IH in H. destruct H as [ws [Hw' Hrows]].
    exists (w :: ws). split; [|now constructor].
    cbn [map List.concat].
    exact (wrote_trans _ _ _ [fst w] (map fst ws) (snd w) _ Hw Hw').
Qed.

Lemma combine_series (cols : list string) (g : string -> cell) :
  combine cols (map g cols) = series cols (map g cols).
Proof.
  induction cols as [|c cs IH]; [reflexivity|].
  cbn [map combine series hd tl]. now rewrite IH.
Qed.

Lemma has_label_select (g : string -> cell) (cols : list string) (col : string) :
  has_label (series cols (map g cols)) col = PyStr.mem col cols.
Proof.
  unfold has_label. rewrite lookup_select. now destruct (PyStr.mem col cols).
Qed.

Lemma column_nth (df : DataFrame) (col : string) (k : nat) (vals : list cell) :
  nth_error (data df) k = Some vals ->
  nth_error (Frame.column df col) k = Some (get (series (columns df) vals) col).
Proof.
  intros H. unfold Frame.column.
  exact (map_nth_error (fun vals => get (series (columns df) vals) col) k (data df) H).
Qed.

Lemma Forall2_nth {A B : Type} (R : A -> B -> Prop) (xs : list A) (ys : list B) :
  List.length xs = List.length ys ->
  (forall k x y, nth_error xs k = Some x -> nth_error ys k = Some y -> R x y) ->
  Forall2 R xs ys.
Proof.
  revert ys. induction xs as [|x xs IH]; intros [|y ys] Hlen H; try discriminate.
  - constructor.
  - constructor.
    + apply (H 0%nat); reflexivity.
    + apply IH; [now inversion Hlen|].
      intros k x' y' Hx Hy. apply (H (S k)); assumption.
Qed.

Lemma Forall2_nth_inv {A B : Type} (R : A -> B -> Prop) (xs : list A) (ys : list B) :
  Forall2 R xs ys ->
  List.length xs = List.length ys
  /\ forall k x y, nth_error xs k = Some x -> nth_error ys k = Some y -> R x y.
Proof.
  induction 1 as [|x y xs ys Hxy _ [Hlen IH]]; split; try reflexivity.
  - intros [|k] x y H; discriminate H.
  - cbn. now rewrite Hlen.
  - intros [|k] x' y' Hx Hy; cbn in Hx, Hy.
    + inversion Hx; inversion Hy; subst. exact Hxy.
    + exact (IH k x' y' Hx Hy).
Qed.

End AppStoredValues.

Section AppStoredRows.
Context {RT : Runtime} {ST : Sql.Store}.
Import Sql.

(** A cell of the prepared table, read off the spreadsheet. *)
Lemma prepared_cell (df : DataFrame) (case_id : Z) (col : string) (k : nat)
    (vals pvals : list cell) :
  NoDup (map storage_name (columns df)) ->
  In col (columns df) -> col <> "case_id" ->
  nth_error (data df) k = Some vals ->
  nth_error (data (App.prepare_data_for_db df case_id)) k = Some pvals ->
  get (series (columns (App.prepare_data_for_db df case_id)) pvals) (storage_name col)
  = if PyStr.mem (storage_name col) App.date_columns
    then Frame.coerce_datetime (get (series (columns df) vals) col)
    else get (series (columns df) vals) col.
Proof.
  intros Hnd Hin Hne Hk Hpk.
  pose proof (column_nth _ (storage_name col) k pvals Hpk) as Hp.
  pose proof (column_nth _ col k vals Hk) as Hd.
  rewrite (prepared_column df case_id col Hnd Hin Hne) in Hp.
  destruct (PyStr.mem (storage_name col) App.date_columns).
  - rewrite (map_nth_error Frame.coerce_datetime k _ Hd) in Hp. now inversion Hp.
  - rewrite Hd in Hp. now inversion Hp.
Qed.

Lemma prepared_cell_case_id (df : DataFrame) (case_id : Z) (k : nat)
    (pvals : list cell) :
  nth_error (data (App.prepare_data_for_db df case_id)) k = Some pvals ->
  get (series (columns (App.prepare_data_for_db df case_id)) pvals) "case_id"
  = CNum (inject_Z case_id).
Proof.
  intros Hpk. pose proof (column_nth _ "case_id" k pvals Hpk) as Hp.
  rewrite prepared_case_id in Hp.
  rewrite nth_error_map in Hp.
  destruct (nth_error (data df) k); cbn in Hp; [now inversion Hp | discriminate].
Qed.

Lemma prepared_has_case_id (df : DataFrame) (case_id : Z) :
  In "case_id" (columns (App.prepare_data_for_db df case_id)).
Proof.
  rewrite columns_prepare. destruct (PyStr.mem "case_id" (columns df)) eqn:E.
  - rewrite app_nil_r. apply mem_true_iff in E.
    exact (in_map storage_name _ _ E).
  - apply in_or_app. right. now left.
Qed.

(** What [insert_row] writes for the row of the filtered table, said of
    the row of the spreadsheet. *)
Lemma row_written_stored (df : DataFrame) (case_id : Z) (k : nat)
    (vals pvals : list cell) (w : Entry * list Billing) :
  NoDup (map storage_name (columns df)) ->
  (forall col, In col known_columns -> In col (columns df)) ->
  nth_error (data df) k = Some vals ->
  nth_error (data (App.prepare_data_for_db df case_id)) k = Some pvals ->
  let p := App.prepare_data_for_db df case_id in
  let cols := filter (fun col => PyStr.mem col table_columns) (columns p) in
  row_written case_id cols
    (series cols (map (get (series (columns p) pvals)) cols)) w ->
  row_stored df case_id vals w.
Proof.
  intros Hnd Hknown Hk Hpk p cols [Hvalues [Ltype Hbilling]].
  set (prow := series (columns p) pvals) in *.
  set (row := series (columns df) vals).
  rewrite combine_series in Hvalues.
  assert (forall label, In label cols <-> In label (columns p) /\ In label table_columns)
    as Hcols.
  { intros label. unfold cols. rewrite filter_In, mem_true_iff. reflexivity. }
  assert (forall label,
            In label cols ->
            get (entry_values (fst w)) label = App.format_timestamp (get prow label))
    as Hget.
  { intros label Hin. apply mem_true_iff in Hin.
    rewrite Hvalues, get_select by exact Hin. now rewrite get_select. }
  assert (forall col, In col (columns df) -> col <> "case_id" ->
                      get prow (storage_name col)
                      = if PyStr.mem (storage_name col) App.date_columns
                        then Frame.coerce_datetime (get row col)
                        else get row col) as Hcell.
  { intros col Hin Hne. exact (prepared_cell df case_id col k vals pvals Hnd Hin Hne Hk Hpk). }
  assert (forall col, In col known_columns ->
                      In col (columns df) /\ col <> "case_id") as Hk'.
  { intros col Hin. split; [now apply Hknown|].
    intros ->. cbn in Hin. repeat (destruct Hin as [Hin|Hin]; [discriminate Hin|]).
    exact Hin. }
  assert (forall label, has_label (series cols (map (get prow) cols)) label = true ->
                        In label cols
                        /\ get (series cols (map (get prow) cols)) label = get prow label)
    as Hlabel.
  { intros label H. rewrite has_label_select in H.
    split; [now apply mem_true_iff | now apply get_select]. }
  split; [|split; [|split]].
  - intros col Hin Hne Htable.
    rewrite Hget.
    + unfold stored_value. now rewrite (Hcell col Hin Hne).
    + apply Hcols. split; [|exact Htable].
      unfold p. rewrite columns_prepare. apply in_or_app. left. now apply in_map.
  - intros Htable. rewrite Hget.
    + unfold prow, p. now rewrite (prepared_cell_case_id df case_id k pvals Hpk).
    + apply Hcols. split; [apply prepared_has_case_id | exact Htable].
  - intros label H. rewrite Hvalues, has_label_select in H.
    apply mem_true_iff in H. now apply Hcols.
  - destruct (Hlabel "type" Ltype) as [_ Htype].
    destruct (Hk' "type") as [Hin Hne]; [cbn; auto|].
    pose proof (Hcell "type" Hin Hne) as Hty.
    change (storage_name "type") with "type" in Hty. cbn [PyStr.mem existsb] in Hty.
    cbn in Hty.
    unfold is_billing in Hbilling. rewrite Htype, Hty in Hbilling.
    unfold billing_row. fold row.
    destruct (cell_is (get row "type") "billing-type"); [|exact Hbilling].
    destruct Hbilling as [b [Hsnd [Hb Hlabels]]].
    exists b. split; [exact Hsnd|]. rewrite Hb. unfold app_billing_values.
    destruct (Hlabel "title") as [_ ->]; [apply Hlabels; cbn; auto|].
    destruct (Hlabel "billing_start") as [_ ->]; [apply Hlabels; cbn; auto|].
    destruct (Hlabel "billing_stop") as [_ ->]; [apply Hlabels; cbn; auto|].
    destruct (Hlabel "billing_hrs") as [_ ->]; [apply Hlabels; cbn; auto 10|].
    destruct (Hlabel "content") as [_ ->]; [apply Hlabels; cbn; auto 10|].
    destruct (Hk' "title") as [H1 N1]; [cbn; auto|].
    destruct (Hk' "billing-start") as [H2 N2]; [cbn; auto 20|].
    destruct (Hk' "billing-stop") as [H3 N3]; [cbn; auto 20|].
    destruct (Hk' "billing-hrs") as [H4 N4]; [cbn; auto 20|].
    destruct (Hk' "content") as [H5 N5]; [cbn; auto 20|].
    pose proof (Hcell "title" H1 N1) as C1.
    pose proof (Hcell "billing-start" H2 N2) as C2.
    pose proof (Hcell "billing-stop" H3 N3) as C3.
    pose proof (Hcell "billing-hrs" H4 N4) as C4.
    pose proof (Hcell "content" H5 N5) as C5.
    cbn in C1, C2, C3, C4, C5. rewrite C1, C2, C3, C4, C5.
    reflexivity.
Qed.

End AppStoredRows.

(** X22. What a successful import of app.py stores, for a spreadsheet
    that has the required and the billing columns under distinct
    storage names. The new entries are one per row, in the order of the
    rows. The entry of a row holds, under the storage name of each
    column that [case_file_entries] has, the row's cell: coerced to a
    timestamp (empty when it does not parse) in [date], [billing_start]
    and [billing_stop], and every timestamp as the text [strftime]
    gives; it holds the case identifier under [case_id], and no column
    the table has not. A billing row has one billing entry, right after
    its entry and linked to it, with the case identifier, the category
    read off the title, the stored start and stop, and the row's
    [billing-hrs] and [content]; any other row has none. A stored date
    is never a timestamp object. *)
Theorem app_stored_values {RT : Runtime} {ST : Sql.Store} (df : DataFrame)
    (case_id : Z) (db : Sql.Db) (n : Z) (c' : Sql.Conn) :
  NoDup (map storage_name (columns df)) ->
  (forall col, In col known_columns -> In col (columns df)) ->
  App.insert_data_to_db (App.prepare_data_for_db df case_id) case_id (Sql.connect db)
  = (Ok n, c') ->
  (exists ws,
     Sql.entries (Sql.committed c') = Sql.entries db ++ map fst ws
     /\ Sql.billing_entries (Sql.committed c')
        = Sql.billing_entries db ++ List.concat (map snd ws)
     /\ Forall2 (row_stored df case_id) (data df) ws)
  /\ forall col v,
       PyStr.mem (storage_name col) App.date_columns = true ->
       is_timestamp (stored_value col v) = false.
Proof.
  intros Hnd Hknown H. split.
  - unfold App.insert_data_to_db, Sql.try_except, Sql.bind in H.
    destruct (Sql.foldM _ 0 _ (Sql.connect db)) as [[m|e] c1] eqn:E; [|discriminate].
    inversion H; subst n c'. clear H. cbn [Sql.committed].
    apply insert_rows_values in E. destruct E as [ws [[_ [He Hb]] Hrows]].
    cbn [Sql.connect Sql.working] in He, Hb.
    exists ws. split; [exact He|]. split; [exact Hb|].
    rewrite iterrows_select in Hrows. unfold enumerate in Hrows.
    apply Forall2_nth_inv in Hrows. destruct Hrows as [Hlen Hrows].
    rewrite enumerate_from_length, length_map, prepare_length in Hlen.
    apply Forall2_nth; [exact Hlen|].
    intros k vals w Hk Hw.
    destruct (nth_error (data (App.prepare_data_for_db df case_id)) k) as [pvals|] eqn:Hpk.
    2:{ apply nth_error_None in Hpk. rewrite prepare_length in Hpk.
        assert (k < List.length (data df))%nat by (apply nth_error_Some; congruence).
        lia. }
    apply (row_written_stored df case_id k vals pvals w Hnd Hknown Hk Hpk).
    apply (Hrows k (0 + Z.of_nat k, _) w); [|exact Hw].
    rewrite enumerate_from_nth, nth_error_map, Hpk. reflexivity.
  - intros col v Hdate. unfold stored_value. rewrite Hdate.
    destruct v; cbn; try reflexivity; destruct (to_datetime _) as [[t|]|]; reflexivity.
Qed.

Lemma app_stored_values_witness :
  exists n c' ws,
    App.insert_data_to_db (RT := World.runtime) (ST := World.store)
      (App.prepare_data_for_db (RT := World.runtime) World.good_table 7) 7
      (Sql.connect World.empty_db) = (Ok n, c')
    /\ Sql.entries (Sql.committed c') = map fst ws
    /\ Forall2 (row_stored (RT := World.runtime) (ST := World.store) World.good_table 7)
         (data World.good_table) ws.
Proof.
  destruct (App.insert_data_to_db (RT := World.runtime) (ST := World.store)
              (App.prepare_data_for_db (RT := World.runtime) World.good_table 7) 7
              (Sql.connect World.empty_db)) as [[n|e] c'] eqn:E;
    [|vm_compute in E; discriminate E].
  assert (NoDup (map storage_name (columns World.good_table))) as Hnd.
  { repeat (constructor;
            [ cbn; intros H; repeat (destruct H as [H|H]; [discriminate H|]); exact H | ]).
    constructor. }
  assert (forall col, In col known_columns -> In col (columns World.good_table))
    as Hknown.
  { intros col H. cbn in H.
    repeat (destruct H as [<-|H]; [cbn; auto 20|]). contradiction. }
  destruct (app_stored_values (RT := World.runtime) (ST := World.store)
              World.good_table 7 World.empty_db n c' Hnd Hknown E)
    as [[ws [He [_ Hrows]]] _].
  exists n, c', ws. split; [reflexivity|]. split; [exact He | exact Hrows].
Defined.

(** ** A billing row without a billing column, in app.py *)

Section MissingBillingColumn.
Context {RT : Runtime} {ST : Sql.Store}.
Import Sql.

Lemma foldM_raises {S A B : Type} (body : B -> A -> M S B) (x : A) (xs : list A) :
  (forall acc s, exists e s', body acc x s = (Raise e, s')) ->
  In x xs ->
  forall acc s, exists e s', foldM body acc xs s = (Raise e, s').
Proof.
  intros Hx. induction xs as [|y ys IH]; intros Hin acc s; [destruct Hin|].
  cbn [foldM]. unfold bind. destruct Hin as [->|Hin].
  - destruct (Hx acc s) as [e [s' ->]]. eauto.
  - destruct (body acc y s) as [[acc'|e] s']; [now apply IH | eauto].
Qed.

Lemma insert_row_raises (case_id n : Z) (cols : list string) (g : string -> cell)
    (idx : Z) (label : string) (c : Conn) :
  cell_is (g "type") "billing-type" = true ->
  In label [ "billing_start"; "billing_stop"; "billing_hrs" ] ->
  PyStr.mem label cols = false ->
  exists e c1,
    App.insert_row case_id cols n (idx, series cols (map g cols)) c = (Raise e, c1).
Proof.
  intros Hty Hlabel Hmem. unfold App.insert_row, bind. cbn [snd].
  destruct (insert_entry _ c) as [[[]|e] c1]; [|eauto].
  unfold lastrowid, liftR. rewrite getitem_select.
  destruct (PyStr.mem "type" cols); [|eauto].
  rewrite Hty.
  unfold App.create_billing_entry, bind, liftR. rewrite !getitem_select.
  destruct (PyStr.mem "title" cols); [|eauto].
  destruct (App.billing_category (g "title")); [|eauto].
  cbn in Hlabel. destruct Hlabel as [<-|[<-|[<-|[]]]]; rewrite ?Hmem; eauto;
    destruct (PyStr.mem "billing_start" cols); eauto;
    rewrite ?Hmem; eauto;
    destruct (PyStr.mem "billing_stop" cols); eauto;
    rewrite ?Hmem; eauto.
Qed.

Lemma storage_name_preimage (c col : string) :
  In col billing_columns ->
  storage_name c = storage_name col -> c = col \/ c = storage_name col.
Proof.
  intros Hin Heq. destruct (storage_name_known c) as [Hc|Hc].
  - cbn in Hin, Hc.
    destruct Hin as [<-|[<-|[<-|[]]]];
      repeat (destruct Hc as [<-|Hc]; [first [discriminate Heq | now left]|]);
      contradiction.
  - right. now rewrite <- Heq.
Qed.

End MissingBillingColumn.

(** X23. In app.py a billing row needs the three billing columns: when
    the spreadsheet has a row of type [billing-type] and lacks one of
    [billing-start], [billing-stop] and [billing-hrs] (under its own
    and under its storage name), [insert_data_to_db] raises on the
    prepared table, whatever the store accepts, and the database is
    rolled back to what it held; neither validator asks for these
    columns. *)
Theorem app_billing_row_needs_billing_columns {RT : Runtime} {ST : Sql.Store}
    (df : DataFrame) (case_id : Z) (db : Sql.Db) (col : string) (vals : list cell) :
  In col billing_columns ->
  ~ In col (columns df) ->
  ~ In (storage_name col) (columns df) ->
  In vals (data df) ->
  billing_row df vals = true ->
  (exists e c',
     App.insert_data_to_db (App.prepare_data_for_db df case_id) case_id (Sql.connect db)
     = (Raise e, c')
     /\ Sql.committed c' = db /\ Sql.working c' = db)
  /\ ~ In col Validation.required_columns
  /\ ~ In col App.required_columns.
Proof.
  intros Hcol Hnot Hnot' Hvals Hbilling. split.
  2:{ cbn in Hcol. destruct Hcol as [<-|[<-|[<-|[]]]]; split; cbn;
        intros H; repeat (destruct H as [H|H]; [discriminate H|]); exact H. }
  pose proof (app_insert_all_or_nothing (App.prepare_data_for_db df case_id) case_id
                (Sql.connect db)) as Hall.
  set (p := App.prepare_data_for_db df case_id) in *.
  set (cols := filter (fun c => PyStr.mem c Sql.table_columns) (columns p)).
  assert (PyStr.mem (storage_name col) cols = false) as Hmem.
  { apply mem_false_iff. intros Hin. unfold cols in Hin. apply filter_In in Hin.
    destruct Hin as [Hin _]. unfold p in Hin. rewrite columns_prepare in Hin.
    apply in_app_or in Hin. destruct Hin as [Hin|Hin].
    - apply in_map_iff in Hin. destruct Hin as [c [Heq Hc]].
      destruct (storage_name_preimage c col Hcol Heq) as [->| ->]; contradiction.
    - destruct (PyStr.mem "case_id" (columns df)); [destruct Hin|].
      destruct Hin as [Heq|[]]. symmetry in Heq.
      apply storage_name_case_id in Heq. subst col.
      cbn in Hcol. repeat (destruct Hcol as [Hcol|Hcol]; [discriminate Hcol|]).
      exact Hcol. }
  destruct (In_nth_error _ _ Hvals) as [k Hk].
  destruct (nth_error (data p) k) as [pvals|] eqn:Hpk.
  2:{ apply nth_error_None in Hpk. unfold p in Hpk. rewrite prepare_length in Hpk.
      assert (k < List.length (data df))%nat by (apply nth_error_Some; congruence).
      lia. }
  assert (get (series (columns p) pvals) "type" = get (series (columns df) vals) "type")
    as Htype.
  { pose proof (column_nth p "type" k pvals Hpk) as Hp.
    unfold p in Hp. rewrite prepare_type_column in Hp.
    rewrite (column_nth df "type" k vals Hk) in Hp. now inversion Hp. }
  assert (exists e c',
            Sql.foldM (App.insert_row case_id cols) 0 (iterrows (Frame.select p cols))
              (Sql.connect db) = (Raise e, c')) as [e [c1 Hloop]].
  { apply (foldM_raises _
             (0 + Z.of_nat k, series cols (map (get (series (columns p) pvals)) cols))).
    - intros acc s.
      apply (insert_row_raises case_id acc cols _ _ (storage_name col));
        [ rewrite Htype; exact Hbilling
        | cbn in Hcol; destruct Hcol as [<-|[<-|[<-|[]]]]; cbn; auto
        | exact Hmem ].
    - rewrite iterrows_select. unfold enumerate.
      apply (nth_error_In _ k).
      rewrite enumerate_from_nth, nth_error_map, Hpk. reflexivity. }
  unfold App.insert_data_to_db, Sql.try_except, Sql.bind in *.
  fold cols in Hall |- *. rewrite Hloop in *. cbn in *.
  exists e. eexists. split; [reflexivity|]. exact Hall.
Qed.

Lemma app_billing_row_needs_billing_columns_witness :
  exists e c',
    App.insert_data_to_db (RT := World.runtime) (ST := World.store)
      (App.prepare_data_for_db (RT := World.runtime) Desk.no_hours_table 7) 7
      (Sql.connect World.empty_db)
    = (Raise e, c')
    /\ Sql.committed c' = World.empty_db /\ Sql.working c' = World.empty_db.
Proof.
  apply (app_billing_row_needs_billing_columns (RT := World.runtime) (ST := World.store)
           Desk.no_hours_table 7 World.empty_db "billing-hrs"
           [ CText "billing-type"; CTime (World.at_time 8 0); CText "Call: Phone Call";
             CText "a"; CText "b"; CEmpty; CText "work done"; CEmpty; CEmpty; CEmpty;
             CTime (World.at_time 9 0); CTime (World.at_time 10 0) ]).
  - cbn. auto.
  - cbn. intros H. repeat (destruct H as [H|H]; [discriminate H|]). exact H.
  - cbn. intros H. repeat (destruct H as [H|H]; [discriminate H|]). exact H.
  - left. reflexivity.
  - reflexivity.
Defined.

(** ** A spreadsheet without rows *)

Section HeaderOnly.
Context {RT : Runtime} {ST : Sql.Store}.
Import Sql.

Lemma missing_of_none (required : list string) (df : DataFrame) :
  (forall col, In col required -> In col (columns df)) -> missing_of required df = [].
Proof.
  intros H. destruct (missing_of required df) as [|col l] eqn:E; [reflexivity|].
  assert (In col (missing_of required df)) as Hin by (rewrite E; now left).
  apply missing_of_In in Hin. destruct Hin as [Hreq Hnot]. elim Hnot. now apply H.
Qed.

Lemma to_sql_no_rows (df : DataFrame) (db : Db) :
  data df = [] -> to_sql df (connect db) = (Ok tt, connect db).
Proof.
  intros Hnil. unfold to_sql. rewrite Hnil. cbn [foldM ret].
  destruct to_sql_commits; reflexivity.
Qed.

End HeaderOnly.

(** X24. A spreadsheet that has the required columns and no row goes
    through: both validators find it valid with nothing recorded, and
    both importers report success with no entry added, no error, and a
    database that holds what it held. *)
Theorem header_only_table_imports {RT : Runtime} {ST : Sql.Store}
    (df : DataFrame) (case_id : Z) (db : Sql.Db) :
  data df = [] ->
  (forall col, In col Validation.required_columns -> In col (columns df)) ->
  Validation.validate_case_file_data df
  = Ok (Validation.mkReport true [] [] [] [] (Validation.mkSampleErrors [] [] []))
  /\ App.validate_case_file_data df = Ok (App.mkReport true [] [])
  /\ ExcelLoader.load_case_file_to_db df case_id (Sql.connect db)
     = (ExcelLoader.mkImportResults true 0 0 [], Sql.connect db)
  /\ App.insert_data_to_db (App.prepare_data_for_db df case_id) case_id (Sql.connect db)
     = (Ok 0, Sql.connect db).
Proof.
  intros Hnil Hcols.
  pose proof (missing_of_none _ _ Hcols) as Hmissing.
  assert (iterrows df = []) as Hrows by (unfold iterrows; now rewrite Hnil).
  assert (Frame.column df "type" = []) as Htypes
    by (unfold Frame.column; now rewrite Hnil).
  split; [|split; [|split]].
  - unfold Validation.validate_case_file_data.
    rewrite check_columns_initial, Hmissing, Hrows.
    fold (Frame.column df "type"). rewrite Htypes. reflexivity.
  - rewrite app_validate_spec.
    change App.required_columns with Validation.required_columns.
    rewrite Hmissing, Htypes. reflexivity.
  - rewrite load_case_file_to_db_cases.
    assert (data (filtered_df df case_id) = []) as Hf.
    { apply length_zero_iff_nil. now rewrite filtered_df_length, Hnil. }
    rewrite (to_sql_no_rows _ _ Hf). cbv zeta.
    unfold ExcelLoader.billing_rows.
    rewrite (proj2 (mem_true_iff "type" (columns df))) by (apply Hcols; cbn; auto).
    rewrite Hrows. unfold len. rewrite Hf. reflexivity.
  - unfold App.insert_data_to_db, Sql.try_except, Sql.bind.
    rewrite iterrows_select.
    assert (data (App.prepare_data_for_db df case_id) = []) as Hp.
    { apply length_zero_iff_nil. now rewrite prepare_length, Hnil. }
    rewrite Hp. reflexivity.
Qed.

Lemma header_only_table_imports_witness :
  Validation.validate_case_file_data (RT := World.runtime) Desk.header_only_table
  = Ok (Validation.mkReport true [] [] [] [] (Validation.mkSampleErrors [] [] []))
  /\ App.validate_case_file_data Desk.header_only_table = Ok (App.mkReport true [] [])
  /\ ExcelLoader.load_case_file_to_db (RT := World.runtime) (ST := World.store)
       Desk.header_only_table 7 (Sql.connect World.empty_db)
     = (ExcelLoader.mkImportResults true 0 0 [], Sql.connect World.empty_db)
  /\ App.insert_data_to_db (RT := World.runtime) (ST := World.store)
       (App.prepare_data_for_db (RT := World.runtime) Desk.header_only_table 7) 7
       (Sql.connect World.empty_db)
     = (Ok 0, Sql.connect World.empty_db).
Proof.
  apply (header_only_table_imports (RT := World.runtime) (ST := World.store)
           Desk.header_only_table 7 World.empty_db).
  - reflexivity.
  - intros col H. cbn in H.
    repeat (destruct H as [<-|H]; [cbn; auto 20|]). contradiction.
Defined.

(** ** The date of a row *)

Section DateRows.
Context {RT : Runtime}.

(** What the loop body of the date loop returns on a row, by its date
    and type. *)
Lemma check_row_dates_by_date (idx : Z) (cols : list string) (vals : list cell) :
  In "date" cols -> In "type" cols ->
  let row := series cols vals in
  (isna (get row "date") = true -> Validation.check_row_dates (idx, row) = Ok [])
  /\ (isna (get row "date") = false -> is_timestamp (get row "date") = false ->
      strptime_ok (Validation.str_of_cell (get row "date")) = false ->
      Validation.check_row_dates (idx, row)
      = Ok [ Validation.DateFormat (idx + 2) (get row "date") ValueError ])
  /\ (date_accepted (get row "date") = true ->
      cell_is (get row "type") "billing-type" = false ->
      Validation.check_row_dates (idx, row) = Ok []).
Proof.
  intros Hd Ht row.
  unfold Validation.check_row_dates, Validation.date_checks, Validation.abind,
    Validation.lift, Validation.aret, Validation.strptime.
  unfold row. rewrite !getitem_series by assumption. fold row.
  split; [|split].
  - intros ->. reflexivity.
  - intros -> -> ->. reflexivity.
  - unfold date_accepted. intros Hacc Hty.
    apply andb_true_iff in Hacc. destruct Hacc as [Hna Hfmt].
    apply negb_true_iff in Hna. rewrite Hna, Hty.
    destruct (is_timestamp (get row "date")); cbn [negb orb] in *;
      [|rewrite Hfmt]; reflexivity.
Qed.

End DateRows.

(** X25. The date check of validation.py, row by row, on a table that
    has the required columns. A row whose date cell is empty gets no
    entry in [date_format_errors] at all, whatever its type and billing
    cells. A row whose date is present, is not a timestamp and does not
    parse under the format "%m/%d/%Y %I:%M %p" gets exactly one entry
    under its row number (position + 2): the parse error with the date
    cell; the report is then invalid. A row with an accepted date that
    is not of type [billing-type] gets no entry. *)
Theorem date_format_rows {RT : Runtime} (df : DataFrame) (r : Validation.Report)
    (k : nat) (vals : list cell) :
  Validation.validate_case_file_data df = Ok r ->
  Validation.missing_columns r = [] ->
  nth_error (data df) k = Some vals ->
  (isna (get (series (columns df) vals) "date") = true ->
   forall e, In e (Validation.date_format_errors r) -> error_row e <> Z.of_nat k + 2)
  /\ (isna (get (series (columns df) vals) "date") = false ->
      is_timestamp (get (series (columns df) vals) "date") = false ->
      strptime_ok (Validation.str_of_cell (get (series (columns df) vals) "date")) = false ->
      (forall e,
         In e (Validation.date_format_errors r) /\ error_row e = Z.of_nat k + 2
         <-> e = Validation.DateFormat (Z.of_nat k + 2)
                   (get (series (columns df) vals) "date") ValueError)
      /\ Validation.valid r = false)
  /\ (date_accepted (get (series (columns df) vals) "date") = true ->
      cell_is (get (series (columns df) vals) "type") "billing-type" = false ->
      forall e, In e (Validation.date_format_errors r) -> error_row e <> Z.of_nat k + 2).
Proof.
  intros H Hm Hk.
  destruct (date_errors_of_row df r k vals H Hm Hk) as [errs [Hf [Hin [Hof Hinvalid]]]].
  assert (In "date" (columns df)) as Hcd
    by (apply (required_present df r); auto; cbn; auto).
  assert (In "type" (columns df)) as Hct
    by (apply (required_present df r); auto; cbn; auto).
  destruct (check_row_dates_by_date (Z.of_nat k) (columns df) vals Hcd Hct)
    as [Hempty [Hbad Hgood]].
  split; [|split].
  - intros Hna e He Hrow. rewrite (Hempty Hna) in Hf. inversion Hf; subst errs.
    exact (Hof e He Hrow).
  - intros Hna Hts Hfmt. rewrite (Hbad Hna Hts Hfmt) in Hf. inversion Hf; subst errs.
    split.
    + intros e. split.
      * intros [He Hrow]. destruct (Hof e He Hrow) as [<-|[]]. reflexivity.
      * intros ->. split; [apply Hin; now left | reflexivity].
    + apply Hinvalid. discriminate.
  - intros Hacc Hty e He Hrow. rewrite (Hgood Hacc Hty) in Hf. inversion Hf; subst errs.
    exact (Hof e He Hrow).
Qed.

Lemma date_format_rows_witness :
  exists r,
    Validation.validate_case_file_data (RT := World.runtime) Desk.bad_date_table = Ok r
    /\ (forall e, In e (Validation.date_format_errors r) -> error_row e <> 2)
    /\ In (Validation.DateFormat 3 (CText "yesterday") ValueError)
         (Validation.date_format_errors r)
    /\ Validation.valid r = false
    /\ (forall e, In e (Validation.date_format_errors r) -> error_row e <> 4).
Proof.
  eexists. split; [vm_compute; reflexivity|].
  match goal with
  | |- (forall e, In e (Validation.date_format_errors ?r) -> _) /\ _ =>
      destruct (date_format_rows (RT := World.runtime) Desk.bad_date_table r 0
                  [ CText "email-type"; CEmpty; CText "Hello"; CText "a"; CText "b";
                    CEmpty; CText "text"; CEmpty; CEmpty; CEmpty; CEmpty; CEmpty; CEmpty ]
                  eq_refl eq_refl eq_refl) as [Hempty _];
      destruct (date_format_rows (RT := World.runtime) Desk.bad_date_table r 1
                  [ CText "email-type"; CText "yesterday"; CText "Hello"; CText "a";
                    CText "b"; CEmpty; CText "text"; CEmpty; CEmpty; CEmpty; CEmpty;
                    CEmpty; CEmpty ]
                  eq_refl eq_refl eq_refl) as [_ [Hbad _]];
      destruct (date_format_rows (RT := World.runtime) Desk.bad_date_table r 2
                  (World.plain_row "doc-type" "Draft")
                  eq_refl eq_refl eq_refl) as [_ [_ Hgood]]
  end.
  destruct (Hbad eq_refl eq_refl eq_refl) as [Hiff Hinvalid].
  split; [exact (Hempty eq_refl)|].
  split; [exact (proj1 (proj2 (Hiff _) eq_refl))|].
  split; [exact Hinvalid | exact (Hgood eq_refl eq_refl)].
Defined.
